(** * ProFinder: the connection / blocking state machine and the chat feed

  A shallow embedding of the client-side handlers of the ProFinder web
  application (Next.js + Firestore) that mutate and read the relationship
  arrays of user documents ([connections], [pendingConnections],
  [blockedUsers]) and the [messages] collection:

  - [src/app/messages/[userId]/page.tsx]  (MessagesPage)
  - the browse page                        (BrowsePage)
  - the profile page and the admin page    (ProfilePage, AdminPage)

  Firestore is an external collaborator.  It is modelled as a record of
  two collections; every handler is a computation in a small state and
  exception monad over the pair (store, React state of the page).  Each
  [async] handler is run to completion in one step: interleavings of
  several handlers are outside this model. *)

From stdpp Require Import gmap strings list fin_maps.
From Stdlib Require Import NArith ZArith.

Open Scope string_scope.
Open Scope list_scope.

(** ** JavaScript values *)

(** A JavaScript string is a sequence of UTF-16 code units.  Identifiers of
  documents are kept as [string]; message texts, which the code trims, are
  kept as code-unit lists. *)
Abbreviation jsstring := (list N).

Module JS.

(** [Array.prototype.includes] on an array of ids. *)
Definition includes (x : string) (l : list string) : bool :=
  bool_decide (x ∈ l).

(** [value || []] for a field that may be undefined. *)
Definition orEmpty {A} (f : option (list A)) : list A := default [] f.

(** [value || false]. *)
Definition orFalse (f : option bool) : bool := default false f.

(** WhiteSpace and LineTerminator code units of ECMAScript, the ones
    [String.prototype.trim] strips. *)
Definition isWhiteSpace (c : N) : bool :=
  bool_decide (c ∈ [0x09; 0x0A; 0x0B; 0x0C; 0x0D; 0x20; 0xA0; 0x1680;
                    0x2000; 0x2001; 0x2002; 0x2003; 0x2004; 0x2005; 0x2006;
                    0x2007; 0x2008; 0x2009; 0x200A; 0x2028; 0x2029; 0x202F;
                    0x205F; 0x3000; 0xFEFF]%N).

Fixpoint trimStart (s : jsstring) : jsstring :=
  match s with
  | c :: s' => if isWhiteSpace c then trimStart s' else s
  | [] => []
  end.

Definition trimEnd (s : jsstring) : jsstring :=
  reverse (trimStart (reverse s)).

(** [String.prototype.trim]. *)
Definition trim (s : jsstring) : jsstring := trimEnd (trimStart s).

(** Truthiness of a string: only the empty string is falsy. *)
Definition truthy (s : jsstring) : bool :=
  match s with [] => false | _ => true end.

End JS.

(** ** The document store *)

Module Firestore.

(** The relationship fields of a document of the [users] collection.  A
    field is [None] while it has never been written: registration creates
    the document without any of the three arrays. *)
Record UserDoc := MkUserDoc {
  connections : option (list string);
  pendingConnections : option (list string);
  blockedUsers : option (list string)
}.

(** A document of the [messages] collection. *)
Record MessageDoc := MkMessageDoc {
  doc_senderId : string;
  doc_receiverId : string;
  doc_text : jsstring;
  doc_timestamp : option Z;
  doc_seen : option bool;
  doc_reactions : option (gmap string jsstring);
  doc_isDeleted : option bool;
  doc_edited : option bool
}.

(** The store: both collections, the user documents whose read currently
    raises (transport or permission failure), and the server clock behind
    [serverTimestamp()].  A write fails only when it updates a document that
    does not exist. *)
Record World := MkWorld {
  coll_users : gmap string UserDoc;
  coll_messages : gmap string MessageDoc;
  unreadable : gset string;
  clock : Z
}.

Definition with_users (f : gmap string UserDoc → gmap string UserDoc)
    (w : World) : World :=
  MkWorld (f (coll_users w)) (coll_messages w) (unreadable w) (clock w).

Definition with_messages (f : gmap string MessageDoc → gmap string MessageDoc)
    (w : World) : World :=
  MkWorld (coll_users w) (f (coll_messages w)) (unreadable w) (clock w).

Definition tick (w : World) : World :=
  MkWorld (coll_users w) (coll_messages w) (unreadable w) (clock w + 1).

(** What a rejected promise carries. *)
Inductive Error :=
| NotFound        (* update of a document that does not exist *)
| Unavailable     (* the read could not be served *)
| NotAuthenticated (* [new Error("User not authenticated")] *)
| AuthFailure.    (* [user.delete()] refused by the auth service *)

Inductive result (A : Type) :=
| Ok (a : A)
| Throw (e : Error).
Arguments Ok {A} a.
Arguments Throw {A} e.

(** Field transforms accepted by [updateDoc] on an array field. *)
Inductive FieldOp :=
| ArrayUnion (x : string)
| ArrayRemove (x : string)
| SetTo (l : list string).

(** [arrayUnion]: appended unless already present. *)
Definition arrayUnion (x : string) (l : list string) : list string :=
  if JS.includes x l then l else l ++ [x].

(** [arrayRemove]: every instance removed. *)
Definition arrayRemove (x : string) (l : list string) : list string :=
  filter (λ y, y ≠ x) l.

(** A transform on a field that is not yet an array treats it as empty. *)
Definition applyOp (op : option FieldOp) (f : option (list string))
    : option (list string) :=
  match op with
  | None => f
  | Some (ArrayUnion x) => Some (arrayUnion x (JS.orEmpty f))
  | Some (ArrayRemove x) => Some (arrayRemove x (JS.orEmpty f))
  | Some (SetTo l) => Some l
  end.

(** The partial object passed to [updateDoc] on a user document. *)
Record UserUpdate := MkUserUpdate {
  upd_connections : option FieldOp;
  upd_pendingConnections : option FieldOp;
  upd_blockedUsers : option FieldOp
}.

Definition applyUpdate (u : UserUpdate) (d : UserDoc) : UserDoc :=
  MkUserDoc (applyOp (upd_connections u) (connections d))
            (applyOp (upd_pendingConnections u) (pendingConnections d))
            (applyOp (upd_blockedUsers u) (blockedUsers d)).

End Firestore.
Export Firestore.

(** ** Handlers as computations *)

(** The state a handler runs against: the store and the React state of the
  page it belongs to. *)
Record Sys (P : Type) := MkSys { store : World; ui : P }.
Arguments MkSys {P} store ui.
Arguments store {P} s.
Arguments ui {P} s.

(** A handler may change the state and either returns or throws; what was
  written before a throw stays written. *)
Definition Handler (P A : Type) : Type := Sys P → Sys P * result A.

#[global] Instance handler_ret {P} : MRet (Handler P) :=
λ A a s, (s, Ok a).

#[global] Instance handler_bind {P} : MBind (Handler P) :=
λ A B f m s,
  match m s with
  | (s', Ok a) => f a s'
  | (s', Throw e) => (s', Throw e)
  end.

Section Primitives.
Context {P : Type}.

Definition throw {A} (e : Error) : Handler P A := λ s, (s, Throw e).

(** [try { body } catch (error) { handler(error) }] *)
Definition try_catch {A} (body : Handler P A) (handler : Error → Handler P A)
    : Handler P A :=
  λ s, match body s with
       | (s', Ok a) => (s', Ok a)
       | (s', Throw e) => handler e s'
       end.

(** [console.error]: diagnostic only. *)
Definition console_error : Handler P unit := mret ().

(** A React state setter. *)
Definition setState (f : P → P) : Handler P unit :=
  λ s, (MkSys (store s) (f (ui s)), Ok ()).

Definition getState : Handler P P := λ s, (s, Ok (ui s)).

(** [getDoc(doc(db, "users", id))]: [None] when [exists()] is false. *)
Definition getDoc (id : string) : Handler P (option UserDoc) :=
  λ s, if bool_decide (id ∈ unreadable (store s))
       then (s, Throw Unavailable)
       else (s, Ok (coll_users (store s) !! id)).

(** [updateDoc(doc(db, "users", id), u)]: fails on a missing document. *)
Definition updateDoc (id : string) (u : UserUpdate) : Handler P unit :=
  λ s, match coll_users (store s) !! id with
       | Some d =>
           (MkSys (with_users (insert id (applyUpdate u d)) (store s)) (ui s),
            Ok ())
       | None => (s, Throw NotFound)
       end.

(** [deleteDoc(doc(db, "users", id))]: succeeds whether or not it exists. *)
Definition deleteDoc (id : string) : Handler P unit :=
  λ s, (MkSys (with_users (delete id) (store s)) (ui s), Ok ()).

(** [updateDoc(doc(db, "messages", id), fields)]. *)
Definition updateMessage (id : string) (f : MessageDoc → MessageDoc)
    : Handler P unit :=
  λ s, match coll_messages (store s) !! id with
       | Some d =>
           (MkSys (with_messages (insert id (f d)) (store s)) (ui s), Ok ())
       | None => (s, Throw NotFound)
       end.

End Primitives.

Section Batches.
Context {P : Type}.

(** [addDoc(collection(db, "messages"), d)]; [autoId] is the identifier the
  client library generates for the new document, and [d] awaits the value
  the server substitutes for [serverTimestamp()]. *)
Definition addDoc (autoId : string) (d : Z → MessageDoc) : Handler P unit :=
  λ s, (MkSys (tick (with_messages (insert autoId (d (clock (store s))))
                       (store s))) (ui s),
        Ok ()).

(** A [writeBatch] whose operations are all [batch.update(ref, fields)],
  committed: the updates apply together, or none does when one of the
  documents is missing. *)
Definition commitBatch (ids : list string) (f : MessageDoc → MessageDoc)
    : Handler P unit :=
  λ s, if forallb (λ i, bool_decide (is_Some (coll_messages (store s) !! i))) ids
       then (MkSys (with_messages (λ m, foldr (alter f) m ids) (store s)) (ui s),
             Ok ())
       else (s, Throw NotFound).

End Batches.

(** ** MessagesPage *)

Module MessagesPage.

(** [interface Message]: a message as the page holds it. *)
Record Message := MkMessage {
  id : string;
  senderId : string;
  receiverId : string;
  text : jsstring;
  timestamp : Z;
  seen : bool;
  reactions : gmap string jsstring;
  isDeleted : bool;
  edited : bool
}.

(** The [useState] cells of the component the handlers read or write, and
  the [alert]s shown so far (latest last). *)
Record Page := MkPage {
  selectedUser : option string;
  messages : list Message;
  newMessage : jsstring;
  editingMessageId : option string;
  editingMessageText : jsstring;
  isBlocked : bool;
  isBlockedByThem : bool;
  isReported : bool;
  unreadMessages : gmap string nat;
  lastMessages : gmap string (jsstring * string);
  loading : bool;
  alerts : list string
}.

Definition setMessages (v : list Message) (p : Page) : Page :=
  MkPage (selectedUser p) v (newMessage p) (editingMessageId p)
    (editingMessageText p) (isBlocked p) (isBlockedByThem p) (isReported p)
    (unreadMessages p) (lastMessages p) (loading p) (alerts p).

Definition setNewMessage (v : jsstring) (p : Page) : Page :=
  MkPage (selectedUser p) (messages p) v (editingMessageId p)
    (editingMessageText p) (isBlocked p) (isBlockedByThem p) (isReported p)
    (unreadMessages p) (lastMessages p) (loading p) (alerts p).

Definition setEditingMessageId (v : option string) (p : Page) : Page :=
  MkPage (selectedUser p) (messages p) (newMessage p) v
    (editingMessageText p) (isBlocked p) (isBlockedByThem p) (isReported p)
    (unreadMessages p) (lastMessages p) (loading p) (alerts p).

Definition setEditingMessageText (v : jsstring) (p : Page) : Page :=
  MkPage (selectedUser p) (messages p) (newMessage p) (editingMessageId p)
    v (isBlocked p) (isBlockedByThem p) (isReported p)
    (unreadMessages p) (lastMessages p) (loading p) (alerts p).

Definition setIsBlocked (v : bool) (p : Page) : Page :=
  MkPage (selectedUser p) (messages p) (newMessage p) (editingMessageId p)
    (editingMessageText p) v (isBlockedByThem p) (isReported p)
    (unreadMessages p) (lastMessages p) (loading p) (alerts p).

Definition setIsBlockedByThem (v : bool) (p : Page) : Page :=
  MkPage (selectedUser p) (messages p) (newMessage p) (editingMessageId p)
    (editingMessageText p) (isBlocked p) v (isReported p)
    (unreadMessages p) (lastMessages p) (loading p) (alerts p).

Definition setUnreadMessages (f : gmap string nat → gmap string nat)
    (p : Page) : Page :=
  MkPage (selectedUser p) (messages p) (newMessage p) (editingMessageId p)
    (editingMessageText p) (isBlocked p) (isBlockedByThem p) (isReported p)
    (f (unreadMessages p)) (lastMessages p) (loading p) (alerts p).

Definition setLastMessages
    (f : gmap string (jsstring * string) → gmap string (jsstring * string))
    (p : Page) : Page :=
  MkPage (selectedUser p) (messages p) (newMessage p) (editingMessageId p)
    (editingMessageText p) (isBlocked p) (isBlockedByThem p) (isReported p)
    (unreadMessages p) (f (lastMessages p)) (loading p) (alerts p).

(** [alert(msg)] *)
Definition alert (msg : string) : Handler Page unit :=
  setState (λ p,
    MkPage (selectedUser p) (messages p) (newMessage p) (editingMessageId p)
      (editingMessageText p) (isBlocked p) (isBlockedByThem p) (isReported p)
      (unreadMessages p) (lastMessages p) (loading p) (alerts p ++ [msg])).

(** *** Block status *)

(** [isUserBlocked]: does [blockerId]'s document list [blockedId]?  A missing
  document and a failed read both answer [false]. *)
Definition isUserBlocked (blockerId blockedId : string) : Handler Page bool :=
  try_catch
    (userDoc ← getDoc blockerId;
     match userDoc with
     | Some data => mret (JS.includes blockedId (JS.orEmpty (blockedUsers data)))
     | None => mret false
     end)
    (λ _, console_error;; mret false).

Record BlockStatus := MkBlockStatus {
  user1BlocksUser2 : bool;
  user2BlocksUser1 : bool
}.

(** [checkMutualBlockStatus]: both directions. *)
Definition checkMutualBlockStatus (user1Id user2Id : string)
    : Handler Page BlockStatus :=
  b12 ← isUserBlocked user1Id user2Id;
  b21 ← isUserBlocked user2Id user1Id;
  mret (MkBlockStatus b12 b21).

(** The effect run when the selected user changes. *)
Definition updateBlockStatus (currentUser : option string) : Handler Page unit :=
  p ← getState;
  match currentUser, selectedUser p with
  | Some me, Some other =>
      try_catch
        (blockStatus ← checkMutualBlockStatus me other;
         setState (setIsBlocked (user1BlocksUser2 blockStatus));;
         setState (setIsBlockedByThem (user2BlocksUser1 blockStatus)))
        (λ _, console_error)
  | _, _ => mret ()
  end.

(** *** The message subscription *)

(** How a snapshot document becomes a [Message]. *)
Definition toMessage (d : string * MessageDoc) : Message :=
  MkMessage d.1 (doc_senderId d.2) (doc_receiverId d.2) (doc_text d.2)
    (default 0%Z (doc_timestamp d.2)) (JS.orFalse (doc_seen d.2))
    (default ∅ (doc_reactions d.2)) (JS.orFalse (doc_isDeleted d.2))
    (JS.orFalse (doc_edited d.2)).

Definition unseenFor (me : string) (m : Message) : bool :=
  bool_decide (receiverId m = me) && negb (seen m).

Definition markSeen (d : MessageDoc) : MessageDoc :=
  MkMessageDoc (doc_senderId d) (doc_receiverId d) (doc_text d)
    (doc_timestamp d) (Some true) (doc_reactions d) (doc_isDeleted d)
    (doc_edited d).

(** The [onSnapshot] callback of the conversation between [me] and [other],
  run on the documents of one snapshot. *)
Definition onSnapshot (me other : string) (docs : list (string * MessageDoc))
    : Handler Page unit :=
  try_catch
    (blockStatus ← checkMutualBlockStatus me other;
     if user1BlocksUser2 blockStatus || user2BlocksUser1 blockStatus
     then setState (setMessages [])
     else
       let messagesData := toMessage <$> docs in
       commitBatch (id <$> filter (λ m, unseenFor me m) messagesData) markSeen;;
       setState (setMessages messagesData);;
       let unreadCount := length (filter (λ m, unseenFor me m) messagesData) in
       setState (setUnreadMessages (insert other unreadCount));;
       match last messagesData with
       | Some lastMessage =>
           setState (setLastMessages
                       (insert other (text lastMessage, senderId lastMessage)))
       | None => mret ()
       end)
    (λ _, console_error).

(** *** Sending, editing and deleting *)

Definition blockedByThemAlert : string :=
  "Cannot send message. You have been blocked by this user.".
Definition blockedByMeAlert : string :=
  "Cannot send message. You have blocked this user. Unblock them first.".
Definition sendFailedAlert : string :=
  "Failed to send message. Please try again.".

(** The document [handleSendMessage] creates. *)
Definition newMessageDoc (me other : string) (body : jsstring)
    (serverTimestamp : Z) : MessageDoc :=
  MkMessageDoc me other body (Some serverTimestamp) (Some false) (Some ∅)
    (Some false) (Some false).

(** [handleSendMessage]; [autoId] is the identifier [addDoc] would pick. *)
Definition handleSendMessage (currentUser : option string) (autoId : string)
    : Handler Page unit :=
  p ← getState;
  match currentUser, selectedUser p with
  | Some me, Some other =>
      if negb (JS.truthy (JS.trim (newMessage p))) then mret ()
      else
        try_catch
          (blockStatus ← checkMutualBlockStatus me other;
           if user2BlocksUser1 blockStatus then alert blockedByThemAlert
           else if user1BlocksUser2 blockStatus then alert blockedByMeAlert
           else
             addDoc autoId (newMessageDoc me other (JS.trim (newMessage p)));;
             setState (setNewMessage []))
          (λ _, console_error;; alert sendFailedAlert)
  | _, _ => mret ()
  end.

Definition softDelete (d : MessageDoc) : MessageDoc :=
  MkMessageDoc (doc_senderId d) (doc_receiverId d) (doc_text d)
    (doc_timestamp d) (doc_seen d) (doc_reactions d) (Some true)
    (doc_edited d).

Definition editTo (newText : jsstring) (d : MessageDoc) : MessageDoc :=
  MkMessageDoc (doc_senderId d) (doc_receiverId d) newText
    (doc_timestamp d) (doc_seen d) (doc_reactions d) (doc_isDeleted d)
    (Some true).

(** [handleDeleteMessage] *)
Definition handleDeleteMessage (currentUser : option string)
    (messageId : string) : Handler Page unit :=
  match currentUser with
  | None => mret ()
  | Some _ =>
      try_catch (updateMessage messageId softDelete) (λ _, console_error)
  end.

(** [handleEditMessage] *)
Definition handleEditMessage (currentUser : option string)
    (messageId : string) (newText : jsstring) : Handler Page unit :=
  match currentUser with
  | None => mret ()
  | Some _ =>
      try_catch
        (updateMessage messageId (editTo newText);;
         setState (setEditingMessageId None);;
         setState (setEditingMessageText []))
        (λ _, console_error)
  end.

(** *** Blocking and unblocking *)

Definition setBlocked (l : list string) : UserUpdate :=
  MkUserUpdate None None (Some (SetTo l)).

(** [handleBlockUser] *)
Definition handleBlockUser (currentUser : option string) (userId : string)
    : Handler Page unit :=
  match currentUser with
  | None => mret ()
  | Some me =>
      try_catch
        (userDoc ← getDoc me;
         match userDoc with
         | Some data =>
             let blocked := JS.orEmpty (blockedUsers data) in
             if negb (JS.includes userId blocked) then
               updateDoc me (setBlocked (blocked ++ [userId]));;
               setState (setIsBlocked true);;
               setState (setMessages []);;
               alert "User blocked successfully."
             else alert "User is already blocked."
         | None => mret ()
         end)
        (λ _, console_error;; alert "Failed to block user. Please try again.")
  end.

(** [handleUnblockUser] *)
Definition handleUnblockUser (currentUser : option string) (userId : string)
    : Handler Page unit :=
  match currentUser with
  | None => mret ()
  | Some me =>
      try_catch
        (userDoc ← getDoc me;
         match userDoc with
         | Some data =>
             let blocked := JS.orEmpty (blockedUsers data) in
             if JS.includes userId blocked then
               let updatedBlockedUsers := filter (λ i, i ≠ userId) blocked in
               updateDoc me (setBlocked updatedBlockedUsers);;
               setState (setIsBlocked false);;
               alert "User unblocked successfully."
             else alert "User is not blocked."
         | None => mret ()
         end)
        (λ _, console_error;; alert "Failed to unblock user. Please try again.")
  end.

(** *** What is rendered *)

(** The four alternatives of the messages area. *)
Inductive MessagesArea :=
| BlockedNotice (headline detail : string)
| LoadingSkeleton
| NoMessagesYet
| MessageList (rows : list Message).

Definition messagesArea (p : Page) : MessagesArea :=
  if isBlocked p || isBlockedByThem p then
    BlockedNotice
      (if isBlockedByThem p then "You have been blocked by this user"
       else "You have blocked this user")
      (if isBlockedByThem p then "You cannot see messages or send new ones"
       else "Unblock to see messages and chat again")
  else if loading p then LoadingSkeleton
  else if bool_decide (length (messages p) = 0) then NoMessagesYet
  else MessageList (messages p).

(** The messages that reach the screen. *)
Definition visibleMessages (p : Page) : list Message :=
  match messagesArea p with
  | MessageList rows => rows
  | _ => []
  end.

(** The controls rendered inside one message bubble. *)
Inductive Control :=
| ReactButton
| EditButton      (* enters edit mode for the message *)
| DeleteButton    (* calls [handleDeleteMessage] *)
| SaveEditButton  (* calls [handleEditMessage] with the edited text *)
| CancelEditButton.

Definition messageControls (currentUser : option string) (p : Page)
    (message : Message) : list Control :=
  if isDeleted message then []
  else if bool_decide (editingMessageId p = Some (id message))
  then [SaveEditButton; CancelEditButton]
  else
    ReactButton ::
    (if bool_decide (currentUser = Some (senderId message))
        && negb (isDeleted message)
     then [EditButton; DeleteButton] else []).

End MessagesPage.

(** ** BrowsePage *)

Module BrowsePage.

(** [interface UserProfile], restricted to the fields the connection logic
  reads.  There is no [blockedUsers] field on this page. *)
Record UserProfile := MkUserProfile {
  id : string;
  connections : list string;
  pendingConnections : list string
}.

(** The [profiles] state cell. *)
Record Page := MkPage { profiles : list UserProfile }.

Definition setProfiles (f : list UserProfile → list UserProfile) (p : Page)
    : Page :=
  MkPage (f (profiles p)).

(** One element of [profilesSnapshot.docs.map(...)] in [fetchData]. *)
Definition toProfile (d : string * UserDoc) : UserProfile :=
  MkUserProfile d.1 (JS.orEmpty (Firestore.connections d.2))
    (JS.orEmpty (Firestore.pendingConnections d.2)).

(** [fetchData]: load every user document (the collection read is taken
  to succeed). *)
Definition fetchData : Handler Page unit :=
  λ s, setState (setProfiles (λ _, toProfile <$> map_to_list (coll_users (store s)))) s.

(** [filteredProfiles]: the cards shown; the viewer's own card is never
  among them.  [matches] stands for the search box and the three filters. *)
Definition filteredProfiles (currentUser : option string)
    (matches : UserProfile → bool) (p : Page) : list UserProfile :=
  filter (λ profile, negb (bool_decide (currentUser = Some (id profile)))
                     && matches profile) (profiles p).

Definition requestPending (me : string) : UserUpdate :=
  MkUserUpdate None (Some (ArrayUnion me)) None.

Definition withdrawPending (me : string) : UserUpdate :=
  MkUserUpdate None (Some (ArrayRemove me)) None.

Definition dropConnection (who : string) : UserUpdate :=
  MkUserUpdate (Some (ArrayRemove who)) None None.

(** [handleAddFriend]: send a connection request to [profileId]. *)
Definition handleAddFriend (currentUser : option string) (profileId : string)
    : Handler Page unit :=
  match currentUser with
  | None => mret ()
  | Some me =>
      updateDoc profileId (requestPending me);;
      setState (setProfiles (fmap (λ profile,
        if bool_decide (id profile = profileId)
        then MkUserProfile (id profile) (connections profile)
               (pendingConnections profile ++ [me])
        else profile)))
  end.

(** [handleCancelRequest]: withdraw the request sent to [profileId]. *)
Definition handleCancelRequest (currentUser : option string)
    (profileId : string) : Handler Page unit :=
  match currentUser with
  | None => mret ()
  | Some me =>
      updateDoc profileId (withdrawPending me);;
      setState (setProfiles (fmap (λ profile,
        if bool_decide (id profile = profileId)
        then MkUserProfile (id profile) (connections profile)
               (filter (λ i, i ≠ me) (pendingConnections profile))
        else profile)))
  end.

(** [handleDisconnect] *)
Definition handleDisconnect (currentUser : option string) (profileId : string)
    : Handler Page unit :=
  match currentUser with
  | None => mret ()
  | Some me =>
      updateDoc profileId (dropConnection me);;
      updateDoc me (dropConnection profileId);;
      setState (setProfiles (fmap (λ profile,
        if bool_decide (id profile = profileId)
        then MkUserProfile (id profile)
               (filter (λ i, i ≠ me) (connections profile))
               (pendingConnections profile)
        else profile)))
  end.

(** The status area of a profile card: which of the three alternatives is
  rendered for the viewer. *)
Inductive StatusButtons :=
| ShowConnected    (* "Connected" badge, Disconnect and Message buttons *)
| ShowRequestSent  (* "Request Sent" badge and Cancel button *)
| ShowConnect.     (* Connect button, wired to [handleAddFriend] *)

Definition statusButtons (currentUser : option string) (profile : UserProfile)
    : option StatusButtons :=
  match currentUser with
  | None => None
  | Some me =>
      Some (if JS.includes me (connections profile) then ShowConnected
            else if JS.includes me (pendingConnections profile)
                 then ShowRequestSent
                 else ShowConnect)
  end.

End BrowsePage.

(** ** ProfilePage *)

Module ProfilePage.

(** What [setError] is given: [error.message] of a caught error, or a fixed
  text. *)
Inductive Banner :=
| MessageOf (e : Error)
| Literal (s : string).

(** State cells of the component.  A [PendingConnection] or [ConnectedUser]
  entry is represented by its [id]. *)
Record Page := MkPage {
  pendingConnections : list string;
  connectedUsers : list string;
  snackbarOpen : bool;
  snackbarMessage : string;
  error : option Banner;
  route : option string
}.

Definition setPendingConnections (f : list string → list string) (p : Page)
    : Page :=
  MkPage (f (pendingConnections p)) (connectedUsers p) (snackbarOpen p)
    (snackbarMessage p) (error p) (route p).

Definition setConnectedUsers (v : list string) (p : Page) : Page :=
  MkPage (pendingConnections p) v (snackbarOpen p) (snackbarMessage p)
    (error p) (route p).

Definition setSnackbarOpen (v : bool) (p : Page) : Page :=
  MkPage (pendingConnections p) (connectedUsers p) v (snackbarMessage p)
    (error p) (route p).

Definition setSnackbarMessage (v : string) (p : Page) : Page :=
  MkPage (pendingConnections p) (connectedUsers p) (snackbarOpen p) v
    (error p) (route p).

Definition setError (v : option Banner) (p : Page) : Page :=
  MkPage (pendingConnections p) (connectedUsers p) (snackbarOpen p)
    (snackbarMessage p) v (route p).

Definition routerPush (path : string) (p : Page) : Page :=
  MkPage (pendingConnections p) (connectedUsers p) (snackbarOpen p)
    (snackbarMessage p) (error p) (Some path).

(** [Promise.all(ids.map(async id => ...))] followed by [.filter(Boolean)]:
  the ids whose document exists; any failed read rejects the whole. *)
Fixpoint fetchExisting (ids : list string) : Handler Page (list string) :=
  match ids with
  | [] => mret []
  | i :: rest =>
      connectionDoc ← getDoc i;
      found ← fetchExisting rest;
      mret (match connectionDoc with
            | Some _ => i :: found
            | None => found
            end)
  end.

(** The relationship part of [fetchUserData]. *)
Definition fetchUserData (user : option string) : Handler Page unit :=
  match user with
  | None => mret ()
  | Some me =>
      try_catch
        (userDoc ← getDoc me;
         match userDoc with
         | Some userData =>
             pendingConnectionsData ←
               fetchExisting (JS.orEmpty (Firestore.pendingConnections userData));
             setState (setPendingConnections (λ _, pendingConnectionsData));;
             connectedUsersData ←
               fetchExisting (JS.orEmpty (Firestore.connections userData));
             setState (setConnectedUsers connectedUsersData)
         | None => mret ()
         end)
        (λ _, console_error;;
              setState (setError
                (Some (Literal "Failed to fetch user data. Please try again."))))
  end.

(** The controls rendered next to each entry of the pending list. *)
Inductive RequestControl := AcceptButton | RejectButton.

Definition pendingRequests (p : Page) : list (string * list RequestControl) :=
  (λ connection, (connection, [AcceptButton; RejectButton]))
    <$> pendingConnections p.

Definition acceptUpdate (who : string) : UserUpdate :=
  MkUserUpdate (Some (ArrayUnion who)) (Some (ArrayRemove who)) None.

Definition rejectUpdate (who : string) : UserUpdate :=
  MkUserUpdate None (Some (ArrayRemove who)) None.

(** [handleAcceptConnection] *)
Definition handleAcceptConnection (user : option string) (connectionId : string)
    : Handler Page unit :=
  match user with
  | None => mret ()
  | Some me =>
      try_catch
        (updateDoc me (acceptUpdate connectionId);;
         updateDoc connectionId (acceptUpdate me);;
         setState (setPendingConnections (filter (λ conn, conn ≠ connectionId)));;
         setState (setSnackbarMessage "Connection request accepted!");;
         setState (setSnackbarOpen true))
        (λ e, console_error;; setState (setError (Some (MessageOf e))))
  end.

(** [handleRejectConnection] *)
Definition handleRejectConnection (user : option string) (connectionId : string)
    : Handler Page unit :=
  match user with
  | None => mret ()
  | Some me =>
      try_catch
        (updateDoc me (rejectUpdate connectionId);;
         setState (setPendingConnections (filter (λ conn, conn ≠ connectionId)));;
         setState (setSnackbarMessage "Connection request rejected!");;
         setState (setSnackbarOpen true))
        (λ e, console_error;; setState (setError (Some (MessageOf e))))
  end.

(** [user.delete()] of the authentication service; whether it is refused
  (a stale login, for instance) is decided outside the store. *)
Definition deleteAuthUser (refused : bool) : Handler Page unit :=
  if refused then throw AuthFailure else mret ().

(** [handleDeleteAccount]; [confirmed] is the answer to [window.confirm]. *)
Definition handleDeleteAccount (user : option string)
    (confirmed authRefuses : bool) : Handler Page unit :=
  if confirmed then
    try_catch
      (match user with
       | None => throw NotAuthenticated
       | Some me =>
           deleteDoc me;;
           deleteAuthUser authRefuses;;
           setState (routerPush "/")
       end)
      (λ e, console_error;; setState (setError (Some (MessageOf e))))
  else mret ().

End ProfilePage.

(** ** AdminPage *)

Module AdminPage.

(** State cells: the ids of the users listed and the snackbar. *)
Record Page := MkPage {
  users : list string;
  snackbarOpen : bool;
  snackbarMessage : string
}.

Definition setUsers (v : list string) (p : Page) : Page :=
  MkPage v (snackbarOpen p) (snackbarMessage p).

Definition setSnackbarOpen (v : bool) (p : Page) : Page :=
  MkPage (users p) v (snackbarMessage p).

Definition setSnackbarMessage (v : string) (p : Page) : Page :=
  MkPage (users p) (snackbarOpen p) v.

(** [fetchData], users part: reload the list (the collection read is taken
  to succeed). *)
Definition fetchData : Handler Page unit :=
  λ s, setState (setUsers ((map_to_list (coll_users (store s))).*1)) s.

(** [handleDeleteUser]; [confirmed] is the answer to [window.confirm]. *)
Definition handleDeleteUser (userId : string) (confirmed : bool)
    : Handler Page unit :=
  if confirmed then
    try_catch
      (deleteDoc userId;;
       setState (setSnackbarMessage "User deleted successfully.");;
       setState (setSnackbarOpen true);;
       fetchData)
      (λ _, console_error;;
            setState (setSnackbarMessage "Failed to delete user.");;
            setState (setSnackbarOpen true))
  else mret ().

End AdminPage.

(** ** Vocabulary for statements about the store *)

(** [lists field w owner x]: the document of [owner] exists and its array
  [field] contains [x]. *)
Definition lists (field : UserDoc → option (list string)) (w : World)
    (owner x : string) : bool :=
  match coll_users w !! owner with
  | Some d => JS.includes x (JS.orEmpty (field d))
  | None => false
  end.

(** The document of [i] can currently be read. *)
Definition readable (w : World) (i : string) : bool :=
  negb (bool_decide (i ∈ unreadable w)).

(** [blocker]'s record lists [blocked] and the record can be read. *)
Definition blockSeen (w : World) (blocker blocked : string) : bool :=
  readable w blocker && lists blockedUsers w blocker blocked.

(** The user document [d] mentions [i] in one of its three arrays. *)
Definition references (d : UserDoc) (i : string) : bool :=
  JS.includes i (JS.orEmpty (connections d))
  || JS.includes i (JS.orEmpty (pendingConnections d))
  || JS.includes i (JS.orEmpty (blockedUsers d)).

(** The store after [me] has unblocked [userId]. *)
Definition unblocked (w : World) (me userId : string) : World :=
  match coll_users w !! me with
  | Some d =>
      with_users
        (insert me (MkUserDoc (connections d) (pendingConnections d)
                      (Some (filter (λ i, i ≠ userId)
                               (JS.orEmpty (blockedUsers d))))))
        w
  | None => w
  end.

(** Every document of the snapshot is a document of the store. *)
Definition snapshotOf (w : World) (docs : list (string * MessageDoc)) : Prop :=
  Forall (λ d, coll_messages w !! d.1 = Some d.2) docs.

(** ** Concrete scenarios *)

Module Scenario.

Definition alice : string := "alice".
Definition bob : string := "bob".
Definition carol : string := "carol".

(** The text "hi". *)
Definition hi : jsstring := [104; 105]%N.

(** A message from bob to alice that alice has not seen yet. *)
Definition fromBob : MessageDoc :=
  MkMessageDoc bob alice hi (Some 1%Z) (Some false) (Some ∅) (Some false)
    (Some false).

Definition freshPage (selected : option string) (draft : jsstring)
    : MessagesPage.Page :=
  MessagesPage.MkPage selected [] draft None [] false false false ∅ ∅ false [].

(** Alice and bob are connected, nobody is blocked, and bob's message to
  alice waits in the store. *)
Definition friends : World :=
  MkWorld {[ alice := MkUserDoc (Some [bob]) None None;
             bob := MkUserDoc (Some [alice]) None None ]}
    {[ "m1" := fromBob ]} ∅ 2.

(** Alice's page on her conversation with bob, opened while they are
  [friends]: bob selected and the block status resolved. *)
Definition alicePage (draft : jsstring) : MessagesPage.Page :=
  ui (MessagesPage.updateBlockStatus (Some alice)
        (MkSys friends (freshPage (Some bob) draft))).1.

(** Then bob, on his own page, blocks alice. *)
Definition bobBlocksAlice : World :=
  store (MessagesPage.handleBlockUser (Some bob) alice
           (MkSys friends (freshPage (Some alice) []))).1.

(** The store [w] at a moment when the record of [i] cannot be read. *)
Definition outage (i : string) (w : World) : World :=
  MkWorld (coll_users w) (coll_messages w) ({[ i ]} ∪ unreadable w) (clock w).

Definition bobUnreadable : World := outage bob bobBlocksAlice.

(** Alice blocked bob while they were connected; bob then disconnected and
  sent alice a new request, which sits in alice's [pendingConnections]. *)
Definition requestFromBlocked : World :=
  MkWorld {[ alice := MkUserDoc (Some []) (Some [bob]) (Some [bob]);
             bob := MkUserDoc (Some []) None None ]} ∅ ∅ 0.

(** Bob sent alice a request; nobody blocked anybody. *)
Definition requestFromBob : World :=
  MkWorld {[ alice := MkUserDoc None (Some [bob]) None;
             bob := MkUserDoc None None None ]} ∅ ∅ 0.

(** Alice figures in all three arrays of other users. *)
Definition aliceEverywhere : World :=
  MkWorld {[ alice := MkUserDoc (Some [bob]) None None;
             bob := MkUserDoc (Some [alice]) None None;
             carol := MkUserDoc None (Some [alice]) (Some [alice]) ]} ∅ ∅ 0.

Definition blankProfilePage : ProfilePage.Page :=
  ProfilePage.MkPage [] [] false "" None None.

Definition blankBrowsePage : BrowsePage.Page := BrowsePage.MkPage [].

Definition blankAdminPage : AdminPage.Page := AdminPage.MkPage [] false "".

(** Two registered users with no relation at all. *)
Definition strangers : World :=
  MkWorld {[ alice := MkUserDoc None None None;
             bob := MkUserDoc None None None ]} ∅ ∅ 0.

End Scenario.

(** ** MessagesPage, continued: reactions, history, composer *)

Module Conversation.
Import MessagesPage.

Definition setSelectedUser (v : option string) (p : Page) : Page :=
  MkPage v (messages p) (newMessage p) (editingMessageId p)
    (editingMessageText p) (isBlocked p) (isBlockedByThem p) (isReported p)
    (unreadMessages p) (lastMessages p) (loading p) (alerts p).

Definition setLoading (v : bool) (p : Page) : Page :=
  MkPage (selectedUser p) (messages p) (newMessage p) (editingMessageId p)
    (editingMessageText p) (isBlocked p) (isBlockedByThem p) (isReported p)
    (unreadMessages p) (lastMessages p) v (alerts p).

(** [getDoc(doc(db, "messages", id))].  Whether the read of a message
  document raises is decided outside the store, by [raises]. *)
Definition getMessage (raises : bool) (messageId : string)
    : Handler Page (option MessageDoc) :=
  λ s, if raises then (s, Throw Unavailable)
       else (s, Ok (coll_messages (store s) !! messageId)).

(** [updateDoc(messageRef, { reactions })] *)
Definition setReactions (r : gmap string jsstring) (d : MessageDoc)
    : MessageDoc :=
  MkMessageDoc (doc_senderId d) (doc_receiverId d) (doc_text d)
    (doc_timestamp d) (doc_seen d) (Some r) (doc_isDeleted d) (doc_edited d).

(** [handleAddReaction]: [reactions[currentUser.uid] = emoji] on the
  reactions read from the document.  (The anchor of the emoji picker, closed
  afterwards, is not part of the state kept here.) *)
Definition handleAddReaction (currentUser : option string) (readRaises : bool)
    (messageId : string) (emoji : jsstring) : Handler Page unit :=
  match currentUser with
  | None => mret ()
  | Some me =>
      try_catch
        (messageDoc ← getMessage readRaises messageId;
         match messageDoc with
         | Some data =>
             let reactions := default ∅ (doc_reactions data) in
             updateMessage messageId (setReactions (<[me := emoji]> reactions))
         | None => mret ()
         end)
        (λ _, console_error)
  end.

(** The filter of the conversation queries:
  [where("senderId", "in", [a, b]), where("receiverId", "in", [a, b])]. *)
Definition inConversation (a b : string) (d : MessageDoc) : bool :=
  JS.includes (doc_senderId d) [a; b] && JS.includes (doc_receiverId d) [a; b].

(** [getDocs(messagesQuery)] of [handleDeleteChatHistory] (no ordering):
  the documents of the conversation, unless the query raises. *)
Definition getConversation (raises : bool) (a b : string)
    : Handler Page (list (string * MessageDoc)) :=
  λ s, if raises then (s, Throw Unavailable)
       else (s, Ok (filter (λ kv, inConversation a b kv.2 = true)
                      (map_to_list (coll_messages (store s))))).

(** A [writeBatch] whose operations are all [batch.delete(ref)], committed.
  Deleting a document that is already gone is not an error. *)
Definition commitDeletes (ids : list string) : Handler Page unit :=
  λ s, (MkSys (with_messages (λ m, foldr delete m ids) (store s)) (ui s),
        Ok ()).

Definition historyDeletedAlert : string :=
  "Chat history deleted successfully.".
Definition historyFailedAlert : string :=
  "Failed to delete chat history. Please try again.".

(** [handleDeleteChatHistory] *)
Definition handleDeleteChatHistory (currentUser : option string)
    (queryRaises : bool) : Handler Page unit :=
  p ← getState;
  match currentUser, selectedUser p with
  | Some me, Some other =>
      try_catch
        (messagesSnapshot ← getConversation queryRaises me other;
         commitDeletes (messagesSnapshot.*1);;
         alert historyDeletedAlert;;
         setState (setMessages []))
        (λ _, console_error;; alert historyFailedAlert)
  | _, _ => mret ()
  end.

(** The [onClick] of the edit button of a message bubble. *)
Definition startEdit (message : Message) : Handler Page unit :=
  setState (setEditingMessageId (Some (id message)));;
  setState (setEditingMessageText (text message)).

(** [handleCancelEdit] *)
Definition handleCancelEdit : Handler Page unit :=
  setState (setEditingMessageId None);;
  setState (setEditingMessageText []).

(** What a click on a control of a message bubble runs. *)
Definition click (currentUser : option string) (c : Control)
    (message : Message) : Handler Page unit :=
  match c with
  | ReactButton => mret ()       (* opens the emoji picker *)
  | EditButton => startEdit message
  | DeleteButton => handleDeleteMessage currentUser (id message)
  | SaveEditButton =>
      p ← getState;
      handleEditMessage currentUser (id message) (editingMessageText p)
  | CancelEditButton => handleCancelEdit
  end.

(** [isMessagingDisabled] *)
Definition isMessagingDisabled (p : Page) : bool :=
  isBlocked p || isBlockedByThem p || isReported p.

(** The bottom of the chat area.  The chat area is rendered only under
  [selectedUser ? ... : ...]: with nobody selected the page shows "Select a
  conversation" and neither an input nor a notice. *)
Inductive Composer :=
| SelectAConversation
| MessageInput (sendDisabled : bool)
| DisabledNotice (notice : string).

Definition composer (p : Page) : Composer :=
  match selectedUser p with
  | None => SelectAConversation
  | Some _ =>
      if negb (isMessagingDisabled p)
      then MessageInput (negb (JS.truthy (JS.trim (newMessage p))))
      else DisabledNotice
             (if isBlockedByThem p
              then "You have been blocked by this user and cannot send messages."
              else if isBlocked p
                   then "You have blocked this user. Unblock to send messages."
                   else "You have reported this user. Unreport to send messages.")
  end.

End Conversation.

(** ** An open conversation as a transition system *)

Module Session.
Import MessagesPage Conversation.

(** What identifies a message: who sent it to whom, and when. *)
Definition envelope (d : MessageDoc) : string * string * option Z :=
  (doc_senderId d, doc_receiverId d, doc_timestamp d).

(** The handlers of the page that neither create nor remove a message, with
  their arguments. *)
Inductive Event :=
| Snapshot (docs : list (string * MessageDoc))
| Reselect
| Edit (messageId : string) (newText : jsstring)
| SoftDelete (messageId : string)
| React (readRaises : bool) (messageId : string) (emoji : jsstring)
| Block
| Unblock.

Definition handle (me other : string) (e : Event) : Handler Page unit :=
  match e with
  | Snapshot docs => onSnapshot me other docs
  | Reselect => updateBlockStatus (Some me)
  | Edit messageId newText => handleEditMessage (Some me) messageId newText
  | SoftDelete messageId => handleDeleteMessage (Some me) messageId
  | React readRaises messageId emoji =>
      handleAddReaction (Some me) readRaises messageId emoji
  | Block => handleBlockUser (Some me) other
  | Unblock => handleUnblockUser (Some me) other
  end.

(** The state after a sequence of events, each handler run to completion. *)
Definition play (me other : string) (es : list Event) (s : Sys Page)
    : Sys Page :=
  foldl (λ s e, (handle me other e s).1) s es.

(** One gesture of the user on a control that is rendered in a bubble of the
  message list, or one snapshot delivered by the subscription. *)
Inductive Step (me other : string) (s : Sys Page) : Sys Page → Prop :=
| StepClick (c : Control) (m : Message) :
    m ∈ messages (ui s) →
    c ∈ messageControls (Some me) (ui s) m →
    Step me other s (click (Some me) c m s).1
| StepSnapshot (docs : list (string * MessageDoc)) :
    snapshotOf (store s) docs →
    Step me other s (onSnapshot me other docs s).1.

(** The page shows stored messages under their stored sender, and the
  message being edited, if it is stored, is one of mine. *)
Definition faithfulView (me : string) (s : Sys Page) : Prop :=
  (∀ m, m ∈ messages (ui s) →
        ∃ d, coll_messages (store s) !! id m = Some d
             ∧ doc_senderId d = senderId m)
  ∧ (∀ i d, editingMessageId (ui s) = Some i →
            coll_messages (store s) !! i = Some d → doc_senderId d = me).

(** What an author controls of a message. *)
Definition content (d : MessageDoc) : jsstring * option bool * option bool :=
  (doc_text d, doc_isDeleted d, doc_edited d).

End Session.

(** ** Browsing as a transition system *)

Module Browsing.
Import BrowsePage.

(** What the handlers do to the card of [other] in the [profiles] cell. *)
Definition afterConnect (me other : string) (profile : UserProfile)
    : UserProfile :=
  if bool_decide (id profile = other)
  then MkUserProfile (id profile) (connections profile)
         (pendingConnections profile ++ [me])
  else profile.

Definition afterDisconnect (me other : string) (profile : UserProfile)
    : UserProfile :=
  if bool_decide (id profile = other)
  then MkUserProfile (id profile)
         (filter (λ i, i ≠ me) (connections profile))
         (pendingConnections profile)
  else profile.









End Browsing.

(** No user record lists an id twice in one of its arrays. *)
Definition tidy (w : World) : Prop :=
  ∀ i d, coll_users w !! i = Some d →
    NoDup (JS.orEmpty (connections d))
    ∧ NoDup (JS.orEmpty (pendingConnections d))
    ∧ NoDup (JS.orEmpty (blockedUsers d)).

(** ** Pagination *)

Module Paging.

(** [Array.prototype.slice(start, end)] on integer arguments: a negative
  index counts from the end, and both are clamped to the array. *)
Definition slice {A} (start final : Z) (l : list A) : list A :=
  let len := Z.of_nat (length l) in
  let k := if (start <? 0)%Z then Z.max (len + start) 0 else Z.min start len in
  let e := if (final <? 0)%Z then Z.max (len + final) 0 else Z.min final len in
  take (Z.to_nat (e - k)) (drop (Z.to_nat k) l).

(** [list.slice((page - 1) * itemsPerPage, page * itemsPerPage)]: the
  entries shown on [page], on the profile page ([itemsPerPage] is 5) and on
  the admin page (10). *)
Definition paginated {A} (itemsPerPage page : Z) (l : list A) : list A :=
  slice ((page - 1) * itemsPerPage) (page * itemsPerPage) l.

(** [Math.ceil(list.length / itemsPerPage)]: the [count] of the pager. *)
Definition pageCount {A} (itemsPerPage : Z) (l : list A) : Z :=
  (- ((- Z.of_nat (length l)) / itemsPerPage))%Z.

End Paging.

(** ** AdminPage: the selection for bulk actions *)

Module AdminSelection.

(** [handleSelectUser]: the next value of [selectedUsers]. *)
Definition handleSelectUser (userId : string) (selectedUsers : list string)
    : list string :=
  if JS.includes userId selectedUsers
  then filter (λ i, i ≠ userId) selectedUsers
  else selectedUsers ++ [userId].

(** [handleSelectAllUsers]: the next value of [selectedUsers], from the
  checkbox state and the ids of [filteredUsers]. *)
Definition handleSelectAllUsers (checked : bool) (filteredUsers : list string)
    : list string :=
  if checked then filteredUsers else [].

(** The header checkbox of the users table:
  [checked={selectedUsers.length === filteredUsers.length}] and
  [indeterminate={selectedUsers.length > 0 &&
                  selectedUsers.length < filteredUsers.length}]. *)
Definition headerChecked (selectedUsers filteredUsers : list string) : bool :=
  bool_decide (length selectedUsers = length filteredUsers).

Definition headerIndeterminate (selectedUsers filteredUsers : list string)
    : bool :=
  bool_decide (0 < length selectedUsers)
  && bool_decide (length selectedUsers < length filteredUsers).

(** The checkbox of a row: [checked={selectedUsers.includes(user.id)}]. *)
Definition rowChecked (selectedUsers : list string) (userId : string) : bool :=
  JS.includes userId selectedUsers.

End AdminSelection.

(** ** MessagesPage: the chat list *)

Module ChatList.
Import MessagesPage Conversation.

(** The page together with its [users] cell: the ids of the users of the
  chat list, in the order of the list. *)
Record Chats := MkChats {
  page : Page;
  users : list string
}.

Definition setUsers (v : list string) (c : Chats) : Chats :=
  MkChats (page c) v.

(** A handler of the other cells, run on the page with its chat list. *)
Definition onPage {A} (h : Handler Page A) : Handler Chats A :=
  λ s, let r := h (MkSys (store s) (page (ui s))) in
       (MkSys (store r.1) (MkChats (ui r.1) (users (ui s))), r.2).

(** [await Promise.all(ids.map(async (userId) => getDoc(...)))]: every
  read has to succeed.  Reads do not change the store, so their order does
  not matter. *)
Fixpoint getAll (ids : list string)
    : Handler Chats (list (string * option UserDoc)) :=
  match ids with
  | [] => mret []
  | userId :: rest =>
      connectedUserDoc ← getDoc userId;
      others ← getAll rest;
      mret ((userId, connectedUserDoc) :: others)
  end.

(** [fetchConnectedUsers]; [userId] is the parameter of the route, the
  empty string when there is none.  The [finally] clause runs after the
  [catch], which only logs. *)
Definition fetchConnectedUsers (currentUser : option string) (userId : string)
    : Handler Chats unit :=
  match currentUser with
  | None => mret ()
  | Some me =>
      try_catch
        (userDoc ← getDoc me;
         match userDoc with
         | Some userData =>
             let connectedUserIds := JS.orEmpty (connections userData) in
             docs ← getAll connectedUserIds;
             let connectedUsers := (filter (λ d, is_Some d.2) docs).*1 in
             setState (setUsers connectedUsers);;
             if bool_decide (userId = "") then mret ()
             else
               match List.find (λ user, bool_decide (user = userId))
                       connectedUsers with
               | Some selected =>
                   onPage (setState (setSelectedUser (Some selected)));;
                   blockStatus ← onPage (checkMutualBlockStatus me selected);
                   onPage (setState
                             (setIsBlocked (user1BlocksUser2 blockStatus)));;
                   onPage (setState
                             (setIsBlockedByThem (user2BlocksUser1 blockStatus)))
               | None => mret ()
               end
         | None => mret ()
         end)
        (λ _, console_error);;
      onPage (setState (setLoading false))
  end.

(** The [onClick] of a row of the chat list. *)
Definition selectChat (user : string) : Handler Chats unit :=
  onPage (setState (setSelectedUser (Some user)));;
  onPage (setState (setUnreadMessages (insert user 0))).

(** The two objects [updateLastMessagesAndUnreadCounts] fills:
  [updatedLastMessages] and [updatedUnreadMessages]. *)
Definition Tables : Type :=
  gmap string (jsstring * string) * gmap string nat.

(** [getDocs(messagesQuery)] for the conversation with one user: the
  documents in the order of the query, or [None] when the query raises. *)
Definition getMessages (answer : option (list (string * MessageDoc)))
    : Handler Page (list (string * MessageDoc)) :=
  λ s, match answer with
       | Some docs => (s, Ok docs)
       | None => (s, Throw Unavailable)
       end.

(** One turn of the loop over [users].  Nothing is written to the two
  objects before the query, the only step of the [try] that can raise. *)
Definition countUser (me : string)
    (answer : string → option (list (string * MessageDoc)))
    (user : string) (t : Tables) : Handler Page Tables :=
  try_catch
    (blockStatus ← checkMutualBlockStatus me user;
     if user1BlocksUser2 blockStatus || user2BlocksUser1 blockStatus
     then mret (t.1, <[user := 0]> t.2)
     else
       docs ← getMessages (answer user);
       let messagesData := toMessage <$> docs in
       let updatedLastMessages :=
         match last messagesData with
         | Some lastMessage =>
             <[user := (text lastMessage, senderId lastMessage)]> t.1
         | None => t.1
         end in
       let unreadCount := length (filter (λ m, unseenFor me m) messagesData) in
       mret (updatedLastMessages, <[user := unreadCount]> t.2))
    (λ _, console_error;; mret (t.1, <[user := 0]> t.2)).

Fixpoint forUsers (me : string)
    (answer : string → option (list (string * MessageDoc)))
    (us : list string) (t : Tables) : Handler Page Tables :=
  match us with
  | [] => mret t
  | user :: rest => t1 ← countUser me answer user t; forUsers me answer rest t1
  end.

(** [updateLastMessagesAndUnreadCounts], the effect on [users]. *)
Definition updateLastMessagesAndUnreadCounts (currentUser : option string)
    (answer : string → option (list (string * MessageDoc)))
    : Handler Chats unit :=
  match currentUser with
  | None => mret ()
  | Some me =>
      c ← getState;
      t ← onPage (forUsers me answer (users c) (∅, ∅));
      onPage (setState (setLastMessages (λ _, t.1)));;
      onPage (setState (setUnreadMessages (λ _, t.2)))
  end.

(** [badgeContent={unreadMessages[user.id] || 0}] *)
Definition badgeContent (p : Page) (user : string) : nat :=
  default 0 (unreadMessages p !! user).

(** What the loop of [updateLastMessagesAndUnreadCounts] leaves for one user
  of the list: the unread count and the last message. *)
Definition unreadOf (w : World) (me : string)
    (answer : string → option (list (string * MessageDoc))) (user : string)
    : nat :=
  if blockSeen w me user || blockSeen w user me then 0
  else match answer user with
       | Some docs =>
           length (filter (λ m, unseenFor me m) (toMessage <$> docs))
       | None => 0
       end.

Definition previewOf (w : World) (me : string)
    (answer : string → option (list (string * MessageDoc))) (user : string)
    : option (jsstring * string) :=
  if blockSeen w me user || blockSeen w user me then None
  else match answer user with
       | Some docs =>
           (λ m, (text m, senderId m)) <$> last (toMessage <$> docs)
       | None => None
       end.

End ChatList.

(** * Properties *)

(** ** Computation rules of the primitives *)

Ltac run_handler :=
  unfold mbind, handler_bind, mret, handler_ret, try_catch, throw,
    console_error, setState, getState, deleteDoc, addDoc in *;
  simpl in *.

Section PrimitiveRules.
Context {P : Type}.
Implicit Types (s : Sys P) (i : string).

Lemma getDoc_readable s i :
  readable (store s) i = true →
  getDoc i s = (s, Ok (coll_users (store s) !! i)).
Proof.
  unfold readable, getDoc. intros H.
  destruct (bool_decide (i ∈ unreadable (store s))); [done | reflexivity].
Qed.

Lemma getDoc_unreadable s i :
  readable (store s) i = false → getDoc i s = (s, Throw Unavailable).
Proof.
  unfold readable, getDoc. intros H.
  destruct (bool_decide (i ∈ unreadable (store s))); [reflexivity | done].
Qed.

Lemma updateDoc_exists s i u d :
  coll_users (store s) !! i = Some d →
  updateDoc i u s
  = (MkSys (with_users (insert i (applyUpdate u d)) (store s)) (ui s), Ok ()).
Proof. unfold updateDoc. by intros ->. Qed.

Lemma updateDoc_missing s i u :
  coll_users (store s) !! i = None → updateDoc i u s = (s, Throw NotFound).
Proof. unfold updateDoc. by intros ->. Qed.

Lemma updateMessage_exists s i f d :
  coll_messages (store s) !! i = Some d →
  updateMessage i f s
  = (MkSys (with_messages (insert i (f d)) (store s)) (ui s), Ok ()).
Proof. unfold updateMessage. by intros ->. Qed.

Lemma updateMessage_missing s i (f : MessageDoc → MessageDoc) :
  coll_messages (store s) !! i = None →
  updateMessage i f s = (s, Throw NotFound).
Proof. unfold updateMessage. by intros ->. Qed.

End PrimitiveRules.

(** ** Trimming *)

Module JSFacts.

(** "  hi " trims to "hi"; a draft of blanks trims to the empty string. *)
Example trim_hi : JS.trim [32; 9; 104; 105; 160; 10]%N = [104; 105]%N.
Proof. reflexivity. Qed.

Example trim_blank : JS.truthy (JS.trim [32; 32; 10; 0x3000]%N) = false.
Proof. reflexivity. Qed.

Example trim_inner_kept : JS.trim [104; 32; 105]%N = [104; 32; 105]%N.
Proof. reflexivity. Qed.

Lemma trimStart_head (s : jsstring) c :
  head (JS.trimStart s) = Some c → JS.isWhiteSpace c = false.
Proof.
  induction s as [| a s IH]; simpl; [done |].
  destruct (JS.isWhiteSpace a) eqn:E; [done |].
  simpl. by intros [= <-].
Qed.

(** [trimStart] drops a prefix made of white space only. *)
Lemma trimStart_suffix (s : jsstring) :
  ∃ k, s = k ++ JS.trimStart s ∧ Forall (λ c, JS.isWhiteSpace c = true) k.
Proof.
  induction s as [| a s (k & Hk & Hws)]; simpl.
  - by exists [].
  - destruct (JS.isWhiteSpace a) eqn:E.
    + exists (a :: k). split; [simpl; by rewrite <- Hk | by constructor].
    + by exists [].
Qed.

Lemma trimStart_last (s : jsstring) c :
  last (JS.trimStart s) = Some c → last s = Some c.
Proof.
  destruct (trimStart_suffix s) as (k & Hk & _). intros Hl.
  rewrite Hk. destruct (JS.trimStart s) as [| a t] eqn:E; [done |].
  rewrite last_app. by rewrite Hl.
Qed.

(** The trimmed text neither starts nor ends with white space. *)
Lemma trim_ends (s : jsstring) c :
  head (JS.trim s) = Some c ∨ last (JS.trim s) = Some c →
  JS.isWhiteSpace c = false.
Proof.
  unfold JS.trim, JS.trimEnd.
  rewrite head_reverse, last_reverse. intros [H | H].
  - apply trimStart_last in H. rewrite last_reverse in H.
    by apply trimStart_head in H.
  - by apply trimStart_head in H.
Qed.

(** Trimming removes white space only: the draft is the trimmed text between
  two runs of white space. *)
Lemma trim_middle (s : jsstring) :
  ∃ k1 k2, s = k1 ++ JS.trim s ++ k2
           ∧ Forall (λ c, JS.isWhiteSpace c = true) k1
           ∧ Forall (λ c, JS.isWhiteSpace c = true) k2.
Proof.
  destruct (trimStart_suffix s) as (k1 & H1 & Hws1).
  destruct (trimStart_suffix (reverse (JS.trimStart s))) as (k2 & H2 & Hws2).
  exists k1, (reverse k2). split; [| split; [done |]].
  - unfold JS.trim, JS.trimEnd. rewrite <- reverse_app, <- H2.
    by rewrite reverse_involutive.
  - by apply Forall_reverse.
Qed.

End JSFacts.

(** ** Array transforms *)

Lemma includes_true x l : JS.includes x l = true ↔ x ∈ l.
Proof. unfold JS.includes. apply bool_decide_eq_true. Qed.

Lemma includes_false x l : JS.includes x l = false ↔ x ∉ l.
Proof. unfold JS.includes. apply bool_decide_eq_false. Qed.

Lemma elem_of_arrayUnion y x l : y ∈ arrayUnion x l ↔ y = x ∨ y ∈ l.
Proof.
  unfold arrayUnion. destruct (JS.includes x l) eqn:E.
  - apply includes_true in E. split; [by right | intros [-> | ?]; done].
  - rewrite elem_of_app, list_elem_of_singleton. tauto.
Qed.

Lemma elem_of_arrayRemove y x l : y ∈ arrayRemove x l ↔ y ≠ x ∧ y ∈ l.
Proof. unfold arrayRemove. by rewrite list_elem_of_filter. Qed.

Lemma arrayRemove_idemp x l : arrayRemove x (arrayRemove x l) = arrayRemove x l.
Proof. unfold arrayRemove. induction l as [| y l IH]; [done |].
  rewrite filter_cons. case_decide; [| done].
  rewrite filter_cons. case_decide; [| done]. by rewrite IH.
Qed.

Lemma arrayRemove_absent x l : x ∉ l → arrayRemove x l = l.
Proof.
  unfold arrayRemove. induction l as [| y l IH]; [done |].
  intros Hx. apply not_elem_of_cons in Hx as [Hne Hx].
  rewrite filter_cons. case_decide; [| congruence]. by rewrite IH.
Qed.

(** ** MessagesPage: the block check and the gates built on it *)

Module MessagesFacts.
Import MessagesPage.

Implicit Types (s : Sys Page) (me other : string).

(** The block check never throws and never changes anything; its answer is
  [blockSeen]. *)
Lemma isUserBlocked_run s blockerId blockedId :
  isUserBlocked blockerId blockedId s
  = (s, Ok (blockSeen (store s) blockerId blockedId)).
Proof.
  unfold isUserBlocked, blockSeen, lists, readable, getDoc. run_handler.
  destruct (bool_decide (blockerId ∈ unreadable (store s))); simpl; [done |].
  by destruct (coll_users (store s) !! blockerId).
Qed.

Lemma checkMutualBlockStatus_run s user1Id user2Id :
  checkMutualBlockStatus user1Id user2Id s
  = (s, Ok (MkBlockStatus (blockSeen (store s) user1Id user2Id)
                          (blockSeen (store s) user2Id user1Id))).
Proof.
  unfold checkMutualBlockStatus.
  unfold mbind at 1, handler_bind. rewrite isUserBlocked_run.
  unfold mbind at 1, handler_bind. rewrite isUserBlocked_run.
  reflexivity.
Qed.

Lemma blockSeen_unavailable (w : World) blockerId blockedId :
  coll_users w !! blockerId = None ∨ blockerId ∈ unreadable w →
  blockSeen w blockerId blockedId = false.
Proof.
  unfold blockSeen, readable, lists. intros [-> | H].
  - apply andb_false_r.
  - by rewrite bool_decide_eq_true_2.
Qed.

(** Marking a batch of documents: a document is rewritten exactly when its
  id is in the batch. *)
Lemma lookup_foldr_alter (f : MessageDoc → MessageDoc)
    (m : gmap string MessageDoc) (ids : list string) (i : string) :
  (∀ d, f (f d) = f d) →
  foldr (alter f) m ids !! i
  = if bool_decide (i ∈ ids) then f <$> m !! i else m !! i.
Proof.
  intros Hf. induction ids as [| j ids IH]; simpl.
  - done.
  - destruct (decide (j = i)) as [-> | Hne].
    + rewrite lookup_alter_eq, IH.
      rewrite (bool_decide_eq_true_2 (i ∈ i :: ids)) by left.
      case_bool_decide; [| done].
      destruct (m !! i); simpl; by rewrite ?Hf.
    + rewrite lookup_alter_ne, IH by done.
      rewrite (bool_decide_ext (i ∈ j :: ids) (i ∈ ids)); [done |].
      rewrite elem_of_cons. split; [intros [-> | ?]; done | by right].
Qed.

Lemma commitBatch_run s (ids : list string) (f : MessageDoc → MessageDoc) :
  Forall (λ i, is_Some (coll_messages (store s) !! i)) ids →
  commitBatch ids f s
  = (MkSys (with_messages (λ m, foldr (alter f) m ids) (store s)) (ui s), Ok ()).
Proof.
  intros H. unfold commitBatch.
  replace (forallb _ ids) with true; [done |].
  induction H as [| i ids Hi _ IH]; simpl; [done |].
  by rewrite bool_decide_eq_true_2.
Qed.

(** The ids put in the seen-batch are ids of snapshot documents. *)
Lemma seenBatch_in_store (w : World) me (docs : list (string * MessageDoc)) :
  snapshotOf w docs →
  Forall (λ i, is_Some (coll_messages w !! i))
    (id <$> filter (λ m, unseenFor me m) (toMessage <$> docs)).
Proof.
  intros H. apply Forall_forall. intros i Hi.
  apply list_elem_of_fmap in Hi as (m & -> & Hm).
  apply list_elem_of_filter in Hm as [_ Hm].
  apply list_elem_of_fmap in Hm as (d & -> & Hd).
  unfold snapshotOf in H. rewrite Forall_forall in H.
  specialize (H d Hd). simpl. by rewrite H.
Qed.

(** What the callback does when the check sees no block. *)
Lemma onSnapshot_open s me other docs :
  blockSeen (store s) me other = false →
  blockSeen (store s) other me = false →
  snapshotOf (store s) docs →
  let messagesData := toMessage <$> docs in
  let unseen := filter (λ m, unseenFor me m) messagesData in
  let p1 := setUnreadMessages (insert other (length unseen))
              (setMessages messagesData (ui s)) in
  onSnapshot me other docs s
  = (MkSys (with_messages (λ m, foldr (alter markSeen) m (id <$> unseen))
              (store s))
       match last messagesData with
       | Some lastMessage =>
           setLastMessages
             (insert other (text lastMessage, senderId lastMessage)) p1
       | None => p1
       end,
     Ok ()).
Proof.
  intros H1 H2 Hdocs. unfold onSnapshot, try_catch.
  unfold mbind at 1, handler_bind. rewrite checkMutualBlockStatus_run.
  simpl. rewrite H1, H2. simpl.
  unfold mbind at 1, handler_bind.
  rewrite commitBatch_run by (by apply seenBatch_in_store).
  run_handler. by destruct (last (toMessage <$> docs)).
Qed.

(** What the callback does when the check sees a block. *)
Lemma onSnapshot_blocked s me other docs :
  blockSeen (store s) me other || blockSeen (store s) other me = true →
  onSnapshot me other docs s = (MkSys (store s) (setMessages [] (ui s)), Ok ()).
Proof.
  intros H. unfold onSnapshot, try_catch.
  unfold mbind at 1, handler_bind. rewrite checkMutualBlockStatus_run.
  simpl. by rewrite H.
Qed.

(** What sending does once the text is not blank. *)
Lemma handleSendMessage_run s me other autoId :
  selectedUser (ui s) = Some other →
  JS.trim (newMessage (ui s)) ≠ [] →
  handleSendMessage (Some me) autoId s
  = if blockSeen (store s) other me then alert blockedByThemAlert s
    else if blockSeen (store s) me other then alert blockedByMeAlert s
    else (MkSys
            (tick (with_messages
               (insert autoId
                  (newMessageDoc me other (JS.trim (newMessage (ui s)))
                     (clock (store s))))
               (store s)))
            (setNewMessage [] (ui s)), Ok ()).
Proof.
  intros Hsel Hbody. unfold handleSendMessage.
  unfold mbind at 1, handler_bind, getState. rewrite Hsel.
  destruct (JS.trim (newMessage (ui s))) as [| c body] eqn:E; [done |].
  simpl. unfold try_catch.
  unfold mbind at 1, handler_bind. rewrite checkMutualBlockStatus_run. simpl.
  destruct (blockSeen (store s) other me); [done |].
  destruct (blockSeen (store s) me other); [done |].
  by run_handler.
Qed.

Lemma visibleMessages_nil (p : Page) : messages p = [] → visibleMessages p = [].
Proof.
  unfold visibleMessages, messagesArea. intros ->. simpl.
  destruct (isBlocked p || isBlockedByThem p); [done |].
  by destruct (loading p).
Qed.

(** C1, as stated, fails: bob blocks alice while her page is open; the next
  snapshot reaches her page at a moment when bob's record cannot be read, and
  bob's message is presented although his [blockedUsers] contains her. *)
Lemma unreadable_blocker_shows_messages :
  let s := MkSys Scenario.bobUnreadable (Scenario.alicePage []) in
  lists blockedUsers (store s) Scenario.bob Scenario.alice = true
  ∧ visibleMessages
      (ui (onSnapshot Scenario.alice Scenario.bob
             [("m1", Scenario.fromBob)] s).1)
    = [toMessage ("m1", Scenario.fromBob)].
Proof. split; reflexivity. Qed.

(** C1 (amended): for every pair of users and every snapshot delivered by
  the message subscription, if the record of either user can be read and its
  [blockedUsers] contains the other, the callback empties the message list,
  the visible list is empty whatever the snapshot holds, and the store is
  left as it was. *)
Theorem blocked_pair_sees_no_messages s me other docs :
  blockSeen (store s) me other = true ∨ blockSeen (store s) other me = true →
  let s' := (onSnapshot me other docs s).1 in
  visibleMessages (ui s') = [] ∧ messages (ui s') = [] ∧ store s' = store s.
Proof.
  intros H. rewrite onSnapshot_blocked.
  - simpl. split; [| done]. by apply visibleMessages_nil.
  - destruct H as [-> | ->]; [done | apply orb_true_r].
Qed.

Lemma blocked_pair_sees_no_messages_witness :
  let s := MkSys Scenario.bobBlocksAlice (Scenario.alicePage []) in
  let s' := (onSnapshot Scenario.alice Scenario.bob
               [("m1", Scenario.fromBob)] s).1 in
  visibleMessages (ui s') = [] ∧ messages (ui s') = [] ∧ store s' = store s.
Proof.
  apply (blocked_pair_sees_no_messages
           (MkSys Scenario.bobBlocksAlice (Scenario.alicePage []))).
  right. reflexivity.
Defined.

Lemma handleSendMessage_blank s me other autoId :
  selectedUser (ui s) = Some other →
  JS.trim (newMessage (ui s)) = [] →
  handleSendMessage (Some me) autoId s = (s, Ok ()).
Proof.
  intros Hsel Hbody. unfold handleSendMessage.
  unfold mbind at 1, handler_bind, getState. by rewrite Hsel, Hbody.
Qed.

(** C2, as stated, fails: bob has blocked alice, his record cannot be read
  when alice presses send, and her message is written. *)
Lemma unreadable_blocker_receives_message :
  let s := MkSys Scenario.bobUnreadable (Scenario.alicePage Scenario.hi) in
  lists blockedUsers (store s) Scenario.bob Scenario.alice = true
  ∧ coll_messages (store (handleSendMessage (Some Scenario.alice) "m2" s).1)
      !! "m2"
    = Some (newMessageDoc Scenario.alice Scenario.bob Scenario.hi 2).
Proof. split; reflexivity. Qed.

(** C2 (amended): sending is gated on the block check, which counts a
  record that cannot be read as not blocking.  With [body] the trimmed
  draft: a blank [body] is dropped without any write; if the other user's
  readable record blocks me the send is refused with the blocked-by-them
  alert, otherwise if my readable record blocks them it is refused with the
  blocked-by-me alert, in both cases without a store write; otherwise one
  message whose text is [body] is written.  [body] neither starts nor ends
  with white space, and the two alerts differ. *)
Theorem send_is_gated_on_block_check s me other autoId :
  selectedUser (ui s) = Some other →
  let body := JS.trim (newMessage (ui s)) in
  let s' := (handleSendMessage (Some me) autoId s).1 in
  (body = [] → s' = s)
  ∧ (body ≠ [] → blockSeen (store s) other me = true →
     store s' = store s
     ∧ alerts (ui s') = alerts (ui s) ++ [blockedByThemAlert])
  ∧ (body ≠ [] → blockSeen (store s) other me = false →
     blockSeen (store s) me other = true →
     store s' = store s
     ∧ alerts (ui s') = alerts (ui s) ++ [blockedByMeAlert])
  ∧ (body ≠ [] → blockSeen (store s) other me = false →
     blockSeen (store s) me other = false →
     coll_messages (store s')
       = <[autoId := newMessageDoc me other body (clock (store s))]>
           (coll_messages (store s))
     ∧ coll_users (store s') = coll_users (store s)
     ∧ alerts (ui s') = alerts (ui s))
  ∧ (∀ c, head body = Some c ∨ last body = Some c → JS.isWhiteSpace c = false)
  ∧ blockedByThemAlert ≠ blockedByMeAlert.
Proof.
  intros Hsel body s'. subst body s'.
  split; [intros Hb; by rewrite (handleSendMessage_blank _ _ other) |].
  split; [| split; [| split; [| split; [apply JSFacts.trim_ends |]]]].
  - intros Hb Hthem.
    rewrite (handleSendMessage_run _ _ other), Hthem by done. done.
  - intros Hb Hthem Hme.
    rewrite (handleSendMessage_run _ _ other), Hthem, Hme by done. done.
  - intros Hb Hthem Hme.
    rewrite (handleSendMessage_run _ _ other), Hthem, Hme by done. done.
  - done.
Qed.

Lemma send_is_gated_on_block_check_witness :
  let s := MkSys Scenario.bobBlocksAlice (Scenario.alicePage Scenario.hi) in
  store (handleSendMessage (Some Scenario.alice) "m2" s).1 = store s
  ∧ alerts (ui (handleSendMessage (Some Scenario.alice) "m2" s).1)
    = [blockedByThemAlert].
Proof.
  pose proof (send_is_gated_on_block_check
                (MkSys Scenario.bobBlocksAlice (Scenario.alicePage Scenario.hi))
                Scenario.alice Scenario.bob "m2" eq_refl) as (_ & H & _).
  apply H; [discriminate | reflexivity].
Defined.

Lemma markSeen_idemp d : markSeen (markSeen d) = markSeen d.
Proof. done. Qed.

Lemma unseenFor_toMessage me (d : string * MessageDoc) :
  unseenFor me (toMessage d) = true
  ↔ doc_receiverId d.2 = me ∧ JS.orFalse (doc_seen d.2) = false.
Proof.
  unfold unseenFor, toMessage. simpl.
  rewrite andb_true_iff, bool_decide_eq_true, negb_true_iff. done.
Qed.

Lemma elem_of_seenBatch me (docs : list (string * MessageDoc)) i :
  i ∈ id <$> filter (λ m, unseenFor me m) (toMessage <$> docs)
  ↔ ∃ d, (i, d) ∈ docs ∧ doc_receiverId d = me
         ∧ JS.orFalse (doc_seen d) = false.
Proof.
  rewrite list_elem_of_fmap. split.
  - intros (m & -> & Hm). apply list_elem_of_filter in Hm as [Hu Hm].
    apply list_elem_of_fmap in Hm as ([j d] & -> & Hd).
    apply Is_true_true, unseenFor_toMessage in Hu as [? ?].
    exists d. done.
  - intros (d & Hd & Hr & Hs). exists (toMessage (i, d)). split; [done |].
    apply list_elem_of_filter. split.
    + apply Is_true_true, unseenFor_toMessage. done.
    + apply list_elem_of_fmap. by exists (i, d).
Qed.

(** C9, as stated, fails: bob has blocked alice; the snapshot delivered to
  her page holds bob's unseen message to her, and the callback leaves it
  unseen. *)
Lemma blocked_snapshot_marks_nothing :
  let s := MkSys Scenario.bobBlocksAlice (Scenario.alicePage []) in
  let docs := [("m1", Scenario.fromBob)] in
  snapshotOf (store s) docs
  ∧ doc_receiverId Scenario.fromBob = Scenario.alice
  ∧ JS.orFalse (doc_seen Scenario.fromBob) = false
  ∧ doc_seen <$> coll_messages
                   (store (onSnapshot Scenario.alice Scenario.bob docs s).1)
                   !! "m1"
    = Some (Some false).
Proof.
  split; [| by repeat split].
  apply Forall_cons. split; [reflexivity | apply Forall_nil; exact I].
Qed.

(** C9 (amended): for every delivered snapshot at which the block check
  finds neither user blocking the other, every message of the snapshot
  addressed to the current user and not yet seen is rewritten with
  [seen = true] by one batch; every other message document, and every user
  document, is left as it was.  A snapshot delivered while the check finds a
  block marks nothing. *)
Theorem snapshot_marks_seen s me other docs :
  blockSeen (store s) me other = false →
  blockSeen (store s) other me = false →
  snapshotOf (store s) docs →
  let w' := store (onSnapshot me other docs s).1 in
  (∀ i d, (i, d) ∈ docs → doc_receiverId d = me →
          JS.orFalse (doc_seen d) = false →
          coll_messages w' !! i = Some (markSeen d))
  ∧ (∀ i, (∀ d, (i, d) ∈ docs →
                doc_receiverId d ≠ me ∨ JS.orFalse (doc_seen d) = true) →
          coll_messages w' !! i = coll_messages (store s) !! i)
  ∧ coll_users w' = coll_users (store s).
Proof.
  intros H1 H2 Hdocs w'. subst w'.
  rewrite onSnapshot_open by done. simpl.
  split; [| split; [| done]].
  - intros i d Hd Hr Hs.
    rewrite lookup_foldr_alter by apply markSeen_idemp.
    rewrite bool_decide_eq_true_2 by (apply elem_of_seenBatch; eauto).
    unfold snapshotOf in Hdocs. rewrite Forall_forall in Hdocs.
    specialize (Hdocs _ Hd). simpl in Hdocs. by rewrite Hdocs.
  - intros i Hi.
    rewrite lookup_foldr_alter by apply markSeen_idemp.
    rewrite bool_decide_eq_false_2; [done |].
    rewrite elem_of_seenBatch. intros (d & Hd & Hr & Hs).
    destruct (Hi d Hd) as [? | ?]; congruence.
Qed.

Lemma snapshot_marks_seen_witness :
  let s := MkSys Scenario.friends (Scenario.alicePage []) in
  coll_messages
    (store (onSnapshot Scenario.alice Scenario.bob
              [("m1", Scenario.fromBob)] s).1) !! "m1"
  = Some (markSeen Scenario.fromBob).
Proof.
  pose proof (snapshot_marks_seen
    (MkSys Scenario.friends (Scenario.alicePage []))
    Scenario.alice Scenario.bob [("m1", Scenario.fromBob)]
    eq_refl eq_refl) as H.
  destruct H as [H _].
  - apply Forall_cons. split; [reflexivity | apply Forall_nil; exact I].
  - apply (H "m1" Scenario.fromBob); [apply list_elem_of_here | reflexivity ..].
Defined.

(** C10: the block check fails open.  When the blocker's document does not
  exist or its read raises, [isUserBlocked] answers [false] and changes
  nothing; so does the corresponding flag of the mutual check, in either
  position; and for a viewer who is not seen to block the other, the
  snapshot callback shows the snapshot and a non-blank draft is sent. *)
Theorem block_check_fails_open s blockerId blockedId :
  coll_users (store s) !! blockerId = None
  ∨ blockerId ∈ unreadable (store s) →
  isUserBlocked blockerId blockedId s = (s, Ok false)
  ∧ (∃ b, checkMutualBlockStatus blockerId blockedId s
          = (s, Ok (MkBlockStatus false b)))
  ∧ (∃ b, checkMutualBlockStatus blockedId blockerId s
          = (s, Ok (MkBlockStatus b false)))
  ∧ (blockSeen (store s) blockedId blockerId = false →
     (∀ docs, snapshotOf (store s) docs →
        messages (ui (onSnapshot blockedId blockerId docs s).1)
        = toMessage <$> docs)
     ∧ (∀ autoId, selectedUser (ui s) = Some blockerId →
        JS.trim (newMessage (ui s)) ≠ [] →
        coll_messages (store (handleSendMessage (Some blockedId) autoId s).1)
        = <[autoId := newMessageDoc blockedId blockerId
                        (JS.trim (newMessage (ui s))) (clock (store s))]>
            (coll_messages (store s)))).
Proof.
  intros H. pose proof (blockSeen_unavailable _ _ blockedId H) as Hb.
  split; [by rewrite isUserBlocked_run, Hb |].
  split; [eexists; by rewrite checkMutualBlockStatus_run, Hb |].
  split; [eexists; by rewrite checkMutualBlockStatus_run, Hb |].
  intros Hme. split.
  - intros docs Hdocs. rewrite onSnapshot_open by done. simpl.
    by destruct (last (toMessage <$> docs)).
  - intros autoId Hsel Hbody.
    rewrite (handleSendMessage_run _ _ blockerId), Hb, Hme by done. done.
Qed.

Lemma block_check_fails_open_witness :
  isUserBlocked Scenario.bob Scenario.alice
    (MkSys Scenario.bobUnreadable (Scenario.alicePage []))
  = (MkSys Scenario.bobUnreadable (Scenario.alicePage []), Ok false).
Proof.
  apply (block_check_fails_open
           (MkSys Scenario.bobUnreadable (Scenario.alicePage []))).
  right. vm_compute. reflexivity.
Defined.

(** *** Resolving the block status, unblocking *)

Lemma updateBlockStatus_run s me other :
  selectedUser (ui s) = Some other →
  updateBlockStatus (Some me) s
  = (MkSys (store s)
       (setIsBlockedByThem (blockSeen (store s) other me)
          (setIsBlocked (blockSeen (store s) me other) (ui s))),
     Ok ()).
Proof.
  intros Hsel. unfold updateBlockStatus.
  unfold mbind at 1, handler_bind, getState. rewrite Hsel.
  unfold try_catch. unfold mbind at 1, handler_bind.
  by rewrite checkMutualBlockStatus_run.
Qed.

Lemma handleUnblockUser_store s me userId :
  store (handleUnblockUser (Some me) userId s).1
  = if blockSeen (store s) me userId then unblocked (store s) me userId
    else store s.
Proof.
  unfold handleUnblockUser, try_catch, blockSeen, lists, unblocked, readable.
  unfold mbind at 1, handler_bind, getDoc.
  destruct (bool_decide (me ∈ unreadable (store s))); simpl; [done |].
  destruct (coll_users (store s) !! me) as [d |] eqn:Hd; [| done].
  destruct (JS.includes userId (JS.orEmpty (blockedUsers d))); [| done].
  unfold mbind at 1, handler_bind.
  by rewrite (updateDoc_exists _ _ _ d).
Qed.

Lemma blockSeen_unblocked (w : World) me userId :
  blockSeen (unblocked w me userId) me userId = false.
Proof.
  unfold blockSeen, lists, unblocked.
  destruct (coll_users w !! me) as [d |] eqn:Hd; simpl.
  - rewrite lookup_insert_eq. simpl.
    rewrite (proj2 (includes_false _ _)); [apply andb_false_r |].
    rewrite list_elem_of_filter. tauto.
  - rewrite Hd. apply andb_false_r.
Qed.

Lemma handleUnblockUser_idempotent s me userId :
  let s1 := (handleUnblockUser (Some me) userId s).1 in
  store (handleUnblockUser (Some me) userId s1).1 = store s1.
Proof.
  intros s1. subst s1. rewrite !handleUnblockUser_store.
  destruct (blockSeen (store s) me userId) eqn:E.
  - by rewrite blockSeen_unblocked.
  - by rewrite E.
Qed.

(** A call on a pair that is not blocked writes nothing and reports
  "User is not blocked.", not a failure. *)
Lemma handleUnblockUser_not_blocked s me userId d :
  readable (store s) me = true →
  coll_users (store s) !! me = Some d →
  userId ∉ JS.orEmpty (blockedUsers d) →
  ∃ p, handleUnblockUser (Some me) userId s = (MkSys (store s) p, Ok ())
       ∧ alerts p = alerts (ui s) ++ ["User is not blocked."].
Proof.
  intros Hr Hd Hn. unfold handleUnblockUser, try_catch.
  unfold mbind at 1, handler_bind. rewrite getDoc_readable, Hd by done.
  rewrite (proj2 (includes_false _ _)) by done.
  eexists. split; reflexivity.
Qed.

End MessagesFacts.

(** ** Connection requests: BrowsePage and ProfilePage *)

Module ConnectionFacts.

Lemma lists_true field (w : World) owner x :
  lists field w owner x = true
  ↔ ∃ d, coll_users w !! owner = Some d ∧ x ∈ JS.orEmpty (field d).
Proof.
  unfold lists. destruct (coll_users w !! owner) as [d |].
  - rewrite includes_true. split; [eauto | by intros (? & [= <-] & ?)].
  - split; [done | by intros (? & ? & ?)].
Qed.

Lemma lists_false field (w : World) owner x d :
  coll_users w !! owner = Some d →
  x ∉ JS.orEmpty (field d) →
  lists field w owner x = false.
Proof. unfold lists. intros -> H. by apply includes_false. Qed.

(** *** BrowsePage *)

Section Browse.
Import BrowsePage.
Implicit Types (s : Sys Page) (me other : string).

Lemma handleAddFriend_run s me other d :
  coll_users (store s) !! other = Some d →
  ∃ p, handleAddFriend (Some me) other s
       = (MkSys (with_users (insert other (applyUpdate (requestPending me) d))
                   (store s)) p, Ok ()).
Proof.
  intros Hd. unfold handleAddFriend.
  unfold mbind at 1, handler_bind. rewrite (updateDoc_exists _ _ _ d) by done.
  eexists. reflexivity.
Qed.

(** With no document to update the promise rejects, nothing catches it and
  neither the store nor the page changes. *)
Lemma handleAddFriend_missing s me other :
  coll_users (store s) !! other = None →
  handleAddFriend (Some me) other s = (s, Throw NotFound).
Proof.
  intros Hd. unfold handleAddFriend.
  unfold mbind at 1, handler_bind. by rewrite updateDoc_missing.
Qed.

Lemma handleCancelRequest_run s me other d :
  coll_users (store s) !! other = Some d →
  handleCancelRequest (Some me) other s
  = (MkSys (with_users (insert other (applyUpdate (withdrawPending me) d))
              (store s))
       (setProfiles (fmap (λ profile,
          if bool_decide (id profile = other)
          then MkUserProfile (id profile) (connections profile)
                 (filter (λ i, i ≠ me) (pendingConnections profile))
          else profile)) (ui s)),
     Ok ()).
Proof.
  intros Hd. unfold handleCancelRequest.
  unfold mbind at 1, handler_bind. by rewrite (updateDoc_exists _ _ _ d).
Qed.

Lemma handleCancelRequest_missing s me other :
  coll_users (store s) !! other = None →
  handleCancelRequest (Some me) other s = (s, Throw NotFound).
Proof.
  intros Hd. unfold handleCancelRequest.
  unfold mbind at 1, handler_bind. by rewrite updateDoc_missing.
Qed.

Lemma withdrawPending_idemp me d :
  applyUpdate (withdrawPending me) (applyUpdate (withdrawPending me) d)
  = applyUpdate (withdrawPending me) d.
Proof. unfold applyUpdate. simpl. by rewrite arrayRemove_idemp. Qed.

Lemma cancel_profiles_idemp me other (l : list UserProfile) :
  let f := λ profile,
    if bool_decide (id profile = other)
    then MkUserProfile (id profile) (connections profile)
           (filter (λ i, i ≠ me) (pendingConnections profile))
    else profile in
  f <$> (f <$> l) = f <$> l.
Proof.
  intros f. rewrite <- list_fmap_compose. apply list_fmap_ext.
  intros _ profile _. unfold f, compose.
  destruct (bool_decide (id profile = other)) eqn:H; simpl; rewrite H; [| done].
  f_equal. apply arrayRemove_idemp.
Qed.

Lemma handleCancelRequest_idempotent s me other :
  let r1 := handleCancelRequest (Some me) other s in
  handleCancelRequest (Some me) other r1.1 = r1.
Proof.
  intros r1. subst r1.
  destruct (coll_users (store s) !! other) as [d |] eqn:Hd.
  - rewrite (handleCancelRequest_run s me other d Hd). cbn [fst].
    erewrite handleCancelRequest_run by (simpl; apply lookup_insert_eq).
    simpl. unfold with_users, setProfiles. simpl.
    rewrite insert_insert_eq, withdrawPending_idemp.
    by rewrite (cancel_profiles_idemp me other).
  - rewrite (handleCancelRequest_missing s me other Hd). cbn [fst].
    by rewrite handleCancelRequest_missing.
Qed.

End Browse.

(** *** ProfilePage *)

Section Profile.
Import ProfilePage.
Implicit Types (s : Sys Page) (me other : string).

Lemma handleRejectConnection_run s me other d :
  coll_users (store s) !! me = Some d →
  handleRejectConnection (Some me) other s
  = (MkSys (with_users (insert me (applyUpdate (rejectUpdate other) d)) (store s))
       (setSnackbarOpen true
          (setSnackbarMessage "Connection request rejected!"
             (setPendingConnections (filter (λ conn, conn ≠ other)) (ui s)))),
     Ok ()).
Proof.
  intros Hd. unfold handleRejectConnection, try_catch.
  unfold mbind at 1, handler_bind. by rewrite (updateDoc_exists _ _ _ d).
Qed.

Lemma handleRejectConnection_missing s me other :
  coll_users (store s) !! me = None →
  handleRejectConnection (Some me) other s
  = (MkSys (store s) (setError (Some (MessageOf NotFound)) (ui s)), Ok ()).
Proof.
  intros Hd. unfold handleRejectConnection, try_catch.
  unfold mbind at 1, handler_bind. by rewrite updateDoc_missing.
Qed.

Lemma rejectUpdate_idemp other d :
  applyUpdate (rejectUpdate other) (applyUpdate (rejectUpdate other) d)
  = applyUpdate (rejectUpdate other) d.
Proof. unfold applyUpdate. simpl. by rewrite arrayRemove_idemp. Qed.

Lemma handleRejectConnection_idempotent s me other :
  let r1 := handleRejectConnection (Some me) other s in
  handleRejectConnection (Some me) other r1.1 = r1.
Proof.
  intros r1. subst r1.
  destruct (coll_users (store s) !! me) as [d |] eqn:Hd.
  - rewrite (handleRejectConnection_run s me other d Hd). cbn [fst].
    erewrite handleRejectConnection_run by (simpl; apply lookup_insert_eq).
    simpl. unfold with_users, setSnackbarOpen, setSnackbarMessage,
      setPendingConnections. simpl.
    rewrite insert_insert_eq, rejectUpdate_idemp.
    do 3 f_equal. apply arrayRemove_idemp.
  - rewrite (handleRejectConnection_missing s me other Hd). cbn [fst].
    by rewrite handleRejectConnection_missing.
Qed.

Lemma handleAcceptConnection_run s me other dMe dOther :
  coll_users (store s) !! me = Some dMe →
  <[me := applyUpdate (acceptUpdate other) dMe]> (coll_users (store s)) !! other
    = Some dOther →
  handleAcceptConnection (Some me) other s
  = (MkSys
       (with_users
          (λ m, <[other := applyUpdate (acceptUpdate me) dOther]>
                  (<[me := applyUpdate (acceptUpdate other) dMe]> m))
          (store s))
       (setSnackbarOpen true
          (setSnackbarMessage "Connection request accepted!"
             (setPendingConnections (filter (λ conn, conn ≠ other)) (ui s)))),
     Ok ()).
Proof.
  intros Hme Hother. unfold handleAcceptConnection, try_catch.
  unfold mbind at 1, handler_bind.
  rewrite (updateDoc_exists _ _ _ dMe) by done.
  unfold mbind at 1, handler_bind.
  rewrite (updateDoc_exists _ _ _ dOther) by done.
  done.
Qed.

(** Reading a list of ids when every record can be read. *)
Lemma fetchExisting_run s (ids : list string) :
  unreadable (store s) = ∅ →
  fetchExisting ids s
  = (s, Ok (filter (λ i, is_Some (coll_users (store s) !! i)) ids)).
Proof.
  intros Hr. induction ids as [| i ids IH]; [done |].
  simpl. unfold mbind at 1, handler_bind.
  rewrite getDoc_readable
    by (unfold readable; rewrite Hr, bool_decide_eq_false_2; set_solver).
  unfold mbind at 1, handler_bind. rewrite IH.
  rewrite filter_cons. destruct (coll_users (store s) !! i) eqn:E.
  - rewrite decide_True by done. done.
  - rewrite decide_False by (by intros [? ?]). done.
Qed.

Lemma fetchUserData_run s me d :
  unreadable (store s) = ∅ →
  coll_users (store s) !! me = Some d →
  let existing := filter (λ i, is_Some (coll_users (store s) !! i)) in
  fetchUserData (Some me) s
  = (MkSys (store s)
       (setConnectedUsers (existing (JS.orEmpty (Firestore.connections d)))
          (setPendingConnections
             (λ _, existing (JS.orEmpty (Firestore.pendingConnections d)))
             (ui s))),
     Ok ()).
Proof.
  intros Hr Hd. unfold fetchUserData, try_catch.
  unfold mbind at 1, handler_bind.
  rewrite getDoc_readable, Hd
    by (unfold readable; rewrite Hr, bool_decide_eq_false_2; set_solver).
  unfold mbind at 1, handler_bind. rewrite fetchExisting_run by done.
  unfold mbind at 1, handler_bind. unfold setState at 1.
  unfold mbind at 1, handler_bind. rewrite fetchExisting_run by done.
  done.
Qed.

Lemma handleDeleteAccount_store s me authRefuses :
  store (handleDeleteAccount (Some me) true authRefuses s).1
  = with_users (delete me) (store s).
Proof.
  unfold handleDeleteAccount, deleteAuthUser. run_handler.
  by destruct authRefuses.
Qed.

End Profile.

Lemma handleDeleteUser_store (s : Sys AdminPage.Page) userId :
  store (AdminPage.handleDeleteUser userId true s).1
  = with_users (delete userId) (store s).
Proof. unfold AdminPage.handleDeleteUser, AdminPage.fetchData. by run_handler. Qed.

(** *** The claims on connection requests *)

(** C4: round trip.  For two existing users A and B, in whatever relation
  they start, the request of A to B followed by B's acceptance both succeed
  and leave B in A's [connections], A in B's [connections] and A out of B's
  [pendingConnections]; in between, A sits in B's [pendingConnections]. *)
Theorem request_then_accept_connects (w : World) (A B : string)
    (dA dB : UserDoc) (browse : BrowsePage.Page) (profile : ProfilePage.Page) :
  coll_users w !! A = Some dA →
  coll_users w !! B = Some dB →
  let sent := BrowsePage.handleAddFriend (Some A) B (MkSys w browse) in
  let accepted :=
    ProfilePage.handleAcceptConnection (Some B) A
      (MkSys (store sent.1) profile) in
  sent.2 = Ok ()
  ∧ lists pendingConnections (store sent.1) B A = true
  ∧ accepted.2 = Ok ()
  ∧ ProfilePage.error (ui accepted.1) = ProfilePage.error profile
  ∧ lists connections (store accepted.1) A B = true
  ∧ lists connections (store accepted.1) B A = true
  ∧ lists pendingConnections (store accepted.1) B A = false.
Proof.
  intros HA HB sent accepted.
  destruct (handleAddFriend_run (MkSys w browse) A B dB HB) as [p Hsent].
  subst accepted sent. rewrite Hsent. cbn [fst snd store].
  set (dB1 := applyUpdate (BrowsePage.requestPending A) dB).
  set (dB2 := applyUpdate (ProfilePage.acceptUpdate A) dB1).
  assert (∃ dA0, <[B := dB2]> (<[B := dB1]> (coll_users w)) !! A = Some dA0
                 ∧ (A = B → dA0 = dB2)) as (dA0 & HA0 & HAB).
  { destruct (decide (A = B)) as [-> | Hne].
    - exists dB2. by rewrite lookup_insert_eq.
    - exists dA. by rewrite !lookup_insert_ne. }
  rewrite (handleAcceptConnection_run _ B A dB1 dA0)
    by (simpl; by rewrite ?lookup_insert_eq).
  cbn [fst snd store ui with_users coll_users].
  split; [done |]. split.
  { apply lists_true. exists dB1. simpl. rewrite lookup_insert_eq.
    split; [done |]. simpl. apply elem_of_arrayUnion. by left. }
  split; [done |]. split; [done |]. split.
  { apply lists_true. eexists. simpl. rewrite lookup_insert_eq.
    split; [done |]. simpl. apply elem_of_arrayUnion. by left. }
  destruct (decide (A = B)) as [-> | Hne].
  - rewrite (HAB eq_refl). split.
    + apply lists_true. eexists. simpl. rewrite lookup_insert_eq.
      split; [done |]. simpl. apply elem_of_arrayUnion. by left.
    + eapply lists_false; [simpl; apply lookup_insert_eq |].
      simpl. rewrite elem_of_arrayRemove. tauto.
  - split.
    + apply lists_true. exists dB2. simpl.
      rewrite lookup_insert_ne, lookup_insert_eq by done.
      split; [done |]. simpl. apply elem_of_arrayUnion. by left.
    + apply (lists_false _ _ _ _ dB2).
      * simpl. by rewrite lookup_insert_ne, lookup_insert_eq.
      * simpl. rewrite elem_of_arrayRemove. tauto.
Qed.

Lemma request_then_accept_connects_witness :
  let sent := BrowsePage.handleAddFriend (Some Scenario.alice) Scenario.bob
                (MkSys Scenario.strangers Scenario.blankBrowsePage) in
  let accepted :=
    ProfilePage.handleAcceptConnection (Some Scenario.bob) Scenario.alice
      (MkSys (store sent.1) Scenario.blankProfilePage) in
  sent.2 = Ok ()
  ∧ lists pendingConnections (store sent.1) Scenario.bob Scenario.alice = true
  ∧ accepted.2 = Ok ()
  ∧ ProfilePage.error (ui accepted.1) = None
  ∧ lists connections (store accepted.1) Scenario.alice Scenario.bob = true
  ∧ lists connections (store accepted.1) Scenario.bob Scenario.alice = true
  ∧ lists pendingConnections (store accepted.1) Scenario.bob Scenario.alice
    = false.
Proof.
  apply (request_then_accept_connects Scenario.strangers
           Scenario.alice Scenario.bob
           (MkUserDoc None None None) (MkUserDoc None None None));
    reflexivity.
Defined.

(** C5, as stated, fails: bob has already sent alice a request, so the pair
  is not strangers; alice's browse page nevertheless offers Connect on bob's
  card, and the handler performs the request. *)
Lemma request_sent_by_them_still_requests :
  let w := Scenario.requestFromBob in
  let s := (BrowsePage.fetchData (MkSys w Scenario.blankBrowsePage)).1 in
  let r := BrowsePage.handleAddFriend (Some Scenario.alice) Scenario.bob s in
  lists pendingConnections w Scenario.alice Scenario.bob = true
  ∧ BrowsePage.statusButtons (Some Scenario.alice)
      <$> BrowsePage.filteredProfiles (Some Scenario.alice) (λ _, true) (ui s)
    = [Some BrowsePage.ShowConnect]
  ∧ r.2 = Ok ()
  ∧ lists pendingConnections (store r.1) Scenario.bob Scenario.alice = true.
Proof. by repeat split. Qed.

(** C5 (amended): [handleAddFriend] checks no precondition.  For every
  signed-in user and every existing target, in whatever relation the two
  stand, it succeeds and its effect on the store is exactly an [arrayUnion]
  of me into the target's [pendingConnections].  The only gate is the card:
  Connect is rendered exactly when me is in neither the target's
  [connections] nor its [pendingConnections]. *)
Theorem add_friend_checks_nothing (s : Sys BrowsePage.Page)
    (me other : string) (d : UserDoc) :
  coll_users (store s) !! other = Some d →
  let r := BrowsePage.handleAddFriend (Some me) other s in
  r.2 = Ok ()
  ∧ coll_users (store r.1)
    = <[other := MkUserDoc (connections d)
                   (Some (arrayUnion me (JS.orEmpty (pendingConnections d))))
                   (blockedUsers d)]> (coll_users (store s))
  ∧ coll_messages (store r.1) = coll_messages (store s)
  ∧ (BrowsePage.statusButtons (Some me) (BrowsePage.toProfile (other, d))
       = Some BrowsePage.ShowConnect
     ↔ ((me ∉ JS.orEmpty (connections d))
        ∧ (me ∉ JS.orEmpty (pendingConnections d)))).
Proof.
  intros Hd r. subst r.
  destruct (handleAddFriend_run s me other d Hd) as [p ->].
  split; [done |]. split; [done |]. split; [done |].
  unfold BrowsePage.statusButtons, BrowsePage.toProfile. simpl.
  rewrite <- !includes_false.
  destruct (JS.includes me (JS.orEmpty (connections d)));
    destruct (JS.includes me (JS.orEmpty (pendingConnections d)));
    split; (done || by intros [? ?]).
Qed.

Lemma add_friend_checks_nothing_witness :
  let r := BrowsePage.handleAddFriend (Some Scenario.alice) Scenario.bob
             (MkSys Scenario.strangers Scenario.blankBrowsePage) in
  r.2 = Ok ()
  ∧ coll_users (store r.1)
    = <[Scenario.bob := MkUserDoc None (Some [Scenario.alice]) None]>
        (coll_users Scenario.strangers).
Proof.
  pose proof (add_friend_checks_nothing
                (MkSys Scenario.strangers Scenario.blankBrowsePage)
                Scenario.alice Scenario.bob (MkUserDoc None None None) eq_refl)
    as (H1 & H2 & _).
  split; [exact H1 | exact H2].
Defined.

(** C7, as stated, fails: alice deletes her account; her record is gone,
  and bob's [connections] and carol's [pendingConnections] and
  [blockedUsers] still hold her id. *)
Lemma deleted_account_still_referenced :
  let w' := store (ProfilePage.handleDeleteAccount (Some Scenario.alice)
                     true false
                     (MkSys Scenario.aliceEverywhere
                        Scenario.blankProfilePage)).1 in
  coll_users w' !! Scenario.alice = None
  ∧ lists connections w' Scenario.bob Scenario.alice = true
  ∧ lists pendingConnections w' Scenario.carol Scenario.alice = true
  ∧ lists blockedUsers w' Scenario.carol Scenario.alice = true.
Proof. by repeat split. Qed.

(** C7 (amended): deleting an account, by its owner on the profile page or
  by the administrator, deletes the User record of that id and nothing
  else: every other user's record, with whatever references to the deleted
  id its [connections], [pendingConnections] and [blockedUsers] hold, and
  every message, is left as it was. *)
Theorem delete_account_deletes_own_record_only
    (s : Sys ProfilePage.Page) (t : Sys AdminPage.Page) (me : string)
    (authRefuses : bool) :
  let w' := store (ProfilePage.handleDeleteAccount (Some me) true
                     authRefuses s).1 in
  let a' := store (AdminPage.handleDeleteUser me true t).1 in
  coll_users w' = delete me (coll_users (store s))
  ∧ coll_messages w' = coll_messages (store s)
  ∧ coll_users w' !! me = None
  ∧ (∀ other, other ≠ me →
       coll_users w' !! other = coll_users (store s) !! other)
  ∧ coll_users a' = delete me (coll_users (store t))
  ∧ coll_messages a' = coll_messages (store t)
  ∧ (∀ other, other ≠ me →
       coll_users a' !! other = coll_users (store t) !! other).
Proof.
  intros w' a'. subst w' a'.
  rewrite handleDeleteAccount_store, handleDeleteUser_store. simpl.
  repeat split.
  - apply lookup_delete_eq.
  - intros other Hne. by apply lookup_delete_ne.
  - intros other Hne. by apply lookup_delete_ne.
Qed.

(** C8: idempotence under retry.  Run a second time on the state the first
  run left, [handleCancelRequest] and [handleRejectConnection] return the
  very state and outcome of the first run, and [handleUnblockUser] leaves
  the store of the first run; the retry is not an error: when the document
  written to exists, cancelling returns normally and rejecting raises no
  error banner, and unblocking, which always returns normally, reports
  "User is not blocked." when the record can be read. *)
Theorem retry_is_idempotent
    (b : Sys BrowsePage.Page) (p : Sys ProfilePage.Page)
    (m : Sys MessagesPage.Page) (me other : string) :
  let c1 := BrowsePage.handleCancelRequest (Some me) other b in
  let r1 := ProfilePage.handleRejectConnection (Some me) other p in
  let u1 := MessagesPage.handleUnblockUser (Some me) other m in
  let c2 := BrowsePage.handleCancelRequest (Some me) other c1.1 in
  let r2 := ProfilePage.handleRejectConnection (Some me) other r1.1 in
  let u2 := MessagesPage.handleUnblockUser (Some me) other u1.1 in
  c2 = c1
  ∧ r2 = r1
  ∧ store u2.1 = store u1.1
  ∧ (is_Some (coll_users (store b) !! other) → c2.2 = Ok ())
  ∧ (is_Some (coll_users (store p) !! me) →
     r2.2 = Ok () ∧ ProfilePage.error (ui r2.1) = ProfilePage.error (ui p))
  ∧ u2.2 = Ok ()
  ∧ (readable (store m) me = true → is_Some (coll_users (store m) !! me) →
     MessagesPage.alerts (ui u2.1)
     = MessagesPage.alerts (ui u1.1) ++ ["User is not blocked."]).
Proof.
  intros c1 r1 u1 c2 r2 u2.
  assert (c2 = c1) as Hc by apply handleCancelRequest_idempotent.
  assert (r2 = r1) as Hr by apply handleRejectConnection_idempotent.
  split; [done |]. split; [done |].
  split; [apply MessagesFacts.handleUnblockUser_idempotent |].
  split; [| split; [| split]].
  - intros [d Hd]. rewrite Hc. subst c1.
    by rewrite (handleCancelRequest_run b me other d Hd).
  - intros [d Hd]. rewrite Hr. subst r1.
    by rewrite (handleRejectConnection_run p me other d Hd).
  - subst u2. generalize u1.1. intros m1.
    unfold MessagesPage.handleUnblockUser, try_catch.
    unfold mbind at 1, handler_bind, getDoc.
    destruct (bool_decide (me ∈ unreadable (store m1))); [done |].
    destruct (coll_users (store m1) !! me) as [d |]; [| done].
    destruct (JS.includes other (JS.orEmpty (blockedUsers d))); [| done].
    unfold mbind at 1, handler_bind, updateDoc.
    by destruct (coll_users (store m1) !! me).
  - intros Hread [d Hd].
    pose proof (MessagesFacts.handleUnblockUser_store m me other) as Hst.
    pose proof (MessagesFacts.blockSeen_unblocked (store m) me other) as Hun.
    fold u1 in Hst.
    assert (readable (store u1.1) me = true
            ∧ lists blockedUsers (store u1.1) me other = false) as [Hr1 Hl1].
    { rewrite Hst. destruct (blockSeen (store m) me other) eqn:E.
      - unfold blockSeen in Hun.
        assert (readable (unblocked (store m) me other) me = true) as Hru.
        { unfold unblocked. by rewrite Hd. }
        rewrite Hru in Hun. done.
      - unfold blockSeen in E. by rewrite Hread in E. }
    assert (is_Some (coll_users (store u1.1) !! me)) as [d1 Hd1].
    { rewrite Hst. destruct (blockSeen (store m) me other); [| by eexists].
      unfold unblocked. rewrite Hd. simpl. rewrite lookup_insert_eq.
      by eexists. }
    destruct (MessagesFacts.handleUnblockUser_not_blocked u1.1 me other d1)
      as (p' & Hrun & Halerts); [done | done | |].
    + unfold lists in Hl1. rewrite Hd1 in Hl1. by apply includes_false.
    + subst u2. by rewrite Hrun.
Qed.

(** *** Blocking against pending requests *)

(** C3, as stated, fails: alice has blocked bob while bob's request to her is
  pending; her profile page lists bob's request with its Accept and Reject
  buttons, and her browse page shows the plain Connect button on bob's
  card. *)
Lemma blocked_requester_still_listed :
  let w := Scenario.requestFromBlocked in
  let profile :=
    ui (ProfilePage.fetchUserData (Some Scenario.alice)
          (MkSys w Scenario.blankProfilePage)).1 in
  let browse := ui (BrowsePage.fetchData (MkSys w Scenario.blankBrowsePage)).1 in
  lists blockedUsers w Scenario.alice Scenario.bob = true
  ∧ lists pendingConnections w Scenario.alice Scenario.bob = true
  ∧ ProfilePage.pendingRequests profile
    = [(Scenario.bob, [ProfilePage.AcceptButton; ProfilePage.RejectButton])]
  ∧ BrowsePage.statusButtons (Some Scenario.alice)
      <$> BrowsePage.filteredProfiles (Some Scenario.alice) (λ _, true) browse
    = [Some BrowsePage.ShowConnect].
Proof. by repeat split. Qed.

(** C3 (amended): blocking takes precedence on the messages page only.  If
  A's record can be read and its [blockedUsers] contains B, the block status
  resolved for A toward B has [isBlocked] set and the blocked notice replaces
  the message list, whatever the loading flag, the messages held and the
  pending requests are.  The profile and browse pages never read
  [blockedUsers]: with every record readable, a pending request from an
  existing B is listed on A's profile page with Accept and Reject, and B's
  card on A's browse page shows Connected, Request Sent or Connect according
  to B's own [connections] and [pendingConnections] alone. *)
Theorem block_precedes_on_messages_page_only (w : World)
    (messagesPage : MessagesPage.Page) (profilePage : ProfilePage.Page)
    (A B : string) (dA dB : UserDoc) :
  unreadable w = ∅ →
  coll_users w !! A = Some dA →
  coll_users w !! B = Some dB →
  B ∈ JS.orEmpty (blockedUsers dA) →
  B ∈ JS.orEmpty (pendingConnections dA) →
  MessagesPage.selectedUser messagesPage = Some B →
  let resolved :=
    ui (MessagesPage.updateBlockStatus (Some A) (MkSys w messagesPage)).1 in
  let profile :=
    ui (ProfilePage.fetchUserData (Some A) (MkSys w profilePage)).1 in
  MessagesPage.isBlocked resolved = true
  ∧ (∃ headline detail,
       MessagesPage.messagesArea resolved
       = MessagesPage.BlockedNotice headline detail)
  ∧ MessagesPage.visibleMessages resolved = []
  ∧ (B, [ProfilePage.AcceptButton; ProfilePage.RejectButton])
    ∈ ProfilePage.pendingRequests profile
  ∧ BrowsePage.statusButtons (Some A) (BrowsePage.toProfile (B, dB))
    = Some (if JS.includes A (JS.orEmpty (connections dB))
            then BrowsePage.ShowConnected
            else if JS.includes A (JS.orEmpty (pendingConnections dB))
                 then BrowsePage.ShowRequestSent
                 else BrowsePage.ShowConnect).
Proof.
  intros Hr HA HB Hblocked Hpending Hsel resolved profile.
  assert (blockSeen w A B = true) as Hseen.
  { unfold blockSeen, readable, lists.
    rewrite Hr, bool_decide_eq_false_2, HA by set_solver.
    by apply includes_true. }
  subst resolved profile.
  rewrite (MessagesFacts.updateBlockStatus_run _ A B) by done.
  rewrite (fetchUserData_run _ A dA) by done.
  cbn [fst ui store]. rewrite Hseen.
  split; [done |]. split; [| split; [| split; [| done]]].
  - unfold MessagesPage.messagesArea. simpl. eauto.
  - unfold MessagesPage.visibleMessages, MessagesPage.messagesArea. done.
  - unfold ProfilePage.pendingRequests. simpl.
    apply list_elem_of_fmap. exists B. split; [done |].
    apply list_elem_of_filter. split; [by rewrite HB | done].
Qed.

Lemma block_precedes_on_messages_page_only_witness :
  let resolved :=
    ui (MessagesPage.updateBlockStatus (Some Scenario.alice)
          (MkSys Scenario.requestFromBlocked
             (Scenario.freshPage (Some Scenario.bob) []))).1 in
  MessagesPage.isBlocked resolved = true
  ∧ MessagesPage.visibleMessages resolved = [].
Proof.
  pose proof (block_precedes_on_messages_page_only
    Scenario.requestFromBlocked (Scenario.freshPage (Some Scenario.bob) [])
    Scenario.blankProfilePage Scenario.alice Scenario.bob
    (MkUserDoc (Some []) (Some [Scenario.bob]) (Some [Scenario.bob]))
    (MkUserDoc (Some []) None None)) as H.
  destruct H as (H1 & _ & H3 & _).
  - reflexivity.
  - reflexivity.
  - reflexivity.
  - simpl. apply list_elem_of_here.
  - simpl. apply list_elem_of_here.
  - reflexivity.
  - split; [exact H1 | exact H3].
Defined.

End ConnectionFacts.

(** ** MessagesPage, continued: blocking, reactions, history *)

Module ConversationFacts.
Import MessagesPage Conversation.

Implicit Types (s : Sys Page) (me other : string).

(** *** Blocking and unblocking *)

Lemma handleBlockUser_fresh s me other d :
  readable (store s) me = true →
  coll_users (store s) !! me = Some d →
  other ∉ JS.orEmpty (blockedUsers d) →
  handleBlockUser (Some me) other s
  = (MkSys
       (with_users
          (insert me (MkUserDoc (connections d) (pendingConnections d)
                        (Some (JS.orEmpty (blockedUsers d) ++ [other]))))
          (store s))
       (MkPage (selectedUser (ui s)) [] (newMessage (ui s))
          (editingMessageId (ui s)) (editingMessageText (ui s)) true
          (isBlockedByThem (ui s)) (isReported (ui s)) (unreadMessages (ui s))
          (lastMessages (ui s)) (loading (ui s))
          (alerts (ui s) ++ ["User blocked successfully."])),
     Ok ()).
Proof.
  intros Hr Hd Hn. unfold handleBlockUser, try_catch.
  unfold mbind at 1, handler_bind. rewrite getDoc_readable, Hd by done.
  rewrite (proj2 (includes_false _ _)) by done. simpl.
  unfold mbind at 1, handler_bind.
  by rewrite (updateDoc_exists _ _ _ d).
Qed.

Lemma handleBlockUser_already s me other d :
  readable (store s) me = true →
  coll_users (store s) !! me = Some d →
  other ∈ JS.orEmpty (blockedUsers d) →
  handleBlockUser (Some me) other s = alert "User is already blocked." s.
Proof.
  intros Hr Hd Hin. unfold handleBlockUser, try_catch.
  unfold mbind at 1, handler_bind. rewrite getDoc_readable, Hd by done.
  by rewrite (proj2 (includes_true _ _)).
Qed.

Lemma handleUnblockUser_listed s me other d :
  readable (store s) me = true →
  coll_users (store s) !! me = Some d →
  other ∈ JS.orEmpty (blockedUsers d) →
  handleUnblockUser (Some me) other s
  = (MkSys
       (with_users
          (insert me (MkUserDoc (connections d) (pendingConnections d)
                        (Some (filter (λ i, i ≠ other)
                                 (JS.orEmpty (blockedUsers d))))))
          (store s))
       (MkPage (selectedUser (ui s)) (messages (ui s)) (newMessage (ui s))
          (editingMessageId (ui s)) (editingMessageText (ui s)) false
          (isBlockedByThem (ui s)) (isReported (ui s)) (unreadMessages (ui s))
          (lastMessages (ui s)) (loading (ui s))
          (alerts (ui s) ++ ["User unblocked successfully."])),
     Ok ()).
Proof.
  intros Hr Hd Hin. unfold handleUnblockUser, try_catch.
  unfold mbind at 1, handler_bind. rewrite getDoc_readable, Hd by done.
  rewrite (proj2 (includes_true _ _)) by done. simpl.
  unfold mbind at 1, handler_bind.
  by rewrite (updateDoc_exists _ _ _ d).
Qed.

Lemma filter_ne_snoc (l : list string) x :
  x ∉ l → filter (λ i, i ≠ x) (l ++ [x]) = l.
Proof.
  intros Hx. rewrite filter_app, filter_cons, decide_False by naive_solver.
  rewrite filter_nil, app_nil_r. by apply arrayRemove_absent.
Qed.

(** Round trip: blocking a user who was not blocked and unblocking them
  again gives back the blocked list, touches no other field, no other user
  and no message, and ends with [isBlocked] reset. *)
Theorem block_then_unblock_restores s me other d :
  readable (store s) me = true →
  coll_users (store s) !! me = Some d →
  other ∉ JS.orEmpty (blockedUsers d) →
  let s1 := (handleBlockUser (Some me) other s).1 in
  let s2 := (handleUnblockUser (Some me) other s1).1 in
  lists blockedUsers (store s1) me other = true
  ∧ isBlocked (ui s1) = true
  ∧ messages (ui s1) = []
  ∧ coll_users (store s2)
    = <[me := MkUserDoc (connections d) (pendingConnections d)
                (Some (JS.orEmpty (blockedUsers d)))]> (coll_users (store s))
  ∧ coll_messages (store s2) = coll_messages (store s)
  ∧ isBlocked (ui s2) = false
  ∧ alerts (ui s2)
    = alerts (ui s)
      ++ ["User blocked successfully."; "User unblocked successfully."].
Proof.
  intros Hr Hd Hn s1 s2. subst s2 s1.
  rewrite (handleBlockUser_fresh s me other d) by done. cbn [fst].
  erewrite handleUnblockUser_listed;
    [| done | simpl; apply lookup_insert_eq
     | simpl; apply elem_of_app; right; apply list_elem_of_here].
  cbn [fst store ui with_users coll_users coll_messages blockedUsers
       connections pendingConnections JS.orEmpty default isBlocked messages
       alerts].
  split.
  { unfold lists. simpl. rewrite lookup_insert_eq. simpl.
    apply includes_true, elem_of_app. right. apply list_elem_of_here. }
  split; [done |]. split; [done |]. split.
  { rewrite insert_insert_eq. unfold Datatypes.id. by rewrite filter_ne_snoc. }
  split; [done |]. split; [done |].
  by rewrite <- app_assoc.
Qed.

Lemma block_then_unblock_restores_witness :
  let s := MkSys Scenario.friends (Scenario.alicePage []) in
  let s1 := (handleBlockUser (Some Scenario.alice) Scenario.bob s).1 in
  let s2 := (handleUnblockUser (Some Scenario.alice) Scenario.bob s1).1 in
  lists blockedUsers (store s1) Scenario.alice Scenario.bob = true
  ∧ coll_messages (store s2) = coll_messages (store s)
  ∧ isBlocked (ui s2) = false.
Proof.
  pose proof (block_then_unblock_restores
    (MkSys Scenario.friends (Scenario.alicePage []))
    Scenario.alice Scenario.bob
    (MkUserDoc (Some [Scenario.bob]) None None)) as H.
  destruct H as (H1 & _ & _ & _ & H5 & H6 & _).
  - reflexivity.
  - reflexivity.
  - simpl. apply not_elem_of_nil.
  - split; [exact H1 | split; [exact H5 | exact H6]].
Defined.

Lemma handleBlockUser_store s me other :
  store (handleBlockUser (Some me) other s).1
  = match coll_users (store s) !! me with
    | Some d =>
        if readable (store s) me
           && negb (JS.includes other (JS.orEmpty (blockedUsers d)))
        then with_users
               (insert me (MkUserDoc (connections d) (pendingConnections d)
                             (Some (JS.orEmpty (blockedUsers d) ++ [other]))))
               (store s)
        else store s
    | None => store s
    end.
Proof.
  unfold handleBlockUser, try_catch, readable.
  unfold mbind at 1, handler_bind, getDoc.
  destruct (bool_decide (me ∈ unreadable (store s))); simpl.
  { by destruct (coll_users (store s) !! me). }
  destruct (coll_users (store s) !! me) as [d |] eqn:Hd; [| done].
  destruct (JS.includes other (JS.orEmpty (blockedUsers d))); [done |].
  simpl. unfold mbind at 1, handler_bind.
  by rewrite (updateDoc_exists _ _ _ d).
Qed.

(** Blocking is idempotent: a second [handleBlockUser] for the same user
  writes nothing, so nobody is ever listed twice by it; when the record can
  be read the retry says "User is already blocked." and leaves the page's
  [isBlocked] flag and message list alone. *)
Theorem block_twice_is_block_once s me other :
  let s1 := (handleBlockUser (Some me) other s).1 in
  let r2 := handleBlockUser (Some me) other s1 in
  store r2.1 = store s1
  ∧ r2.2 = Ok ()
  ∧ (readable (store s) me = true →
     is_Some (coll_users (store s) !! me) →
     r2 = alert "User is already blocked." s1).
Proof.
  intros s1 r2.
  assert (readable (store s1) me = readable (store s) me) as Hread.
  { subst s1. rewrite handleBlockUser_store. unfold readable.
    destruct (coll_users (store s) !! me) as [d |]; [| done].
    by destruct (_ && _). }
  assert (∀ d, coll_users (store s) !! me = Some d →
            readable (store s) me = true →
            ∃ d1, coll_users (store s1) !! me = Some d1
                  ∧ other ∈ JS.orEmpty (blockedUsers d1)) as Hlisted.
  { intros d Hd Hr. subst s1. rewrite handleBlockUser_store, Hd, Hr. simpl.
    destruct (JS.includes other (JS.orEmpty (blockedUsers d))) eqn:E; simpl.
    - exists d. split; [done | by apply includes_true].
    - eexists. rewrite lookup_insert_eq. split; [done |]. simpl.
      apply elem_of_app. right. apply list_elem_of_here. }
  split; [| split].
  - subst r2. rewrite (handleBlockUser_store s1), Hread.
    destruct (coll_users (store s) !! me) as [d |] eqn:Hd.
    + destruct (readable (store s) me) eqn:Hr.
      * destruct (Hlisted d eq_refl eq_refl) as (d1 & -> & Hin).
        by rewrite (proj2 (includes_true _ _)).
      * by destruct (coll_users (store s1) !! me).
    + assert (coll_users (store s1) !! me = None) as ->; [| done].
      subst s1. by rewrite handleBlockUser_store, Hd.
  - subst r2. generalize s1. intros t.
    unfold handleBlockUser, try_catch.
    unfold mbind at 1, handler_bind, getDoc.
    destruct (bool_decide (me ∈ unreadable (store t))); [done |].
    destruct (coll_users (store t) !! me) as [d |] eqn:Hd; [| done].
    destruct (JS.includes other (JS.orEmpty (blockedUsers d))); [done |].
    simpl. unfold mbind at 1, handler_bind.
    by rewrite (updateDoc_exists _ _ _ d).
  - intros Hr [d Hd]. destruct (Hlisted d Hd Hr) as (d1 & Hd1 & Hin).
    subst r2. apply (handleBlockUser_already s1 me other d1); [| done | done].
    by rewrite Hread.
Qed.

(** Edge behaviour of the two handlers.  With nobody signed in, or with no
  user document of the current user, they do nothing at all, not even an
  alert.  When the read of that document raises they write nothing, leave
  the page flags alone and show the failure alert. *)
Theorem block_handlers_without_record s me other :
  handleBlockUser None other s = (s, Ok ())
  ∧ handleUnblockUser None other s = (s, Ok ())
  ∧ (readable (store s) me = true → coll_users (store s) !! me = None →
     handleBlockUser (Some me) other s = (s, Ok ())
     ∧ handleUnblockUser (Some me) other s = (s, Ok ()))
  ∧ (readable (store s) me = false →
     handleBlockUser (Some me) other s
       = alert "Failed to block user. Please try again." s
     ∧ handleUnblockUser (Some me) other s
       = alert "Failed to unblock user. Please try again." s).
Proof.
  split; [done |]. split; [done |]. split.
  - intros Hr Hd. unfold handleBlockUser, handleUnblockUser, try_catch.
    unfold mbind at 1, handler_bind. rewrite getDoc_readable, Hd by done.
    split; [done |].
    unfold mbind at 1, handler_bind. by rewrite getDoc_readable, Hd.
  - intros Hr. unfold handleBlockUser, handleUnblockUser, try_catch.
    unfold mbind at 1, handler_bind. rewrite getDoc_unreadable by done.
    split; [done |].
    unfold mbind at 1, handler_bind. by rewrite getDoc_unreadable.
Qed.

(** Blocking hides, it does not delete: after alice blocks, the next
  snapshot leaves her with an empty list; after she unblocks, the next
  snapshot of the same stored documents is shown again in full.  The
  messages collection is the same throughout, up to the seen marks of the
  last snapshot. *)
Theorem unblocking_restores_the_conversation s me other d docs :
  readable (store s) me = true →
  coll_users (store s) !! me = Some d →
  other ∉ JS.orEmpty (blockedUsers d) →
  blockSeen (store s) other me = false →
  me ≠ other →
  snapshotOf (store s) docs →
  loading (ui s) = false →
  isBlockedByThem (ui s) = false →
  let s1 := (handleBlockUser (Some me) other s).1 in
  let s2 := (onSnapshot me other docs s1).1 in
  let s3 := (handleUnblockUser (Some me) other s2).1 in
  let s4 := (onSnapshot me other docs s3).1 in
  visibleMessages (ui s2) = []
  ∧ coll_messages (store s3) = coll_messages (store s)
  ∧ visibleMessages (ui s4) = toMessage <$> docs.
Proof.
  intros Hr Hd Hn Hthem Hne Hdocs Hload Hbt s1 s2 s3 s4.
  assert (s1 = (handleBlockUser (Some me) other s).1) as Hs1 by done.
  rewrite (handleBlockUser_fresh s me other d) in Hs1 by done.
  cbn [fst] in Hs1.
  assert (blockSeen (store s1) me other = true) as Hb1.
  { rewrite Hs1. unfold blockSeen, lists, readable in *. simpl.
    rewrite lookup_insert_eq. simpl. rewrite Hr. simpl.
    apply includes_true, elem_of_app. right. apply list_elem_of_here. }
  assert (s2 = MkSys (store s1) (setMessages [] (ui s1))) as Hs2.
  { subst s2. rewrite MessagesFacts.onSnapshot_blocked; [done |]. by rewrite Hb1. }
  assert (∃ p3, s3 = MkSys
            (with_users
               (insert me (MkUserDoc (connections d) (pendingConnections d)
                             (Some (JS.orEmpty (blockedUsers d)))))
               (store s)) p3
            ∧ isBlocked p3 = false ∧ isBlockedByThem p3 = false
            ∧ loading p3 = false) as (p3 & Hs3 & Hp3a & Hp3b & Hp3c).
  { subst s3. rewrite Hs2.
    erewrite handleUnblockUser_listed;
      [| rewrite Hs1; done
       | rewrite Hs1; simpl; apply lookup_insert_eq
       | simpl; apply elem_of_app; right; apply list_elem_of_here].
    rewrite Hs1. cbn [fst store ui with_users coll_users coll_messages
      unreadable clock blockedUsers connections pendingConnections
      JS.orEmpty default].
    unfold Datatypes.id. rewrite filter_ne_snoc by done.
    unfold with_users. simpl. rewrite insert_insert_eq.
    eexists. split; [reflexivity |]. by simpl. }
  split; [| split].
  - rewrite Hs2. by apply MessagesFacts.visibleMessages_nil.
  - by rewrite Hs3.
  - subst s4. rewrite MessagesFacts.onSnapshot_open.
    + cbn [fst ui]. unfold visibleMessages, messagesArea.
      destruct (last (toMessage <$> docs)); rewrite Hs3; simpl;
        rewrite Hp3a, Hp3b, Hp3c; simpl;
        (case_bool_decide as Hlen; [symmetry; by apply nil_length_inv | done]).
    + rewrite Hs3. unfold blockSeen, lists. simpl.
      rewrite lookup_insert_eq. simpl.
      rewrite (proj2 (includes_false _ _)) by done. apply andb_false_r.
    + rewrite Hs3. unfold blockSeen, lists, readable in *. simpl.
      rewrite lookup_insert_ne by done. done.
    + by rewrite Hs3.
Qed.

Lemma unblocking_restores_the_conversation_witness :
  let s := MkSys Scenario.friends (Scenario.alicePage []) in
  let docs := [("m1", Scenario.fromBob)] in
  let s1 := (handleBlockUser (Some Scenario.alice) Scenario.bob s).1 in
  let s2 := (onSnapshot Scenario.alice Scenario.bob docs s1).1 in
  let s3 := (handleUnblockUser (Some Scenario.alice) Scenario.bob s2).1 in
  let s4 := (onSnapshot Scenario.alice Scenario.bob docs s3).1 in
  visibleMessages (ui s2) = []
  ∧ coll_messages (store s3) = coll_messages (store s)
  ∧ visibleMessages (ui s4) = toMessage <$> docs.
Proof.
  apply (unblocking_restores_the_conversation
    (MkSys Scenario.friends (Scenario.alicePage []))
    Scenario.alice Scenario.bob
    (MkUserDoc (Some [Scenario.bob]) None None)
    [("m1", Scenario.fromBob)]).
  - reflexivity.
  - reflexivity.
  - simpl. apply not_elem_of_nil.
  - reflexivity.
  - discriminate.
  - apply Forall_cons. split; [reflexivity | apply Forall_nil; exact I].
  - reflexivity.
  - reflexivity.
Defined.

End ConversationFacts.

(** ** Reactions and chat history *)

Module HistoryFacts.
Import MessagesPage Conversation.

Implicit Types (s : Sys Page) (me other : string).

Lemma handleAddReaction_run s me i (emoji : jsstring) d :
  coll_messages (store s) !! i = Some d →
  handleAddReaction (Some me) false i emoji s
  = (MkSys
       (with_messages
          (insert i (setReactions
                       (<[me := emoji]> (default ∅ (doc_reactions d))) d))
          (store s))
       (ui s),
     Ok ()).
Proof.
  intros Hd. unfold handleAddReaction, try_catch, getMessage.
  unfold mbind at 1, handler_bind. rewrite Hd.
  by rewrite (updateMessage_exists _ _ _ d).
Qed.

(** With nothing to react to, or a failed read, nothing happens. *)
Lemma handleAddReaction_nothing s me i (emoji : jsstring) raises :
  raises = true ∨ coll_messages (store s) !! i = None →
  handleAddReaction (Some me) raises i emoji s = (s, Ok ()).
Proof.
  unfold handleAddReaction, try_catch, getMessage.
  unfold mbind at 1, handler_bind.
  destruct raises; [done |]. intros [? | ->]; done.
Qed.

(** One reaction per user, overwritable: reacting a second time leaves
  exactly the state a single reaction with the second emoji would have
  left.  The reactions of other users, the other fields of the message,
  every other message and every user record stay as they were; and the
  handler asks neither who wrote the message nor whether anybody is
  blocked. *)
Theorem reaction_is_one_per_user s me i (e1 e2 : jsstring) d :
  coll_messages (store s) !! i = Some d →
  let s1 := (handleAddReaction (Some me) false i e1 s).1 in
  let s2 := (handleAddReaction (Some me) false i e2 s1).1 in
  s2 = (handleAddReaction (Some me) false i e2 s).1
  ∧ (∃ r, coll_messages (store s2) !! i = Some (setReactions r d)
          ∧ r !! me = Some e2
          ∧ ∀ u, u ≠ me → r !! u = default ∅ (doc_reactions d) !! u)
  ∧ (∀ j, j ≠ i → coll_messages (store s2) !! j = coll_messages (store s) !! j)
  ∧ coll_users (store s2) = coll_users (store s).
Proof.
  intros Hd s1 s2. subst s2 s1.
  rewrite (handleAddReaction_run s me i e1 d Hd). cbn [fst].
  erewrite handleAddReaction_run by (simpl; apply lookup_insert_eq).
  rewrite (handleAddReaction_run s me i e2 d Hd).
  unfold with_messages, setReactions. simpl.
  rewrite !insert_insert_eq.
  split; [done |]. split; [| split; [| done]].
  - eexists. rewrite lookup_insert_eq. split; [reflexivity |].
    split; [apply lookup_insert_eq |].
    intros u Hu. by rewrite lookup_insert_ne.
  - intros j Hj. by rewrite lookup_insert_ne.
Qed.

Lemma reaction_is_one_per_user_witness :
  let s := MkSys Scenario.bobBlocksAlice (Scenario.alicePage []) in
  let thumbsUp := [0xD83D; 0xDC4D]%N in
  let heart := [0x2764]%N in
  let s1 := (handleAddReaction (Some Scenario.alice) false "m1" thumbsUp s).1 in
  let s2 := (handleAddReaction (Some Scenario.alice) false "m1" heart s1).1 in
  s2 = (handleAddReaction (Some Scenario.alice) false "m1" heart s).1.
Proof.
  pose proof (reaction_is_one_per_user
    (MkSys Scenario.bobBlocksAlice (Scenario.alicePage []))
    Scenario.alice "m1" [0xD83D; 0xDC4D]%N [0x2764]%N Scenario.fromBob
    eq_refl) as [H _].
  exact H.
Defined.

(** *** Clearing the history *)

Lemma lookup_foldr_delete (m : gmap string MessageDoc) (ids : list string) i :
  foldr delete m ids !! i = if bool_decide (i ∈ ids) then None else m !! i.
Proof.
  induction ids as [| j ids IH]; simpl; [done |].
  destruct (decide (j = i)) as [-> | Hne].
  - rewrite lookup_delete_eq. by rewrite bool_decide_eq_true_2 by left.
  - rewrite lookup_delete_ne, IH by done.
    rewrite (bool_decide_ext (i ∈ j :: ids) (i ∈ ids)); [done |].
    rewrite elem_of_cons. split; [intros [-> | ?]; done | by right].
Qed.

Lemma elem_of_conversation_ids (m : gmap string MessageDoc) a b i :
  i ∈ (filter (λ kv, inConversation a b kv.2 = true) (map_to_list m)).*1
  ↔ ∃ d, m !! i = Some d ∧ inConversation a b d = true.
Proof.
  rewrite list_elem_of_fmap. split.
  - intros ([j d] & -> & H). apply list_elem_of_filter in H as [HP H].
    apply elem_of_map_to_list in H. by exists d.
  - intros (d & Hd & HP). exists (i, d). split; [done |].
    apply list_elem_of_filter. split; [done |].
    by apply elem_of_map_to_list.
Qed.

(** Clearing the history removes exactly the stored messages whose sender
  and receiver are both among the two users (so also a message either of
  them addressed to themselves), whoever asks and whatever the block state;
  every other message and every user record stays, and the page's list is
  emptied with a success alert.  If the query raises nothing is deleted and
  the failure alert is shown. *)
Theorem clear_history_removes_the_conversation s me other :
  selectedUser (ui s) = Some other →
  let s' := (handleDeleteChatHistory (Some me) false s).1 in
  let failed := (handleDeleteChatHistory (Some me) true s).1 in
  (∀ i, coll_messages (store s') !! i
        = match coll_messages (store s) !! i with
          | Some d => if inConversation me other d then None else Some d
          | None => None
          end)
  ∧ coll_users (store s') = coll_users (store s)
  ∧ messages (ui s') = []
  ∧ alerts (ui s') = alerts (ui s) ++ [historyDeletedAlert]
  ∧ store failed = store s
  ∧ messages (ui failed) = messages (ui s)
  ∧ alerts (ui failed) = alerts (ui s) ++ [historyFailedAlert].
Proof.
  intros Hsel s' failed. subst s' failed.
  unfold handleDeleteChatHistory, getState, try_catch, getConversation,
    commitDeletes. run_handler. rewrite Hsel. simpl.
  split; [| done].
  intros i. rewrite lookup_foldr_delete.
  destruct (coll_messages (store s) !! i) as [d |] eqn:Hd.
  - destruct (inConversation me other d) eqn:Hc.
    + rewrite bool_decide_eq_true_2; [done |].
      apply elem_of_conversation_ids. eauto.
    + rewrite bool_decide_eq_false_2; [done |].
      rewrite elem_of_conversation_ids. intros (d' & Hd' & Hc').
      rewrite Hd in Hd'. injection Hd' as <-. congruence.
  - by case_bool_decide.
Qed.

Lemma clear_history_removes_the_conversation_witness :
  let s := MkSys Scenario.bobBlocksAlice (Scenario.alicePage []) in
  coll_messages (store (handleDeleteChatHistory (Some Scenario.alice) false s).1)
    !! "m1" = None.
Proof.
  pose proof (clear_history_removes_the_conversation
    (MkSys Scenario.bobBlocksAlice (Scenario.alicePage []))
    Scenario.alice Scenario.bob eq_refl) as [H _].
  intros s. etrans; [exact (H "m1") | reflexivity].
Defined.

End HistoryFacts.

(** ** Invariants of an open conversation *)

Module SessionFacts.
Import MessagesPage Conversation Session.

Implicit Types (s : Sys Page) (me other : string).

(** *** Envelopes *)

Lemma envelope_insert (m : gmap string MessageDoc) i d d' :
  m !! i = Some d → envelope d' = envelope d →
  envelope <$> <[i := d']> m = envelope <$> m.
Proof.
  intros Hd He. apply map_eq. intros j. rewrite !lookup_fmap.
  destruct (decide (i = j)) as [<- | Hne].
  - rewrite lookup_insert_eq, Hd. simpl. by rewrite He.
  - by rewrite lookup_insert_ne.
Qed.

Lemma envelope_foldr_alter (f : MessageDoc → MessageDoc)
    (m : gmap string MessageDoc) (ids : list string) :
  (∀ d, envelope (f d) = envelope d) →
  envelope <$> foldr (alter f) m ids = envelope <$> m.
Proof.
  intros Hf. induction ids as [| j ids IH]; [done |]. simpl.
  rewrite <- IH. apply map_eq. intros i. rewrite !lookup_fmap.
  destruct (decide (j = i)) as [-> | Hne].
  - rewrite lookup_alter_eq.
    destruct (foldr (alter f) m ids !! i); simpl; by rewrite ?Hf.
  - by rewrite lookup_alter_ne.
Qed.

Lemma updateMessage_envelope s i (f : MessageDoc → MessageDoc) :
  (∀ d, envelope (f d) = envelope d) →
  envelope <$> coll_messages (store (updateMessage i f s).1)
  = envelope <$> coll_messages (store s).
Proof.
  intros Hf. unfold updateMessage.
  destruct (coll_messages (store s) !! i) as [d |] eqn:Hd; [| done].
  simpl. by apply (envelope_insert _ _ d).
Qed.

Lemma handle_envelope me other e s :
  envelope <$> coll_messages (store (handle me other e s).1)
  = envelope <$> coll_messages (store s).
Proof.
  destruct e as [docs | | i t | i | raises i emoji | |]; cbn [handle].
  - unfold onSnapshot, try_catch.
    unfold mbind at 1, handler_bind.
    rewrite MessagesFacts.checkMutualBlockStatus_run. simpl.
    destruct (_ || _); [done |].
    unfold mbind at 1, handler_bind, commitBatch.
    destruct (forallb _ _); [| done]. run_handler.
    destruct (last (toMessage <$> docs)); simpl;
      by apply envelope_foldr_alter.
  - destruct (selectedUser (ui s)) as [o |] eqn:Hsel.
    + by rewrite (MessagesFacts.updateBlockStatus_run _ _ o).
    + unfold updateBlockStatus. unfold mbind at 1, handler_bind, getState.
      by rewrite Hsel.
  - unfold handleEditMessage, try_catch.
    unfold mbind at 1, handler_bind.
    pose proof (updateMessage_envelope s i (editTo t) (λ _, eq_refl)) as H.
    by destruct (updateMessage i (editTo t) s) as [s' [[] | err]].
  - unfold handleDeleteMessage, try_catch.
    pose proof (updateMessage_envelope s i softDelete (λ _, eq_refl)) as H.
    by destruct (updateMessage i softDelete s) as [s' [[] | err]].
  - unfold handleAddReaction, try_catch, getMessage.
    unfold mbind at 1, handler_bind.
    destruct raises; [done |].
    destruct (coll_messages (store s) !! i) as [d |] eqn:Hd; [| done].
    pose proof (updateMessage_envelope s i
      (setReactions (<[me := emoji]> (default ∅ (doc_reactions d))))
      (λ _, eq_refl)) as H.
    by destruct (updateMessage i _ s) as [s' [[] | err]].
  - rewrite ConversationFacts.handleBlockUser_store.
    destruct (coll_users (store s) !! me); [| done]. by destruct (_ && _).
  - rewrite MessagesFacts.handleUnblockUser_store.
    destruct (blockSeen (store s) me other); [| done].
    unfold unblocked. by destruct (coll_users (store s) !! me).
Qed.

(** Sender, receiver and timestamp of a message are immutable: whatever
  sequence of snapshots, block-status refreshes, edits, soft deletes,
  reactions, blocks and unblocks runs on the page, with whatever arguments,
  the store holds the same message ids with the same sender, receiver and
  timestamp as before. *)
Theorem envelopes_are_immutable me other (es : list Event) s :
  envelope <$> coll_messages (store (play me other es s))
  = envelope <$> coll_messages (store s).
Proof.
  unfold play. revert s. induction es as [| e es IH]; intros s; [done |].
  simpl. rewrite IH. apply handle_envelope.
Qed.

(** *** Authorship through the rendered controls *)

Lemma controls_cases (p : Page) me (m : Message) c :
  c ∈ messageControls (Some me) p m →
  isDeleted m = false
  ∧ ((c = SaveEditButton ∨ c = CancelEditButton)
       ∧ editingMessageId p = Some (id m)
     ∨ c = ReactButton
     ∨ (c = EditButton ∨ c = DeleteButton) ∧ senderId m = me).
Proof.
  unfold messageControls. destruct (isDeleted m) eqn:Hdel.
  { intros H. by apply elem_of_nil in H. }
  split; [done |]. case_bool_decide as Hed.
  - left. split; [| done].
    repeat (apply elem_of_cons in H as [-> | H]; [tauto |]).
    by apply elem_of_nil in H.
  - right. apply elem_of_cons in H as [-> | H]; [by left |].
    right. case_bool_decide as Hcu; simpl in H.
    + injection Hcu as ->. split; [| done].
      repeat (apply elem_of_cons in H as [-> | H]; [tauto |]).
      by apply elem_of_nil in H.
    + by apply elem_of_nil in H.
Qed.

Lemma faithfulView_update me s i (f : MessageDoc → MessageDoc) d p :
  faithfulView me s →
  coll_messages (store s) !! i = Some d →
  (∀ x, doc_senderId (f x) = doc_senderId x) →
  messages p = messages (ui s) →
  (editingMessageId p = editingMessageId (ui s) ∨ editingMessageId p = None) →
  faithfulView me (MkSys (with_messages (insert i (f d)) (store s)) p).
Proof.
  intros [Hview Hedit] Hd Hf Hm He. split; simpl.
  - intros m Hin. rewrite Hm in Hin. destruct (Hview m Hin) as (dm & Hdm & Hs).
    destruct (decide (i = id m)) as [-> | Hne].
    + rewrite lookup_insert_eq. eexists. split; [done |].
      rewrite Hf. congruence.
    + rewrite lookup_insert_ne by done. eauto.
  - intros j dj Hj Hlook. destruct He as [He | He]; [| congruence].
    rewrite He in Hj. destruct (decide (i = j)) as [-> | Hne].
    + rewrite lookup_insert_eq in Hlook. injection Hlook as <-.
      rewrite Hf. by apply (Hedit j).
    + rewrite lookup_insert_ne in Hlook by done. by apply (Hedit j).
Qed.

(** A step keeps the view faithful, and keeps text, deleted flag and edited
  flag of every message the current user did not write. *)
Lemma step_keeps_foreign_content me other s s' :
  faithfulView me s → Step me other s s' →
  faithfulView me s'
  ∧ ∀ i d, coll_messages (store s) !! i = Some d → doc_senderId d ≠ me →
           ∃ d', coll_messages (store s') !! i = Some d'
                 ∧ content d' = content d
                 ∧ doc_senderId d' = doc_senderId d.
Proof.
  intros Hfv Hstep. destruct Hstep as [c m Hin Hc | docs Hdocs].
  - destruct Hfv as [Hview Hedit].
    destruct (Hview m Hin) as (dm & Hdm & Hsender).
    apply controls_cases in Hc as (Hdel & [[Hc He] | [-> | [Hc Hown]]]).
    + (* save or cancel: the message being edited is mine *)
      assert (doc_senderId dm = me) as Hmine by by apply (Hedit (id m)).
      destruct Hc as [-> | ->].
      * assert ((click (Some me) SaveEditButton m s).1
                = MkSys (with_messages
                           (insert (id m)
                              (editTo (editingMessageText (ui s)) dm))
                           (store s))
                    (setEditingMessageText []
                       (setEditingMessageId None (ui s)))) as ->.
        { cbn [click]. unfold mbind at 1, handler_bind, getState.
          unfold handleEditMessage, try_catch.
          unfold mbind at 1, handler_bind.
          by rewrite (updateMessage_exists _ _ _ dm). }
        split.
        -- apply (faithfulView_update me s (id m) _ dm); try done.
           by right.
        -- intros i d Hd Hforeign. simpl.
           destruct (decide (id m = i)) as [<- | Hne]; [congruence |].
           rewrite lookup_insert_ne by done. eauto.
      * cbn [click]. unfold handleCancelEdit. run_handler. split; [| eauto].
        split; simpl; [done | congruence].
    + (* the reaction picker opens *)
      simpl. split; [done | eauto].
    + destruct Hc as [-> | ->].
      * (* edit mode is entered on a message of mine *)
        cbn [click]. unfold startEdit. run_handler. split; [| eauto].
        split; simpl; [done |].
        intros i d [= <-] Hd. congruence.
      * assert ((click (Some me) DeleteButton m s).1
                = MkSys (with_messages (insert (id m) (softDelete dm))
                           (store s)) (ui s)) as ->.
        { cbn [click]. unfold handleDeleteMessage, try_catch.
          by rewrite (updateMessage_exists _ _ _ dm). }
        split.
        -- apply (faithfulView_update me s (id m) _ dm); try done.
           by left.
        -- intros i d Hd Hforeign. simpl.
           destruct (decide (id m = i)) as [<- | Hne]; [congruence |].
           rewrite lookup_insert_ne by done. eauto.
  - destruct (blockSeen (store s) me other || blockSeen (store s) other me)
      eqn:Hb.
    + rewrite MessagesFacts.onSnapshot_blocked by done. simpl. split.
      * destruct Hfv as [_ Hedit]. split; simpl; [| done].
        intros m Hm. by apply elem_of_nil in Hm.
      * eauto.
    + apply orb_false_elim in Hb as [Hb1 Hb2].
      rewrite MessagesFacts.onSnapshot_open by done. cbn [fst store].
      assert (∀ i d, coll_messages (store s) !! i = Some d →
                ∃ d', foldr (alter markSeen) (coll_messages (store s))
                        (id <$> filter (λ m, unseenFor me m)
                                  (toMessage <$> docs)) !! i = Some d'
                      ∧ content d' = content d
                      ∧ doc_senderId d' = doc_senderId d) as Hkeep.
      { intros i d Hd.
        rewrite MessagesFacts.lookup_foldr_alter
          by apply MessagesFacts.markSeen_idemp.
        rewrite Hd. case_bool_decide; simpl; eauto. }
      split; [| intros i d Hd _; by apply Hkeep].
      destruct Hfv as [_ Hedit]. split.
      * intros m Hm.
        assert (m ∈ toMessage <$> docs) as Hm'.
        { by destruct (last (toMessage <$> docs)). }
        apply list_elem_of_fmap in Hm' as ([i d] & -> & Hd).
        unfold snapshotOf in Hdocs. rewrite Forall_forall in Hdocs.
        specialize (Hdocs _ Hd). simpl in Hdocs.
        destruct (Hkeep i d Hdocs) as (d' & Hd' & _ & Hs).
        exists d'. simpl. split; [exact Hd' | exact Hs].
      * intros i d' He Hd'.
        assert (editingMessageId (ui s) = Some i) as He'.
        { by destruct (last (toMessage <$> docs)). }
        simpl in Hd'.
        rewrite MessagesFacts.lookup_foldr_alter in Hd'
          by apply MessagesFacts.markSeen_idemp.
        destruct (coll_messages (store s) !! i) as [d |] eqn:Hd;
          [| by case_bool_decide].
        assert (doc_senderId d' = doc_senderId d) as ->.
        { case_bool_decide; simpl in Hd'; by injection Hd' as <-. }
        by apply (Hedit i).
Qed.

(** Through the rendered controls only the author edits or deletes: from a
  page whose view is faithful to the store, whatever chain of clicks on
  rendered message controls and delivered snapshots follows, every message
  that the current user did not write keeps its text, its deleted flag and
  its edited flag. *)
Theorem only_the_author_edits_through_the_controls me other s s' i d :
  faithfulView me s →
  rtc (Step me other) s s' →
  coll_messages (store s) !! i = Some d →
  doc_senderId d ≠ me →
  ∃ d', coll_messages (store s') !! i = Some d' ∧ content d' = content d.
Proof.
  intros Hfv Hsteps. revert d.
  induction Hsteps as [s | s s1 s' Hstep Hrest IH]; intros d Hd Hforeign.
  - eauto.
  - destruct (step_keeps_foreign_content me other s s1 Hfv Hstep)
      as [Hfv1 Hkeep].
    destruct (Hkeep i d Hd Hforeign) as (d1 & Hd1 & Hc1 & Hs1).
    destruct (IH Hfv1 d1 Hd1) as (d' & Hd' & Hc'); [congruence |].
    exists d'. split; [done | congruence].
Qed.

Lemma only_the_author_edits_through_the_controls_witness :
  let s := MkSys Scenario.friends (Scenario.alicePage []) in
  let s' := (onSnapshot Scenario.alice Scenario.bob
               [("m1", Scenario.fromBob)] s).1 in
  ∃ d', coll_messages (store s') !! "m1" = Some d'
        ∧ content d' = content Scenario.fromBob.
Proof.
  apply (only_the_author_edits_through_the_controls
           Scenario.alice Scenario.bob
           (MkSys Scenario.friends (Scenario.alicePage []))).
  - split.
    + intros m Hm. by apply elem_of_nil in Hm.
    + intros i d He. discriminate He.
  - apply rtc_once. apply StepSnapshot.
    apply Forall_cons. split; [reflexivity | apply Forall_nil; exact I].
  - reflexivity.
  - discriminate.
Defined.

(** *** The composer *)

(** With nobody selected the chat area shows neither an input nor a notice.
  With a user selected, the input box is rendered exactly when the page
  holds none of the three flags blocked-by-me, blocked-by-them and reported,
  and whenever the blocked notice stands in place of the message list the
  composer is replaced by a notice as well.  The send button is enabled
  exactly when a user is selected, no flag is set and the trimmed draft is
  not blank, and a send issued while it is enabled is never dropped
  silently: it raises an alert or writes the message. *)
Theorem composer_follows_the_page_flags s me autoId :
  (composer (ui s) = SelectAConversation ↔ selectedUser (ui s) = None)
  ∧ ((∃ sendDisabled, composer (ui s) = MessageInput sendDisabled)
     ↔ (is_Some (selectedUser (ui s))
        ∧ isBlocked (ui s) = false ∧ isBlockedByThem (ui s) = false
        ∧ isReported (ui s) = false))
  ∧ (∀ headline detail,
       is_Some (selectedUser (ui s)) →
       messagesArea (ui s) = BlockedNotice headline detail →
       ∃ notice, composer (ui s) = DisabledNotice notice)
  ∧ (composer (ui s) = MessageInput false ↔
       (is_Some (selectedUser (ui s))
        ∧ isMessagingDisabled (ui s) = false
        ∧ JS.trim (newMessage (ui s)) ≠ []))
  ∧ (composer (ui s) = MessageInput false →
     (handleSendMessage (Some me) autoId s).1 ≠ s).
Proof.
  assert (JS.truthy (JS.trim (newMessage (ui s))) = true
          ↔ JS.trim (newMessage (ui s)) ≠ []) as Htr.
  { by destruct (JS.trim (newMessage (ui s))). }
  assert (composer (ui s) = MessageInput false ↔
            (is_Some (selectedUser (ui s))
             ∧ isMessagingDisabled (ui s) = false
             ∧ JS.trim (newMessage (ui s)) ≠ [])) as Henabled.
  { unfold composer. rewrite <- Htr.
    destruct (selectedUser (ui s)) as [other |].
    - destruct (isMessagingDisabled (ui s)); simpl.
      + split; [done | by intros (? & ? & ?)].
      + destruct (JS.truthy _); simpl; split;
          first [ done | by intros (? & ? & ?) | by eauto ].
    - split; [done |]. intros ([? ?] & _). done. }
  refine (conj _ (conj _ (conj _ (conj Henabled _)))).
  - unfold composer. destruct (selectedUser (ui s)); [| done].
    split; [| done]. by destruct (negb (isMessagingDisabled (ui s))).
  - unfold composer, isMessagingDisabled.
    destruct (selectedUser (ui s)) as [other |].
    + destruct (isBlocked (ui s)), (isBlockedByThem (ui s)),
        (isReported (ui s)); simpl; split;
        first [ by intros [? ?] | by intros (? & ? & ? & ?) | by eauto ].
    + split; [by intros [? ?] |]. intros ([? ?] & _). done.
  - intros headline detail [other Hsel].
    unfold composer, isMessagingDisabled, messagesArea. rewrite Hsel.
    destruct (isBlocked (ui s)), (isBlockedByThem (ui s)); simpl; eauto.
    destruct (loading (ui s)); [done |]. by case_bool_decide.
  - intros Hc. apply Henabled in Hc as ([other Hsel] & _ & Hbody).
    rewrite (MessagesFacts.handleSendMessage_run _ _ other) by done.
    destruct (blockSeen (store s) other me);
      [| destruct (blockSeen (store s) me other)].
    + simpl. intros Heq. apply (f_equal (λ x, length (alerts (ui x)))) in Heq.
      simpl in Heq. rewrite length_app in Heq. simpl in Heq. lia.
    + simpl. intros Heq. apply (f_equal (λ x, length (alerts (ui x)))) in Heq.
      simpl in Heq. rewrite length_app in Heq. simpl in Heq. lia.
    + simpl. intros Heq. apply (f_equal (λ x, clock (store x))) in Heq.
      simpl in Heq. lia.
Qed.

End SessionFacts.

(** ** Who may edit and delete *)

Module AuthorshipFacts.
Import MessagesPage Conversation Session.

(** Along a chain of clicks and snapshots the view stays faithful and the
  messages of other authors keep their content. *)
Lemma steps_keep_foreign_content me other s s' :
  faithfulView me s →
  rtc (Step me other) s s' →
  faithfulView me s'
  ∧ ∀ i d, coll_messages (store s) !! i = Some d → doc_senderId d ≠ me →
           ∃ d', coll_messages (store s') !! i = Some d'
                 ∧ content d' = content d.
Proof.
  intros Hfv Hsteps.
  induction Hsteps as [s | s s1 s' Hstep Hrest IH]; [eauto |].
  destruct (SessionFacts.step_keeps_foreign_content me other s s1 Hfv Hstep)
    as [Hfv1 Hkeep].
  destruct (IH Hfv1) as [Hfv' Hrest'].
  split; [done |]. intros i d Hd Hforeign.
  destruct (Hkeep i d Hd Hforeign) as (d1 & Hd1 & Hc1 & Hs1).
  destruct (Hrest' i d1 Hd1) as (d' & Hd' & Hc'); [congruence |].
  exists d'. split; [done | congruence].
Qed.

(** C6, as stated, fails in its requirement that an edited message is not
  deleted.  Bob opens his conversation with alice and the first snapshot
  shows his message.  He deletes it; until the callback of the next
  snapshot has run, the bubble still shows the message as it was, with its
  edit button.  He enters edit mode, types, and saves: every control he
  uses is rendered when he uses it, and the stored message, already
  deleted, gets the new text and the edited mark. *)
Lemma deleted_message_is_edited_from_a_stale_view :
  let ok := [111; 107]%N in
  let opened :=
    (ChatList.fetchConnectedUsers (Some Scenario.bob) Scenario.alice
       (MkSys Scenario.friends
          (ChatList.MkChats (Scenario.freshPage None []) []))).1 in
  let s0 := MkSys (store opened) (ChatList.page (ui opened)) in
  let s := (onSnapshot Scenario.bob Scenario.alice
              [("m1", Scenario.fromBob)] s0).1 in
  let m := toMessage ("m1", Scenario.fromBob) in
  let s1 := (click (Some Scenario.bob) DeleteButton m s).1 in
  let s2 := (click (Some Scenario.bob) EditButton m s1).1 in
  let s3 := (setState (setEditingMessageText ok) s2).1 in
  let s4 := (click (Some Scenario.bob) SaveEditButton m s3).1 in
  selectedUser (ui s0) = Some Scenario.alice
  ∧ messages (ui s) = [m]
  ∧ messageControls (Some Scenario.bob) (ui s) m
    = [ReactButton; EditButton; DeleteButton]
  ∧ doc_isDeleted <$> coll_messages (store s1) !! "m1" = Some (Some true)
  ∧ messageControls (Some Scenario.bob) (ui s1) m
    = [ReactButton; EditButton; DeleteButton]
  ∧ messageControls (Some Scenario.bob) (ui s3) m
    = [SaveEditButton; CancelEditButton]
  ∧ doc_isDeleted <$> coll_messages (store s4) !! "m1" = Some (Some true)
  ∧ doc_text <$> coll_messages (store s4) !! "m1" = Some ok
  ∧ doc_edited <$> coll_messages (store s4) !! "m1" = Some (Some true).
Proof. by repeat split. Qed.

(** C6 (amended): edit and soft delete are author-only through the page,
  whatever the block flags are, and the deleted flag is tested on the
  message as displayed.  From a page whose view is faithful to the store,
  after any chain of clicks on rendered message controls and delivered
  snapshots:
  - every message the current user did not write has kept its text, its
    deleted flag and its edited flag;
  - a bubble renders controls only while it displays its message as not
    deleted, and on a message of another author the only control is the
    reaction button;
  - a click on a rendered save button writes the edited text and
    [edited = true] on the stored message, and a click on a rendered delete
    button writes [isDeleted = true]; each leaves every other field, the
    text in the case of the delete button, and every other message as they
    were, and neither reads the stored deleted flag. *)
Theorem edit_and_delete_are_author_only me other s s' :
  faithfulView me s →
  rtc (Step me other) s s' →
  (∀ i d, coll_messages (store s) !! i = Some d → doc_senderId d ≠ me →
     ∃ d', coll_messages (store s') !! i = Some d' ∧ content d' = content d)
  ∧ (∀ m c, m ∈ messages (ui s') →
       c ∈ messageControls (Some me) (ui s') m →
       isDeleted m = false ∧ (senderId m ≠ me → c = ReactButton))
  ∧ (∀ m d, m ∈ messages (ui s') →
       coll_messages (store s') !! id m = Some d →
       (SaveEditButton ∈ messageControls (Some me) (ui s') m →
        store (click (Some me) SaveEditButton m s').1
        = with_messages
            (insert (id m) (editTo (editingMessageText (ui s')) d)) (store s'))
       ∧ (DeleteButton ∈ messageControls (Some me) (ui s') m →
          store (click (Some me) DeleteButton m s').1
          = with_messages (insert (id m) (softDelete d)) (store s')))
  ∧ (∀ newText d,
       editTo newText d
       = MkMessageDoc (doc_senderId d) (doc_receiverId d) newText
           (doc_timestamp d) (doc_seen d) (doc_reactions d) (doc_isDeleted d)
           (Some true)
       ∧ softDelete d
         = MkMessageDoc (doc_senderId d) (doc_receiverId d) (doc_text d)
             (doc_timestamp d) (doc_seen d) (doc_reactions d) (Some true)
             (doc_edited d)).
Proof.
  intros Hfv Hsteps.
  destruct (steps_keep_foreign_content me other s s' Hfv Hsteps)
    as [[Hview Hedit] Hkeep].
  refine (conj Hkeep (conj _ (conj _ _))).
  - intros m c Hin Hc.
    apply SessionFacts.controls_cases in Hc
      as (Hdel & [[_ He] | [-> | [_ Hown]]]); (split; [done |]).
    + intros Hforeign. exfalso. apply Hforeign.
      destruct (Hview m Hin) as (d & Hd & <-). by apply (Hedit (id m)).
    + done.
    + done.
  - intros m d _ Hd. split; intros _.
    + cbn [click]. unfold mbind at 1, handler_bind, getState.
      unfold handleEditMessage, try_catch.
      unfold mbind at 1, handler_bind.
      by rewrite (updateMessage_exists _ _ _ d).
    + cbn [click]. unfold handleDeleteMessage, try_catch.
      by rewrite (updateMessage_exists _ _ _ d).
  - done.
Qed.

Lemma edit_and_delete_are_author_only_witness :
  let s := MkSys Scenario.friends (Scenario.alicePage []) in
  let s' := (onSnapshot Scenario.alice Scenario.bob
               [("m1", Scenario.fromBob)] s).1 in
  messageControls (Some Scenario.alice) (ui s')
    (toMessage ("m1", Scenario.fromBob)) = [ReactButton]
  ∧ ∀ c, c ∈ messageControls (Some Scenario.alice) (ui s')
               (toMessage ("m1", Scenario.fromBob)) →
         c = ReactButton.
Proof.
  intros s s'. split; [reflexivity |]. intros c Hc.
  pose proof (edit_and_delete_are_author_only Scenario.alice Scenario.bob s s')
    as H.
  destruct H as (_ & H & _).
  - split.
    + intros m Hm. by apply elem_of_nil in Hm.
    + intros i d He. discriminate He.
  - apply rtc_once. apply StepSnapshot.
    apply Forall_cons. split; [reflexivity | apply Forall_nil; exact I].
  - apply (H (toMessage ("m1", Scenario.fromBob)) c); [| exact Hc | discriminate].
    vm_compute. apply list_elem_of_here.
Defined.

End AuthorshipFacts.

(** ** The browse page *)

Module BrowsingFacts.
Import BrowsePage Browsing.

Implicit Types (s : Sys Page) (me other : string).

Lemma handleAddFriend_full s me other d :
  coll_users (store s) !! other = Some d →
  handleAddFriend (Some me) other s
  = (MkSys (with_users (insert other (applyUpdate (requestPending me) d))
              (store s))
       (setProfiles (fmap (afterConnect me other)) (ui s)),
     Ok ()).
Proof.
  intros Hd. unfold handleAddFriend.
  unfold mbind at 1, handler_bind. by rewrite (updateDoc_exists _ _ _ d).
Qed.

Lemma handleDisconnect_full s me other dOther dMe :
  coll_users (store s) !! other = Some dOther →
  <[other := applyUpdate (dropConnection me) dOther]> (coll_users (store s))
    !! me = Some dMe →
  handleDisconnect (Some me) other s
  = (MkSys
       (with_users
          (λ m, <[me := applyUpdate (dropConnection other) dMe]>
                  (<[other := applyUpdate (dropConnection me) dOther]> m))
          (store s))
       (setProfiles (fmap (afterDisconnect me other)) (ui s)),
     Ok ()).
Proof.
  intros Ho Hm. unfold handleDisconnect.
  unfold mbind at 1, handler_bind. rewrite (updateDoc_exists _ _ _ dOther) by done.
  unfold mbind at 1, handler_bind. by rewrite (updateDoc_exists _ _ _ dMe).
Qed.

(** Round trip: a request sent to a user who had none from me, then
  cancelled, leaves that user's pending list, every other record and the
  cards of the page as they were. *)
Theorem request_then_cancel_restores s me other d :
  coll_users (store s) !! other = Some d →
  me ∉ JS.orEmpty (Firestore.pendingConnections d) →
  (∀ profile, profile ∈ profiles (ui s) → id profile = other →
     me ∉ pendingConnections profile) →
  let s1 := (handleAddFriend (Some me) other s).1 in
  let r2 := handleCancelRequest (Some me) other s1 in
  lists Firestore.pendingConnections (store s1) other me = true
  ∧ r2.2 = Ok ()
  ∧ coll_users (store r2.1)
    = <[other := MkUserDoc (Firestore.connections d)
                   (Some (JS.orEmpty (Firestore.pendingConnections d)))
                   (blockedUsers d)]> (coll_users (store s))
  ∧ profiles (ui r2.1) = profiles (ui s).
Proof.
  intros Hd Hn Hcards s1 r2. subst r2 s1.
  rewrite (handleAddFriend_full s me other d Hd). cbn [fst].
  erewrite ConnectionFacts.handleCancelRequest_run
    by (simpl; apply lookup_insert_eq).
  cbn [fst snd store ui]. split; [| split; [done |]; split].
  - unfold lists. simpl. rewrite lookup_insert_eq. simpl.
    apply includes_true, elem_of_arrayUnion. by left.
  - unfold with_users. simpl. rewrite insert_insert_eq.
    unfold applyUpdate. simpl. unfold arrayUnion.
    rewrite (proj2 (includes_false _ _)) by done.
    unfold arrayRemove. by rewrite ConversationFacts.filter_ne_snoc.
  - simpl. rewrite <- list_fmap_compose.
    rewrite <- (list_fmap_id (profiles (ui s))) at 2.
    apply list_fmap_ext. intros _ profile Hin%list_elem_of_lookup_2.
    unfold compose, afterConnect.
    destruct (bool_decide (id profile = other)) eqn:E; simpl; rewrite E.
    + apply bool_decide_eq_true in E.
      rewrite ConversationFacts.filter_ne_snoc by by apply Hcards.
      by destruct profile.
    + done.
Qed.

Lemma request_then_cancel_restores_witness :
  let s := (fetchData (MkSys Scenario.strangers Scenario.blankBrowsePage)).1 in
  let s1 := (handleAddFriend (Some Scenario.alice) Scenario.bob s).1 in
  let r2 := handleCancelRequest (Some Scenario.alice) Scenario.bob s1 in
  lists Firestore.pendingConnections (store s1) Scenario.bob Scenario.alice
    = true
  ∧ r2.2 = Ok ()
  ∧ profiles (ui r2.1) = profiles (ui s).
Proof.
  pose proof (request_then_cancel_restores
    (fetchData (MkSys Scenario.strangers Scenario.blankBrowsePage)).1
    Scenario.alice Scenario.bob (MkUserDoc None None None)) as H.
  destruct H as (H1 & H2 & _ & H4).
  - reflexivity.
  - simpl. apply not_elem_of_nil.
  - intros profile Hin Hid.
    vm_compute in Hin.
    repeat (apply elem_of_cons in Hin as [-> | Hin];
            [simpl; apply not_elem_of_nil |]).
    by apply elem_of_nil in Hin.
  - split; [exact H1 | split; [exact H2 | exact H4]].
Defined.

(** *** Cards and store *)








End BrowsingFacts.

(** ** Two-document writes and the shape of the arrays *)

Module RelationFacts.

(** *** Disconnecting *)

(** Disconnecting writes the other user's record first, then mine.  With
  both records present it returns normally and neither lists the other in
  [connections] any more, pending requests and blocks untouched.  Without
  the other record nothing is written.  Without my own record the other
  side is already written when the handler throws: the store is left
  asymmetric and the card on the page is not updated. *)
Theorem disconnect_writes_their_side_first (s : Sys BrowsePage.Page)
    (me other : string) :
  let r := BrowsePage.handleDisconnect (Some me) other s in
  (∀ dMe dOther, me ≠ other →
     coll_users (store s) !! me = Some dMe →
     coll_users (store s) !! other = Some dOther →
     r.2 = Ok ()
     ∧ coll_users (store r.1)
       = <[me := MkUserDoc
                   (Some (arrayRemove other (JS.orEmpty (connections dMe))))
                   (pendingConnections dMe) (blockedUsers dMe)]>
           (<[other := MkUserDoc
                         (Some (arrayRemove me
                                  (JS.orEmpty (connections dOther))))
                         (pendingConnections dOther) (blockedUsers dOther)]>
              (coll_users (store s)))
     ∧ lists connections (store r.1) me other = false
     ∧ lists connections (store r.1) other me = false)
  ∧ (coll_users (store s) !! other = None → r = (s, Throw NotFound))
  ∧ (∀ dOther, me ≠ other →
     coll_users (store s) !! me = None →
     coll_users (store s) !! other = Some dOther →
     r.2 = Throw NotFound
     ∧ ui r.1 = ui s
     ∧ coll_users (store r.1)
       = <[other := MkUserDoc
                      (Some (arrayRemove me (JS.orEmpty (connections dOther))))
                      (pendingConnections dOther) (blockedUsers dOther)]>
           (coll_users (store s))).
Proof.
  intros r. subst r. split; [| split].
  - intros dMe dOther Hne Hme Hother.
    rewrite (BrowsingFacts.handleDisconnect_full s me other dOther dMe)
      by (done || by rewrite lookup_insert_ne).
    cbn [fst snd store with_users coll_users].
    split; [done |]. split; [done |]. split.
    + eapply ConnectionFacts.lists_false; [simpl; apply lookup_insert_eq |].
      simpl. rewrite elem_of_arrayRemove. tauto.
    + eapply ConnectionFacts.lists_false.
      * simpl. rewrite lookup_insert_ne by done. apply lookup_insert_eq.
      * simpl. rewrite elem_of_arrayRemove. tauto.
  - intros Hother. unfold BrowsePage.handleDisconnect.
    unfold mbind at 1, handler_bind. by rewrite updateDoc_missing.
  - intros dOther Hne Hme Hother.
    assert (BrowsePage.handleDisconnect (Some me) other s
            = (MkSys (with_users
                        (insert other
                           (applyUpdate (BrowsePage.dropConnection me) dOther))
                        (store s)) (ui s), Throw NotFound)) as ->; [| done].
    unfold BrowsePage.handleDisconnect.
    unfold mbind at 1, handler_bind.
    rewrite (updateDoc_exists _ _ _ dOther) by done.
    unfold mbind at 1, handler_bind.
    by rewrite updateDoc_missing by (simpl; by rewrite lookup_insert_ne).
Qed.

(** *** Accepting *)

(** Accepting a request whose sender's record no longer exists (a deleted
  account): my own record is written first, so I end up listing a user who
  does not exist in [connections]; the second write fails, the error banner
  shows it, and the request stays in the page's pending list. *)
Theorem accepting_a_deleted_requester_half_connects
    (s : Sys ProfilePage.Page) (me other : string) (dMe : UserDoc) :
  coll_users (store s) !! me = Some dMe →
  coll_users (store s) !! other = None →
  let r := ProfilePage.handleAcceptConnection (Some me) other s in
  r.2 = Ok ()
  ∧ ProfilePage.error (ui r.1) = Some (ProfilePage.MessageOf NotFound)
  ∧ ProfilePage.pendingConnections (ui r.1)
    = ProfilePage.pendingConnections (ui s)
  ∧ ProfilePage.snackbarOpen (ui r.1) = ProfilePage.snackbarOpen (ui s)
  ∧ coll_users (store r.1)
    = <[me := MkUserDoc
                (Some (arrayUnion other (JS.orEmpty (connections dMe))))
                (Some (arrayRemove other
                         (JS.orEmpty (pendingConnections dMe))))
                (blockedUsers dMe)]> (coll_users (store s))
  ∧ lists connections (store r.1) me other = true
  ∧ coll_users (store r.1) !! other = None.
Proof.
  intros Hme Hother r. subst r.
  assert (me ≠ other) as Hne by congruence.
  assert (ProfilePage.handleAcceptConnection (Some me) other s
          = (MkSys (with_users
                      (insert me
                         (applyUpdate (ProfilePage.acceptUpdate other) dMe))
                      (store s))
               (ProfilePage.setError
                  (Some (ProfilePage.MessageOf NotFound)) (ui s)),
             Ok ())) as ->.
  { unfold ProfilePage.handleAcceptConnection, try_catch.
    unfold mbind at 1, handler_bind.
    rewrite (updateDoc_exists _ _ _ dMe) by done.
    unfold mbind at 1, handler_bind.
    by rewrite updateDoc_missing by (simpl; by rewrite lookup_insert_ne). }
  cbn [fst snd store ui with_users coll_users].
  split; [done |]. split; [done |]. split; [done |]. split; [done |].
  split; [done |]. split.
  - unfold lists. simpl. rewrite lookup_insert_eq. simpl.
    apply includes_true, elem_of_arrayUnion. by left.
  - simpl. by rewrite lookup_insert_ne.
Qed.

Lemma accepting_a_deleted_requester_half_connects_witness :
  let w := store (ProfilePage.handleDeleteAccount (Some Scenario.bob) true
                    false
                    (MkSys Scenario.requestFromBob
                       Scenario.blankProfilePage)).1 in
  let r := ProfilePage.handleAcceptConnection (Some Scenario.alice)
             Scenario.bob (MkSys w Scenario.blankProfilePage) in
  ProfilePage.error (ui r.1) = Some (ProfilePage.MessageOf NotFound)
  ∧ lists connections (store r.1) Scenario.alice Scenario.bob = true
  ∧ coll_users (store r.1) !! Scenario.bob = None.
Proof.
  pose proof (accepting_a_deleted_requester_half_connects
    (MkSys (store (ProfilePage.handleDeleteAccount (Some Scenario.bob) true
                     false
                     (MkSys Scenario.requestFromBob
                        Scenario.blankProfilePage)).1)
       Scenario.blankProfilePage)
    Scenario.alice Scenario.bob
    (MkUserDoc None (Some [Scenario.bob]) None) eq_refl eq_refl)
    as (_ & H2 & _ & _ & _ & H6 & H7).
  split; [exact H2 | split; [exact H6 | exact H7]].
Defined.

(** After an acceptance the page drops the request from its pending list but
  does not add the new connection to its connected list; a reload then
  shows the requester among the connected users and no longer among the
  requests. *)
Theorem accepted_requester_is_connected_after_reload
    (s : Sys ProfilePage.Page) (me other : string) (dMe dOther : UserDoc) :
  unreadable (store s) = ∅ →
  me ≠ other →
  coll_users (store s) !! me = Some dMe →
  coll_users (store s) !! other = Some dOther →
  let s1 := (ProfilePage.handleAcceptConnection (Some me) other s).1 in
  let s2 := (ProfilePage.fetchUserData (Some me) s1).1 in
  (other ∉ ProfilePage.pendingConnections (ui s1))
  ∧ ProfilePage.connectedUsers (ui s1) = ProfilePage.connectedUsers (ui s)
  ∧ other ∈ ProfilePage.connectedUsers (ui s2)
  ∧ other ∉ ProfilePage.pendingConnections (ui s2).
Proof.
  intros Hr Hne Hme Hother s1 s2. subst s2 s1.
  rewrite (ConnectionFacts.handleAcceptConnection_run s me other dMe dOther)
    by (done || by rewrite lookup_insert_ne).
  cbn [fst].
  erewrite ConnectionFacts.fetchUserData_run;
    [| done | simpl; rewrite lookup_insert_ne by done; apply lookup_insert_eq].
  cbn [fst ui store with_users coll_users].
  split; [| split; [done |]; split].
  - simpl. rewrite list_elem_of_filter. tauto.
  - simpl. apply list_elem_of_filter. split.
    + by rewrite lookup_insert_eq.
    + apply elem_of_arrayUnion. by left.
  - simpl. rewrite list_elem_of_filter, elem_of_arrayRemove. tauto.
Qed.

Lemma accepted_requester_is_connected_after_reload_witness :
  let s := MkSys Scenario.requestFromBob Scenario.blankProfilePage in
  let s1 := (ProfilePage.handleAcceptConnection (Some Scenario.alice)
               Scenario.bob s).1 in
  let s2 := (ProfilePage.fetchUserData (Some Scenario.alice) s1).1 in
  Scenario.bob ∈ ProfilePage.connectedUsers (ui s2)
  ∧ Scenario.bob ∉ ProfilePage.pendingConnections (ui s2).
Proof.
  pose proof (accepted_requester_is_connected_after_reload
    (MkSys Scenario.requestFromBob Scenario.blankProfilePage)
    Scenario.alice Scenario.bob
    (MkUserDoc None (Some [Scenario.bob]) None) (MkUserDoc None None None))
    as H.
  destruct H as (_ & _ & H3 & H4); [reflexivity | discriminate | reflexivity ..|].
  split; [exact H3 | exact H4].
Defined.

(** A deleted account leaves its id in other users' arrays, but it is not
  listed: after B's account is deleted, a reload of A's profile page shows
  B neither among the requests nor among the connected users, while A's
  record is what it was. *)
Theorem deleted_account_is_not_listed (w : World) (A B : string)
    (dA : UserDoc) (pageA pageB : ProfilePage.Page) (authRefuses : bool) :
  unreadable w = ∅ →
  A ≠ B →
  coll_users w !! A = Some dA →
  let w' := store (ProfilePage.handleDeleteAccount (Some B) true authRefuses
                     (MkSys w pageB)).1 in
  let page := ui (ProfilePage.fetchUserData (Some A) (MkSys w' pageA)).1 in
  coll_users w' !! A = Some dA
  ∧ (B ∉ ProfilePage.pendingConnections page)
  ∧ (B ∉ ProfilePage.connectedUsers page)
  ∧ (∀ i, i ≠ B →
       (i ∈ ProfilePage.pendingConnections page
        ↔ (i ∈ JS.orEmpty (pendingConnections dA)
           ∧ is_Some (coll_users w !! i)))
       ∧ (i ∈ ProfilePage.connectedUsers page
          ↔ (i ∈ JS.orEmpty (connections dA)
             ∧ is_Some (coll_users w !! i)))).
Proof.
  intros Hr Hne HA w' page. subst page w'.
  rewrite ConnectionFacts.handleDeleteAccount_store.
  rewrite (ConnectionFacts.fetchUserData_run _ A dA)
    by (simpl; done || by rewrite lookup_delete_ne).
  cbn [fst ui store with_users coll_users]. simpl.
  split; [by rewrite lookup_delete_ne |].
  split; [| split].
  - rewrite list_elem_of_filter, lookup_delete_eq. by intros [[? ?] _].
  - rewrite list_elem_of_filter, lookup_delete_eq. by intros [[? ?] _].
  - intros i Hi. rewrite !list_elem_of_filter, lookup_delete_ne by done.
    tauto.
Qed.

Lemma deleted_account_is_not_listed_witness :
  let w' := store (ProfilePage.handleDeleteAccount (Some Scenario.alice) true
                     false
                     (MkSys Scenario.aliceEverywhere
                        Scenario.blankProfilePage)).1 in
  let page := ui (ProfilePage.fetchUserData (Some Scenario.carol)
                    (MkSys w' Scenario.blankProfilePage)).1 in
  lists pendingConnections w' Scenario.carol Scenario.alice = true
  ∧ Scenario.alice ∉ ProfilePage.pendingConnections page.
Proof.
  pose proof (deleted_account_is_not_listed Scenario.aliceEverywhere
    Scenario.carol Scenario.alice
    (MkUserDoc None (Some [Scenario.alice]) (Some [Scenario.alice]))
    Scenario.blankProfilePage Scenario.blankProfilePage false) as H.
  destruct H as (_ & H2 & _); [reflexivity | discriminate | reflexivity |].
  split; [reflexivity | exact H2].
Defined.

(** *** No handler lists an id twice *)

Lemma NoDup_arrayUnion x l : NoDup l → NoDup (arrayUnion x l).
Proof.
  intros Hl. unfold arrayUnion. destruct (JS.includes x l) eqn:E; [done |].
  apply NoDup_app. split; [done |]. split; [| apply NoDup_singleton].
  intros y Hy Hyx. apply list_elem_of_singleton in Hyx as ->.
  by apply includes_false in E.
Qed.

Lemma NoDup_arrayRemove x l : NoDup l → NoDup (arrayRemove x l).
Proof. intros Hl. unfold arrayRemove. by apply NoDup_filter. Qed.

Lemma NoDup_applyOp op f :
  (∀ l, op = Some (SetTo l) → NoDup l) →
  NoDup (JS.orEmpty f) → NoDup (JS.orEmpty (applyOp op f)).
Proof.
  intros Hop Hf. destruct op as [[x | x | l] |]; simpl.
  - by apply NoDup_arrayUnion.
  - by apply NoDup_arrayRemove.
  - by apply Hop.
  - done.
Qed.

Lemma tidy_insert (w : World) i d :
  tidy w →
  NoDup (JS.orEmpty (connections d)) →
  NoDup (JS.orEmpty (pendingConnections d)) →
  NoDup (JS.orEmpty (blockedUsers d)) →
  tidy (with_users (insert i d) w).
Proof.
  intros Hw H1 H2 H3 j dj. simpl.
  destruct (decide (i = j)) as [<- | Hne].
  - rewrite lookup_insert_eq. by intros [= <-].
  - rewrite lookup_insert_ne by done. apply Hw.
Qed.

Lemma tidy_delete (w : World) i : tidy w → tidy (with_users (delete i) w).
Proof.
  intros Hw j dj. simpl. destruct (decide (i = j)) as [<- | Hne].
  - by rewrite lookup_delete_eq.
  - rewrite lookup_delete_ne by done. apply Hw.
Qed.

Section Composition.
Context {P : Type}.
Implicit Types (s : Sys P).

Lemma updateDoc_tidy s i u :
  tidy (store s) →
  (∀ l, upd_connections u ≠ Some (SetTo l)) →
  (∀ l, upd_pendingConnections u ≠ Some (SetTo l)) →
  (∀ l, upd_blockedUsers u ≠ Some (SetTo l)) →
  tidy (store (updateDoc i u s).1).
Proof.
  intros Hw H1 H2 H3. unfold updateDoc.
  destruct (coll_users (store s) !! i) as [d |] eqn:Hd; [| done].
  simpl. destruct (Hw i d Hd) as (Hc & Hp & Hb).
  apply tidy_insert; [done | ..]; simpl; apply NoDup_applyOp;
    first [ done | intros l Hl; by first [ apply H1 in Hl | apply H2 in Hl
                                         | apply H3 in Hl ] ].
Qed.

Lemma bind_tidy {A B} (m : Handler P A) (f : A → Handler P B) s :
  tidy (store (m s).1) →
  (∀ a t, tidy (store t) → tidy (store (f a t).1)) →
  tidy (store ((m ≫= f) s).1).
Proof.
  intros Hm Hf. unfold mbind, handler_bind.
  destruct (m s) as [t [a | e]]; simpl in *; [by apply Hf | done].
Qed.

Lemma try_catch_tidy {A} (body : Handler P A) (handler : Error → Handler P A) s :
  tidy (store (body s).1) →
  (∀ e t, tidy (store t) → tidy (store (handler e t).1)) →
  tidy (store (try_catch body handler s).1).
Proof.
  intros Hm Hf. unfold try_catch.
  destruct (body s) as [t [a | e]]; simpl in *; [done | by apply Hf].
Qed.

End Composition.

(** The arrays stay free of duplicates: if no user record lists an id
  twice, none does after any of the handlers that write user records,
  whoever the two users are and whether or not the handler succeeds. *)
Theorem arrays_stay_duplicate_free (w : World) (me other : string)
    (browse : BrowsePage.Page) (profile : ProfilePage.Page)
    (chat : MessagesPage.Page) (admin : AdminPage.Page)
    (confirmed authRefuses : bool) :
  tidy w →
  tidy (store (BrowsePage.handleAddFriend (Some me) other (MkSys w browse)).1)
  ∧ tidy (store (BrowsePage.handleCancelRequest (Some me) other
                   (MkSys w browse)).1)
  ∧ tidy (store (BrowsePage.handleDisconnect (Some me) other
                   (MkSys w browse)).1)
  ∧ tidy (store (ProfilePage.handleAcceptConnection (Some me) other
                   (MkSys w profile)).1)
  ∧ tidy (store (ProfilePage.handleRejectConnection (Some me) other
                   (MkSys w profile)).1)
  ∧ tidy (store (ProfilePage.handleDeleteAccount (Some me) confirmed
                   authRefuses (MkSys w profile)).1)
  ∧ tidy (store (AdminPage.handleDeleteUser other confirmed
                   (MkSys w admin)).1)
  ∧ tidy (store (MessagesPage.handleBlockUser (Some me) other
                   (MkSys w chat)).1)
  ∧ tidy (store (MessagesPage.handleUnblockUser (Some me) other
                   (MkSys w chat)).1).
Proof.
  intros Hw.
  assert (∀ P (f : P → P) (t : Sys P),
            tidy (store t) → tidy (store (setState f t).1)) as Hset by done.
  refine (conj _ (conj _ (conj _ (conj _ (conj _ (conj _ (conj _ (conj _ _)))))))).
  - apply bind_tidy; [by apply updateDoc_tidy | intros; by apply Hset].
  - apply bind_tidy; [by apply updateDoc_tidy | intros; by apply Hset].
  - apply bind_tidy; [by apply updateDoc_tidy |]. intros _ t Ht.
    apply bind_tidy; [by apply updateDoc_tidy | intros; by apply Hset].
  - apply try_catch_tidy.
    + apply bind_tidy; [by apply updateDoc_tidy |]. intros _ t Ht.
      apply bind_tidy; [by apply updateDoc_tidy |]. intros _ t1 Ht1.
      apply bind_tidy; [by apply Hset |]. intros _ t2 Ht2.
      apply bind_tidy; [by apply Hset | intros; by apply Hset].
    + intros e t Ht. apply bind_tidy; [done | intros; by apply Hset].
  - apply try_catch_tidy.
    + apply bind_tidy; [by apply updateDoc_tidy |]. intros _ t Ht.
      apply bind_tidy; [by apply Hset |]. intros _ t2 Ht2.
      apply bind_tidy; [by apply Hset | intros; by apply Hset].
    + intros e t Ht. apply bind_tidy; [done | intros; by apply Hset].
  - destruct confirmed; [| done].
    rewrite ConnectionFacts.handleDeleteAccount_store. by apply tidy_delete.
  - destruct confirmed; [| done].
    rewrite ConnectionFacts.handleDeleteUser_store. by apply tidy_delete.
  - rewrite ConversationFacts.handleBlockUser_store. simpl.
    destruct (coll_users w !! me) as [d |] eqn:Hd; [| done].
    destruct (readable w me); [| done]. simpl.
    destruct (JS.includes other (JS.orEmpty (blockedUsers d))) eqn:E; [done |].
    simpl. destruct (Hw me d Hd) as (Hc & Hp & Hb).
    apply tidy_insert; [done | done | done |]. simpl.
    apply NoDup_app. split; [done |]. split; [| apply NoDup_singleton].
    intros y Hy Hyx. apply list_elem_of_singleton in Hyx as ->.
    by apply includes_false in E.
  - rewrite MessagesFacts.handleUnblockUser_store. simpl.
    destruct (blockSeen w me other); [| done]. unfold unblocked.
    destruct (coll_users w !! me) as [d |] eqn:Hd; [| done].
    destruct (Hw me d Hd) as (Hc & Hp & Hb).
    apply tidy_insert; [done | done | done |]. simpl. by apply NoDup_filter.
Qed.

Lemma arrays_stay_duplicate_free_witness :
  tidy (store (ProfilePage.handleAcceptConnection (Some Scenario.alice)
                 Scenario.bob
                 (MkSys Scenario.requestFromBob Scenario.blankProfilePage)).1).
Proof.
  pose proof (arrays_stay_duplicate_free Scenario.requestFromBob
    Scenario.alice Scenario.bob Scenario.blankBrowsePage
    Scenario.blankProfilePage (Scenario.freshPage None [])
    Scenario.blankAdminPage true false) as H.
  destruct H as (_ & _ & _ & H & _); [| exact H].
  intros i d. unfold Scenario.requestFromBob. simpl.
  destruct (decide (i = Scenario.alice)) as [-> | Ha].
  { intros [= <-]. simpl. repeat split; repeat constructor; set_solver. }
  rewrite lookup_insert_ne by done.
  destruct (decide (i = Scenario.bob)) as [-> | Hb].
  { rewrite lookup_singleton_eq. intros [= <-]. simpl.
    repeat split; constructor. }
  by rewrite lookup_singleton_ne.
Defined.

End RelationFacts.


(** ** Pagination and selection *)

Module PagingFacts.
Import Paging.

Lemma pageCount_bounds {A} (itemsPerPage : Z) (l : list A) :
  (0 < itemsPerPage)%Z →
  ((pageCount itemsPerPage l - 1) * itemsPerPage < Z.of_nat (length l)
   ∧ Z.of_nat (length l) ≤ pageCount itemsPerPage l * itemsPerPage)%Z.
Proof.
  intros Hpos. unfold pageCount.
  pose proof (Z.div_mod (- Z.of_nat (length l)) itemsPerPage ltac:(lia)) as Hdm.
  pose proof (Z.mod_pos_bound (- Z.of_nat (length l)) itemsPerPage Hpos) as Hm.
  nia.
Qed.

Lemma pageCount_nonneg {A} (itemsPerPage : Z) (l : list A) :
  (0 < itemsPerPage)%Z → (0 ≤ pageCount itemsPerPage l)%Z.
Proof. intros Hpos. pose proof (pageCount_bounds itemsPerPage l Hpos). nia. Qed.

(** From page 1 on, a page is a block of [itemsPerPage] entries. *)
Lemma paginated_take_drop {A} (itemsPerPage page : Z) (l : list A) :
  (0 < itemsPerPage)%Z → (1 ≤ page)%Z →
  paginated itemsPerPage page l
  = take (Z.to_nat itemsPerPage)
      (drop (Z.to_nat (page - 1) * Z.to_nat itemsPerPage) l).
Proof.
  intros Hpos Hp. unfold paginated, slice.
  assert (0 ≤ (page - 1) * itemsPerPage)%Z as Hs by nia.
  assert (0 < page * itemsPerPage)%Z as Hf by nia.
  destruct (Z.ltb_spec ((page - 1) * itemsPerPage) 0); [lia |].
  destruct (Z.ltb_spec (page * itemsPerPage) 0); [lia |].
  assert (Z.to_nat (page - 1) * Z.to_nat itemsPerPage
          = Z.to_nat ((page - 1) * itemsPerPage)) as ->
    by (rewrite Z2Nat.inj_mul; lia).
  destruct (Z.le_ge_cases (Z.of_nat (length l)) ((page - 1) * itemsPerPage))
    as [Hout | Hin].
  - rewrite Z.min_r by lia. rewrite Z.min_r by nia.
    rewrite !drop_ge by lia. by rewrite !take_nil.
  - rewrite (Z.min_l ((page - 1) * itemsPerPage)) by lia.
    destruct (Z.le_ge_cases (page * itemsPerPage) (Z.of_nat (length l)))
      as [Hfull | Hlast].
    + rewrite Z.min_l by lia. f_equal. lia.
    + rewrite Z.min_r by lia.
      rewrite !take_ge; [done | rewrite length_drop; lia
                        | rewrite length_drop; lia].
Qed.

Lemma blocks_concat {A} (n c : nat) (l : list A) :
  concat ((λ i, take n (drop (i * n) l)) <$> seq 0 c) = take (c * n) l.
Proof.
  induction c as [| c IH]; [done |].
  rewrite seq_S, fmap_app, concat_app, IH. simpl.
  rewrite app_nil_r, take_take_drop. f_equal. lia.
Qed.

(** The pages [1 .. count] of the pager, in order, are the list: every entry
  is on exactly one page. *)
Theorem pages_partition_the_list {A} (itemsPerPage : Z) (l : list A) :
  (0 < itemsPerPage)%Z →
  concat ((λ page, paginated itemsPerPage page l)
            <$> seqZ 1 (pageCount itemsPerPage l)) = l.
Proof.
  intros Hpos. unfold seqZ. rewrite <- list_fmap_compose.
  rewrite (list_fmap_ext _
             (λ i, take (Z.to_nat itemsPerPage)
                     (drop (i * Z.to_nat itemsPerPage) l))).
  - rewrite blocks_concat. apply take_ge.
    pose proof (pageCount_bounds itemsPerPage l Hpos) as [_ Hc].
    pose proof (pageCount_nonneg itemsPerPage l Hpos) as H0.
    assert (Z.of_nat (Z.to_nat (pageCount itemsPerPage l)
                      * Z.to_nat itemsPerPage)
            = (pageCount itemsPerPage l * itemsPerPage)%Z)
      by (rewrite Nat2Z.inj_mul; lia).
    lia.
  - intros i x _. simpl. rewrite paginated_take_drop by lia.
    do 3 f_equal. lia.
Qed.

Lemma pages_partition_the_list_witness :
  concat ((λ page, paginated 5 page (seq 0 12))
            <$> seqZ 1 (pageCount 5 (seq 0 12))) = seq 0 12.
Proof. apply (pages_partition_the_list 5 (seq 0 12)). lia. Defined.

(** Page sizes: before the last page a page is full, the last page of the
  pager has between one and [itemsPerPage] entries, and a page past the
  count shows nothing; the pager of the profile page is rendered exactly
  when there is more than one page. *)
Theorem page_sizes {A} (itemsPerPage page : Z) (l : list A) :
  (0 < itemsPerPage)%Z → (1 ≤ page)%Z →
  ((page < pageCount itemsPerPage l)%Z →
     Z.of_nat (length (paginated itemsPerPage page l)) = itemsPerPage)
  ∧ (page = pageCount itemsPerPage l →
     (1 ≤ Z.of_nat (length (paginated itemsPerPage page l)) ≤ itemsPerPage)%Z)
  ∧ ((pageCount itemsPerPage l < page)%Z →
     paginated itemsPerPage page l = [])
  ∧ ((itemsPerPage < Z.of_nat (length l))%Z
     ↔ (1 < pageCount itemsPerPage l)%Z).
Proof.
  intros Hpos Hp.
  pose proof (pageCount_bounds itemsPerPage l Hpos) as [Hlo Hhi].
  assert (Z.of_nat (Z.to_nat (page - 1) * Z.to_nat itemsPerPage)
          = ((page - 1) * itemsPerPage)%Z) as Hstart
    by (rewrite Nat2Z.inj_mul, !Z2Nat.id by lia; reflexivity).
  rewrite paginated_take_drop by done.
  refine (conj _ (conj _ (conj _ _))).
  - intros Hlt. rewrite length_take, length_drop. nia.
  - intros ->. rewrite length_take, length_drop. nia.
  - intros Hgt. rewrite drop_ge; [by rewrite take_nil | nia].
  - split; intros H; nia.
Qed.

Lemma page_sizes_witness :
  (1 ≤ Z.of_nat (length (paginated 5 3 (seq 0 12))) ≤ 5)%Z
  ∧ paginated 5 4 (seq 0 12) = [].
Proof.
  split.
  - pose proof (page_sizes 5 3 (seq 0 12) ltac:(lia) ltac:(lia))
      as (_ & H & _).
    exact (H eq_refl).
  - pose proof (page_sizes 5 4 (seq 0 12) ltac:(lia) ltac:(lia))
      as (_ & _ & H & _).
    apply H. vm_compute. reflexivity.
Defined.

End PagingFacts.

Module SelectionFacts.
Import AdminSelection.

(** [handleSelectUser] toggles one row: the checkbox of [userId] flips, the
  checkbox of every other row keeps its state, and a selection without
  repeated ids stays one, so that the header's comparison of lengths counts
  rows. *)
Theorem select_user_toggles_one_row (userId : string)
    (selectedUsers : list string) :
  JS.includes userId (handleSelectUser userId selectedUsers)
  = negb (JS.includes userId selectedUsers)
  ∧ (∀ other, other ≠ userId →
       JS.includes other (handleSelectUser userId selectedUsers)
       = JS.includes other selectedUsers)
  ∧ (NoDup selectedUsers → NoDup (handleSelectUser userId selectedUsers))
  ∧ (∀ row, JS.includes row
              (handleSelectUser userId (handleSelectUser userId selectedUsers))
            = JS.includes row selectedUsers).
Proof.
  assert (∀ u sel,
            JS.includes u (handleSelectUser u sel) = negb (JS.includes u sel))
    as Hflip.
  { intros u sel. unfold handleSelectUser.
    destruct (JS.includes u sel) eqn:E; simpl.
    - apply includes_false. rewrite list_elem_of_filter. by intros [? _].
    - apply includes_true. apply elem_of_app. right. by left. }
  assert (∀ u sel other, other ≠ u →
            JS.includes other (handleSelectUser u sel) = JS.includes other sel)
    as Hkeep.
  { intros u sel other Hne. unfold handleSelectUser.
    destruct (JS.includes u sel) eqn:E.
    - destruct (JS.includes other sel) eqn:Eo.
      + apply includes_true. rewrite list_elem_of_filter.
        split; [done | by apply includes_true].
      + apply includes_false. rewrite list_elem_of_filter.
        intros [_ Hin]. by apply includes_false in Eo.
    - destruct (JS.includes other sel) eqn:Eo.
      + apply includes_true. apply elem_of_app. left. by apply includes_true.
      + apply includes_false. rewrite elem_of_app. intros [Hin | Hin].
        * by apply includes_false in Eo.
        * apply list_elem_of_singleton in Hin. done. }
  refine (conj (Hflip _ _) (conj (Hkeep _ _) (conj _ _))).
  - intros Hnd. unfold handleSelectUser.
    destruct (JS.includes userId selectedUsers) eqn:E.
    + by apply NoDup_filter.
    + apply NoDup_app. split; [done |]. split; [| apply NoDup_singleton].
      intros y Hy Hyx. apply list_elem_of_singleton in Hyx as ->.
      by apply includes_false in E.
  - intros row. destruct (decide (row = userId)) as [-> | Hne].
    + rewrite !Hflip. by destruct (JS.includes userId selectedUsers).
    + by rewrite !Hkeep.
Qed.

(** The header checkbox compares lengths.  While the selection has no
  repeated id and holds only ids of the rows listed, and no row is listed
  twice, it is checked exactly when every row is checked, and neither
  checked nor indeterminate exactly when no row is; selecting all, and
  unselecting all, establish these conditions. *)
Theorem header_checkbox_counts_rows (selectedUsers filteredUsers : list string) :
  NoDup filteredUsers →
  NoDup selectedUsers →
  (∀ userId, userId ∈ selectedUsers → userId ∈ filteredUsers) →
  (headerChecked selectedUsers filteredUsers = true
   ↔ ∀ userId, userId ∈ filteredUsers → rowChecked selectedUsers userId = true)
  ∧ (headerIndeterminate selectedUsers filteredUsers = true
     ↔ (∃ userId, rowChecked selectedUsers userId = true)
       ∧ ∃ userId, userId ∈ filteredUsers
                   ∧ rowChecked selectedUsers userId = false)
  ∧ (∀ checked,
       let all := handleSelectAllUsers checked filteredUsers in
       NoDup all
       ∧ (∀ userId, userId ∈ all → userId ∈ filteredUsers)
       ∧ (∀ userId, userId ∈ filteredUsers → rowChecked all userId = checked)).
Proof.
  intros Hf Hs Hsub. unfold headerChecked, headerIndeterminate, rowChecked.
  assert (selectedUsers ⊆+ filteredUsers) as Hsm by by apply NoDup_submseteq.
  pose proof (submseteq_length _ _ Hsm) as Hle.
  assert (length selectedUsers = length filteredUsers
          ↔ ∀ userId, userId ∈ filteredUsers → userId ∈ selectedUsers) as Hall.
  { split.
    - intros Hlen userId Hin.
      assert (selectedUsers ≡ₚ filteredUsers) as Hp
        by (apply submseteq_length_Permutation; [done | lia]).
      by rewrite Hp.
    - intros Hrows.
      assert (filteredUsers ⊆+ selectedUsers) as Hsm'
        by by apply NoDup_submseteq.
      apply submseteq_length in Hsm'. lia. }
  refine (conj _ (conj _ _)).
  - rewrite bool_decide_eq_true, Hall.
    split; intros H userId Hin; apply includes_true; auto.
  - rewrite andb_true_iff, !bool_decide_eq_true. split.
    + intros [Hpos Hlt]. split.
      * destruct selectedUsers as [| u l]; [simpl in Hpos; lia |].
        exists u. apply includes_true. by left.
      * destruct (decide (Forall (λ u, u ∈ selectedUsers) filteredUsers))
          as [Hfa | Hnfa].
        { rewrite Forall_forall in Hfa. apply Hall in Hfa. lia. }
        apply not_Forall_Exists in Hnfa; [| apply _].
        apply Exists_exists in Hnfa as (u & Hu & Hnot).
        exists u. split; [done | by apply includes_false].
    + intros [[u Hu] [v [Hv Hnv]]]. apply includes_true in Hu.
      apply includes_false in Hnv. split.
      * destruct selectedUsers; [by apply elem_of_nil in Hu | simpl; lia].
      * destruct (decide (length selectedUsers = length filteredUsers))
          as [Heq | Hne]; [| lia].
        exfalso. apply Hnv. by apply Hall.
  - intros checked. cbv zeta. destruct checked; cbn [handleSelectAllUsers].
    + split; [done |]. split; [done |].
      intros userId Hin. by apply includes_true.
    + split; [apply NoDup_nil; exact I |]. split.
      * intros userId Hin. by apply elem_of_nil in Hin.
      * intros userId _. apply includes_false. apply not_elem_of_nil.
Qed.

Lemma header_checkbox_counts_rows_witness :
  headerChecked ["u1"; "u2"] ["u2"; "u1"] = true
  ∧ rowChecked ["u1"; "u2"] "u2" = true.
Proof.
  pose proof (header_checkbox_counts_rows ["u1"; "u2"] ["u2"; "u1"]) as H.
  destruct H as ([H _] & _ & _).
  - apply (bool_decide_unpack _). vm_compute. exact I.
  - apply (bool_decide_unpack _). vm_compute. exact I.
  - intros userId [-> | [-> | Hin]%elem_of_cons]%elem_of_cons.
    + right. by left.
    + by left.
    + by apply elem_of_nil in Hin.
  - split; [reflexivity |]. apply H; [reflexivity | by left].
Defined.

End SelectionFacts.


(** ** The chat list *)

Module ChatListFacts.
Import MessagesPage Conversation ChatList.

Lemma onPage_setState (f : Page → Page) (s : Sys Chats) :
  onPage (setState f) s
  = (MkSys (store s) (MkChats (f (page (ui s))) (users (ui s))), Ok ()).
Proof. reflexivity. Qed.

Lemma getAll_readable (s : Sys Chats) ids :
  Forall (λ u, readable (store s) u = true) ids →
  getAll ids s = (s, Ok ((λ u, (u, coll_users (store s) !! u)) <$> ids)).
Proof.
  induction 1 as [| u ids Hu _ IH]; [done |].
  cbn [getAll]. unfold mbind at 1, handler_bind.
  rewrite getDoc_readable by done.
  unfold mbind at 1, handler_bind. by rewrite IH.
Qed.

Lemma getAll_unreadable (s : Sys Chats) ids u :
  u ∈ ids → readable (store s) u = false →
  getAll ids s = (s, Throw Unavailable).
Proof.
  intros Hin Hu. induction ids as [| v ids IH]; [by apply elem_of_nil in Hin |].
  cbn [getAll]. unfold mbind at 1, handler_bind.
  destruct (readable (store s) v) eqn:Hv.
  - rewrite getDoc_readable by done.
    unfold mbind at 1, handler_bind. rewrite IH; [done |].
    apply elem_of_cons in Hin as [-> | Hin]; [congruence | done].
  - by rewrite getDoc_unreadable.
Qed.

Lemma existing_ids (w : World) ids :
  (filter (λ d : string * option UserDoc, is_Some d.2)
     ((λ u, (u, coll_users w !! u)) <$> ids)).*1
  = filter (λ u, is_Some (coll_users w !! u)) ids.
Proof.
  induction ids as [| u ids IH]; [done |].
  rewrite fmap_cons, !filter_cons. cbn [snd].
  destruct (decide (is_Some (coll_users w !! u)));
    [rewrite fmap_cons; cbn [fst] |]; by rewrite IH.
Qed.

Lemma find_id userId (l : list string) :
  List.find (λ user, bool_decide (user = userId)) l
  = if decide (userId ∈ l) then Some userId else None.
Proof.
  induction l as [| u l IH]; [done |]. simpl.
  destruct (decide (u = userId)) as [-> | Hne].
  - rewrite bool_decide_eq_true_2 by done.
    rewrite decide_True; [done | by left].
  - rewrite bool_decide_eq_false_2 by done. rewrite IH.
    destruct (decide (userId ∈ l)) as [Hin | Hout].
    + rewrite decide_True; [done | by right].
    + rewrite decide_False; [done |].
      intros [-> | H]%elem_of_cons; done.
Qed.

(** The whole run of [fetchConnectedUsers] when every read succeeds. *)
Lemma fetchConnectedUsers_run (w : World) (c : Chats) me userId d :
  coll_users w !! me = Some d →
  readable w me = true →
  Forall (λ u, readable w u = true) (JS.orEmpty (connections d)) →
  let listed := filter (λ u, is_Some (coll_users w !! u))
                  (JS.orEmpty (connections d)) in
  fetchConnectedUsers (Some me) userId (MkSys w c)
  = (MkSys w
       (MkChats
          (setLoading false
             (if bool_decide (userId = "") then page c
              else if decide (userId ∈ listed)
                   then setIsBlockedByThem (blockSeen w userId me)
                          (setIsBlocked (blockSeen w me userId)
                             (setSelectedUser (Some userId) (page c)))
                   else page c))
          listed),
     Ok ()).
Proof.
  intros Hd Hme Hall listed. unfold fetchConnectedUsers.
  unfold mbind at 1, handler_bind. unfold try_catch.
  unfold mbind at 1, handler_bind. rewrite getDoc_readable by done.
  cbn [store]. rewrite Hd.
  unfold mbind at 1, handler_bind. rewrite getAll_readable by done.
  cbn [store]. rewrite existing_ids. fold listed.
  unfold mbind at 1, handler_bind. cbn [setState setUsers ui store page].
  destruct (bool_decide (userId = "")); [reflexivity |].
  rewrite find_id. destruct (decide (userId ∈ listed)); [| reflexivity].
  unfold mbind at 1, handler_bind. rewrite onPage_setState.
  unfold mbind at 1, handler_bind. unfold onPage at 1.
  rewrite MessagesFacts.checkMutualBlockStatus_run. reflexivity.
Qed.

(** The run when the own record cannot be read, is missing, or lists a
  connection whose record cannot be read. *)
Lemma fetchConnectedUsers_failed (w : World) (c : Chats) me userId :
  readable w me = false
  ∨ coll_users w !! me = None
  ∨ (∃ d u, coll_users w !! me = Some d ∧ u ∈ JS.orEmpty (connections d)
            ∧ readable w u = false) →
  fetchConnectedUsers (Some me) userId (MkSys w c)
  = (MkSys w (MkChats (setLoading false (page c)) (users c)), Ok ()).
Proof.
  intros H. unfold fetchConnectedUsers.
  unfold mbind at 1, handler_bind. unfold try_catch.
  unfold mbind at 1, handler_bind.
  destruct (readable w me) eqn:Hme.
  - rewrite getDoc_readable by done. cbn [store].
    destruct H as [H | [H | (d & u & Hd & Hu & Hr)]]; [done | by rewrite H |].
    rewrite Hd. unfold mbind at 1, handler_bind.
    by rewrite (getAll_unreadable _ _ u).
  - by rewrite getDoc_unreadable.
Qed.

(** The chat list after loading: the list holds exactly the connections of
  the own record whose records exist, the store is not written, the
  loading flag is cleared, and the user of the route is selected exactly
  when the list holds them; the block flags are then those of the two
  records. *)
Theorem chat_list_is_my_existing_connections (w : World) (c : Chats)
    (me userId : string) (d : UserDoc) :
  coll_users w !! me = Some d →
  readable w me = true →
  Forall (λ u, readable w u = true) (JS.orEmpty (connections d)) →
  let s1 := (fetchConnectedUsers (Some me) userId (MkSys w c)).1 in
  store s1 = w
  ∧ (∀ u, u ∈ users (ui s1)
          ↔ u ∈ JS.orEmpty (connections d) ∧ is_Some (coll_users w !! u))
  ∧ loading (page (ui s1)) = false
  ∧ (userId ≠ "" → userId ∈ users (ui s1) →
       selectedUser (page (ui s1)) = Some userId
       ∧ isBlocked (page (ui s1)) = blockSeen w me userId
       ∧ isBlockedByThem (page (ui s1)) = blockSeen w userId me)
  ∧ (userId = "" ∨ userId ∉ users (ui s1) →
       selectedUser (page (ui s1)) = selectedUser (page c)
       ∧ messages (page (ui s1)) = messages (page c)).
Proof.
  intros Hd Hme Hall s1. subst s1.
  rewrite (fetchConnectedUsers_run w c me userId d Hd Hme Hall).
  cbn [fst store ui users page].
  refine (conj eq_refl (conj _ (conj eq_refl (conj _ _)))).
  - intros u. by rewrite list_elem_of_filter, (comm and).
  - intros Hne Hin. rewrite bool_decide_eq_false_2 by done.
    by rewrite decide_True.
  - intros [-> | Hout]; [done |].
    destruct (bool_decide (userId = "")); [done |].
    by rewrite decide_False.
Qed.

Lemma chat_list_is_my_existing_connections_witness :
  let s1 := (fetchConnectedUsers (Some Scenario.alice) Scenario.bob
               (MkSys Scenario.friends
                  (MkChats (Scenario.freshPage None []) []))).1 in
  selectedUser (page (ui s1)) = Some Scenario.bob.
Proof.
  intros s1.
  pose proof (chat_list_is_my_existing_connections Scenario.friends
    (MkChats (Scenario.freshPage None []) []) Scenario.alice Scenario.bob
    (MkUserDoc (Some [Scenario.bob]) None None)) as H.
  destruct H as (_ & _ & _ & H & _).
  - reflexivity.
  - reflexivity.
  - apply Forall_cons. split; [reflexivity | apply Forall_nil; exact I].
  - apply H; [done |]. vm_compute. by left.
Defined.

(** All or nothing: when the own record cannot be read or is missing, or
  when one of the connections it lists cannot be read, the chat list and
  the selection stay as they were; only the loading flag is cleared. *)
Theorem one_failed_read_keeps_the_old_list (w : World) (c : Chats)
    (me userId : string) :
  readable w me = false
  ∨ coll_users w !! me = None
  ∨ (∃ d u, coll_users w !! me = Some d ∧ u ∈ JS.orEmpty (connections d)
            ∧ readable w u = false) →
  (fetchConnectedUsers (Some me) userId (MkSys w c)).1
  = MkSys w (MkChats (setLoading false (page c)) (users c)).
Proof. intros H. by rewrite fetchConnectedUsers_failed. Qed.

Lemma one_failed_read_keeps_the_old_list_witness :
  users (ui (fetchConnectedUsers (Some Scenario.alice) Scenario.bob
               (MkSys (Scenario.outage Scenario.bob Scenario.friends)
                  (MkChats (Scenario.freshPage None []) []))).1) = [].
Proof.
  rewrite (one_failed_read_keeps_the_old_list
             (Scenario.outage Scenario.bob Scenario.friends)
             (MkChats (Scenario.freshPage None []) [])
             Scenario.alice Scenario.bob); [reflexivity |].
  right. right.
  exists (MkUserDoc (Some [Scenario.bob]) None None), Scenario.bob.
  split; [reflexivity |]. split; [by left | reflexivity].
Defined.

(** One turn of the loop never raises and leaves the state alone. *)
Lemma countUser_run (s : Sys Page) me answer user (t : Tables) :
  countUser me answer user t s
  = (s, Ok (match previewOf (store s) me answer user with
            | Some preview => <[user := preview]> t.1
            | None => t.1
            end,
            <[user := unreadOf (store s) me answer user]> t.2)).
Proof.
  unfold countUser, try_catch. unfold mbind at 1, handler_bind.
  rewrite MessagesFacts.checkMutualBlockStatus_run.
  cbn [user1BlocksUser2 user2BlocksUser1]. unfold unreadOf, previewOf.
  destruct (blockSeen (store s) me user || blockSeen (store s) user me);
    [reflexivity |].
  unfold mbind at 1, handler_bind, getMessages.
  destruct (answer user) as [docs |]; [| reflexivity].
  cbn. by destruct (last (toMessage <$> docs)).
Qed.

Lemma forUsers_run (s : Sys Page) me answer us (t : Tables) :
  ∃ t1, forUsers me answer us t s = (s, Ok t1)
        ∧ ∀ u,
            t1.2 !! u = (if decide (u ∈ us)
                         then Some (unreadOf (store s) me answer u)
                         else t.2 !! u)
            ∧ t1.1 !! u = (if decide (u ∈ us)
                           then match previewOf (store s) me answer u with
                                | Some preview => Some preview
                                | None => t.1 !! u
                                end
                           else t.1 !! u).
Proof.
  revert t. induction us as [| v us IH]; intros t.
  - exists t. split; [done |]. intros u.
    rewrite decide_False by apply not_elem_of_nil. done.
  - cbn [forUsers]. unfold mbind at 1, handler_bind. rewrite countUser_run.
    destruct (IH (match previewOf (store s) me answer v with
                  | Some preview => <[v := preview]> t.1
                  | None => t.1
                  end,
                  <[v := unreadOf (store s) me answer v]> t.2))
      as (t1 & Hrun & Ht1).
    exists t1. split; [done |]. intros u.
    destruct (Ht1 u) as [Hunread Hlast]. rewrite Hunread, Hlast.
    cbn [fst snd]. destruct (decide (u = v)) as [-> | Hne].
    + destruct (decide (v ∈ v :: us)) as [_ | Hout];
        [| exfalso; apply Hout; by left].
      rewrite lookup_insert_eq.
      destruct (decide (v ∈ us)); split; try done;
        destruct (previewOf (store s) me answer v); try done;
        by rewrite lookup_insert_eq.
    + rewrite lookup_insert_ne by done.
      assert (t.1 !! u
              = match previewOf (store s) me answer v with
                | Some preview => <[v := preview]> t.1
                | None => t.1
                end !! u) as <-.
      { destruct (previewOf (store s) me answer v); [| done].
        by rewrite lookup_insert_ne. }
      destruct (decide (u ∈ us)) as [Hin | Hout];
        destruct (decide (u ∈ v :: us)) as [Hin' | Hout']; try done.
      * exfalso. apply Hout'. by right.
      * apply elem_of_cons in Hin' as [? | ?]; done.
Qed.

(** The whole run of [updateLastMessagesAndUnreadCounts]. *)
Lemma updateLastMessagesAndUnreadCounts_run (w : World) (c : Chats)
    (me : string) (answer : string → option (list (string * MessageDoc))) :
  ∃ t1 : Tables,
    updateLastMessagesAndUnreadCounts (Some me) answer (MkSys w c)
    = (MkSys w
         (MkChats
            (setUnreadMessages (λ _, t1.2)
               (setLastMessages (λ _, t1.1) (page c)))
            (users c)),
       Ok ())
    ∧ ∀ u,
        t1.2 !! u
        = (if decide (u ∈ users c) then Some (unreadOf w me answer u)
           else None)
        ∧ t1.1 !! u
          = (if decide (u ∈ users c) then previewOf w me answer u else None).
Proof.
  destruct (forUsers_run (MkSys w (page c)) me answer (users c) (∅, ∅))
    as (t1 & Hrun & Ht1).
  exists t1. split.
  - unfold updateLastMessagesAndUnreadCounts.
    unfold mbind at 1, handler_bind. cbn [getState ui].
    unfold mbind at 1, handler_bind. unfold onPage at 1. cbn [store ui].
    rewrite Hrun. reflexivity.
  - intros u. destruct (Ht1 u) as [Hunread Hlast]. cbn [fst snd store] in *.
    rewrite Hunread, Hlast.
    destruct (decide (u ∈ users c)); [| by rewrite !lookup_empty].
    split; [done |].
    destruct (previewOf w me answer u); [done | by rewrite lookup_empty].
Qed.

(** The badges and previews after [updateLastMessagesAndUnreadCounts], user
  by user: the store and the chat list are untouched; a user of the list gets
  a count (zero when either block is seen or the query raised, else the
  unseen messages addressed to the current user) and the last message of
  the query, none when a block is seen, the query raised or it was empty; a
  user who is not on the list gets neither, whatever the page held before.
  A failure for one user does not stop the loop for the others. *)
Theorem counts_follow_the_chat_list (w : World) (c : Chats) (me : string)
    (answer : string → option (list (string * MessageDoc))) :
  let run := updateLastMessagesAndUnreadCounts (Some me) answer (MkSys w c) in
  run.2 = Ok ()
  ∧ store run.1 = w
  ∧ users (ui run.1) = users c
  ∧ ∀ u,
      unreadMessages (page (ui run.1)) !! u
      = (if decide (u ∈ users c) then Some (unreadOf w me answer u) else None)
      ∧ lastMessages (page (ui run.1)) !! u
        = (if decide (u ∈ users c) then previewOf w me answer u else None).
Proof.
  intros run.
  destruct (updateLastMessagesAndUnreadCounts_run w c me answer)
    as (t1 & Hrun & Ht1).
  subst run. rewrite Hrun. cbn [fst snd store ui page users].
  refine (conj eq_refl (conj eq_refl (conj eq_refl Ht1))).
Qed.

(** A deleted message is still previewed: after its deletion through
  [handleDeleteMessage] the stored message is flagged as deleted, and when
  it is the last message of the conversation the chat list shows its text
  as before. *)
Theorem deleted_message_is_still_previewed (w : World) (c : Chats)
    (me other messageId : string) (d : MessageDoc)
    (earlier : list (string * MessageDoc))
    (answer : string → option (list (string * MessageDoc))) :
  coll_messages w !! messageId = Some d →
  other ∈ users c →
  blockSeen w me other = false →
  blockSeen w other me = false →
  let s1 := (onPage (handleDeleteMessage (Some me) messageId) (MkSys w c)).1 in
  (∀ stored, coll_messages (store s1) !! messageId = Some stored →
     answer other = Some (earlier ++ [(messageId, stored)])) →
  let s2 := (updateLastMessagesAndUnreadCounts (Some me) answer s1).1 in
  (doc_isDeleted <$> coll_messages (store s2) !! messageId = Some (Some true))
  ∧ lastMessages (page (ui s2)) !! other = Some (doc_text d, doc_senderId d).
Proof.
  intros Hd Hin Hb1 Hb2 s1 Hanswer s2.
  assert (s1 = MkSys (with_messages (insert messageId (softDelete d)) w) c)
    as Hs1.
  { subst s1. unfold onPage, handleDeleteMessage, try_catch.
    rewrite (updateMessage_exists _ _ _ d) by done. by destruct c. }
  assert (answer other = Some (earlier ++ [(messageId, softDelete d)]))
    as Hdocs.
  { apply Hanswer. rewrite Hs1. cbn. by rewrite lookup_insert_eq. }
  clearbody s1. subst s1.
  destruct (updateLastMessagesAndUnreadCounts_run
              (with_messages (insert messageId (softDelete d)) w) c me answer)
    as (t1 & Hrun & Hrows).
  subst s2. rewrite Hrun. cbn [fst store ui page].
  destruct (Hrows other) as [_ Hlast].
  cbn [lastMessages setUnreadMessages setLastMessages].
  rewrite Hlast. split.
  - cbn. by rewrite lookup_insert_eq.
  - rewrite decide_True by done. unfold previewOf.
    replace (blockSeen (with_messages (insert messageId (softDelete d)) w)
               me other) with false by done.
    replace (blockSeen (with_messages (insert messageId (softDelete d)) w)
               other me) with false by done.
    cbn [orb]. rewrite Hdocs, fmap_app. cbn [fmap list_fmap].
    rewrite last_snoc. reflexivity.
Qed.

Lemma deleted_message_is_still_previewed_witness :
  let answer := λ _ : string, Some [("m1", softDelete Scenario.fromBob)] in
  let s1 := (onPage (handleDeleteMessage (Some Scenario.bob) "m1")
               (MkSys Scenario.friends
                  (MkChats (Scenario.freshPage None []) [Scenario.alice]))).1 in
  let s2 := (updateLastMessagesAndUnreadCounts (Some Scenario.bob) answer
               s1).1 in
  lastMessages (page (ui s2)) !! Scenario.alice
  = Some (Scenario.hi, Scenario.bob).
Proof.
  intros answer s1 s2.
  pose proof (deleted_message_is_still_previewed Scenario.friends
    (MkChats (Scenario.freshPage None []) [Scenario.alice])
    Scenario.bob Scenario.alice "m1" Scenario.fromBob [] answer) as H.
  apply H.
  - reflexivity.
  - by left.
  - reflexivity.
  - reflexivity.
  - intros stored Hstored. vm_compute in Hstored.
    injection Hstored as <-. reflexivity.
Defined.

(** Opening a chat: the click on a row selects the user and clears the
  badge without writing to the store; the first snapshot of the opened
  conversation then marks the unseen messages addressed to the current user
  as seen, and sets the badge to the number it has just marked, so that the
  badge counts messages of which none is unseen in the store any more. *)
Theorem opened_chat_counts_what_it_marked (w : World) (c : Chats)
    (me other : string) (docs : list (string * MessageDoc)) :
  blockSeen w me other = false →
  blockSeen w other me = false →
  snapshotOf w docs →
  let s1 := (selectChat other (MkSys w c)).1 in
  let s2 := (onPage (onSnapshot me other docs) s1).1 in
  store s1 = w
  ∧ selectedUser (page (ui s1)) = Some other
  ∧ badgeContent (page (ui s1)) other = 0
  ∧ badgeContent (page (ui s2)) other
    = length (filter (λ m, unseenFor me m) (toMessage <$> docs))
  ∧ (∀ i d, (i, d) ∈ docs → doc_receiverId d = me →
       ∃ d', coll_messages (store s2) !! i = Some d'
             ∧ JS.orFalse (doc_seen d') = true).
Proof.
  intros Hb1 Hb2 Hdocs s1 s2.
  set (p1 := setUnreadMessages (insert other 0)
               (setSelectedUser (Some other) (page c))).
  assert (s1 = MkSys w (MkChats p1 (users c))) as Hs1 by reflexivity.
  clearbody s1. subst s1.
  assert (s2 = (onPage (onSnapshot me other docs)
                  (MkSys w (MkChats p1 (users c)))).1) as Hs2 by reflexivity.
  clearbody s2. unfold onPage in Hs2. cbn [store ui page users] in Hs2.
  rewrite (MessagesFacts.onSnapshot_open (MkSys w p1) me other docs Hb1 Hb2 Hdocs)
    in Hs2.
  cbn [fst store ui] in Hs2. subst s2. cbn [store ui page users].
  refine (conj eq_refl (conj eq_refl (conj _ (conj _ _)))).
  - unfold badgeContent, p1. cbn. by rewrite lookup_insert_eq.
  - unfold badgeContent.
    destruct (last (toMessage <$> docs)); cbn; by rewrite lookup_insert_eq.
  - intros i d Hin Hme. cbn.
    rewrite MessagesFacts.lookup_foldr_alter
      by apply MessagesFacts.markSeen_idemp.
    unfold snapshotOf in Hdocs. rewrite Forall_forall in Hdocs.
    pose proof (Hdocs _ Hin) as Hd. cbn in Hd. rewrite Hd.
    destruct (bool_decide _) eqn:E.
    + by exists (markSeen d).
    + exists d. split; [done |].
      apply bool_decide_eq_false in E.
      destruct (JS.orFalse (doc_seen d)) eqn:Hseen; [done |].
      exfalso. apply E. apply MessagesFacts.elem_of_seenBatch. eauto.
Qed.

Lemma opened_chat_counts_what_it_marked_witness :
  let s1 := (selectChat Scenario.bob
               (MkSys Scenario.friends
                  (MkChats (Scenario.freshPage None []) [Scenario.bob]))).1 in
  let s2 := (onPage (onSnapshot Scenario.alice Scenario.bob
                       [("m1", Scenario.fromBob)]) s1).1 in
  badgeContent (page (ui s2)) Scenario.bob = 1
  ∧ ∃ d', coll_messages (store s2) !! "m1" = Some d'
          ∧ JS.orFalse (doc_seen d') = true.
Proof.
  intros s1 s2.
  pose proof (opened_chat_counts_what_it_marked Scenario.friends
    (MkChats (Scenario.freshPage None []) [Scenario.bob])
    Scenario.alice Scenario.bob [("m1", Scenario.fromBob)]) as H.
  destruct H as (_ & _ & _ & Hbadge & Hseen).
  - reflexivity.
  - reflexivity.
  - apply Forall_cons. split; [reflexivity | apply Forall_nil; exact I].
  - split; [exact Hbadge |].
    apply (Hseen "m1" Scenario.fromBob); [by left | reflexivity].
Defined.

End ChatListFacts.
